(** * Feature preparation contract of the VCVR landing-page model

    A shallow embedding of [train-model.py]: the fit-time pipeline
    [clean_and_impute] (row filter, RANK sentinel, category statistics,
    column pruning, numeric restriction, zero/median imputation, sample
    weights), the bundle written by [save_model], and the inference-time
    replay ([apply_basic_imputation_for_inference],
    [predict_vcvr_from_features]) with the smoke test of the prediction
    script, and the report script [debug_error_column.py].

    Modelling conventions.
    - A pandas DataFrame is an ordered list of labelled columns together with
      its number of rows.  The row index is the implicit RangeIndex that
      [read_csv] produces, so [df.loc[X.index, c]] is the column [c] itself.
      Column labels are distinct, as [read_csv] makes them: [df[c]] is the one
      column of that label, and the statements about whole frames say so.
    - A numeric column (int64/float64) holds cells of type [option Q]:
      [None] is NaN.  Only finite numbers are represented; rounding,
      overflow and the IEEE infinities are outside the model, and a
      comparison of floats is the comparison of the rationals.
    - Any other column is an object column and holds cells of type
      [option value], as [read_csv] makes it from a column of strings.
      Columns of dtype bool are not represented.
    - Column labels are strings of bytes.  [str.upper] and [str.lower] are
      modelled on ASCII letters; the statements that depend on them say that
      the labels are ASCII ([is_ascii]).
    - Weights are real numbers: [np.sqrt] is the real square root.
    - [print] is modelled by a log of messages, exceptions by [Raise].  A
      message carries the values that the source formats into the line, not
      their rounding by the format ([:.4f], [:.1%]).
    - [float] on a string, [train_model] (XGBoost's fit, which may raise and
      prints its own lines) and the trained regressor are parameters. *)

From Stdlib Require Import List String Ascii Bool Arith ZArith QArith Lia.
From Stdlib Require Import Reals Qreals Lra Permutation.
Import ListNotations.
Local Close Scope Q_scope.
Local Close Scope R_scope.
Local Open Scope nat_scope.
Local Open Scope string_scope.
Local Open Scope list_scope.

Set Implicit Arguments.

(** ** Values, columns and frames *)

Inductive value : Type :=
  | VNum (q : Q)
  | VStr (s : string).

Inductive series : Type :=
  | NumCol (cells : list (option Q))
  | ObjCol (cells : list (option value)).

Record DataFrame : Type := mkFrame {
  nrows : nat;
  columns : list (string * series)
}.

Definition labels (df : DataFrame) : list string := map fst (columns df).

Definition mem (c : string) (l : list string) : bool :=
  existsb (String.eqb c) l.

Fixpoint lookup {A : Type} (c : string) (l : list (string * A)) : option A :=
  match l with
  | [] => None
  | (k, v) :: rest => if String.eqb c k then Some v else lookup c rest
  end.

(** [df[c]] *)
Definition get (df : DataFrame) (c : string) : option series :=
  lookup c (columns df).

(** [d[c] = v] on an insertion-ordered dict, and [df[c] = s] on a frame:
    an existing key keeps its position, a new one goes last. *)
Fixpoint assign {A : Type} (c : string) (v : A) (l : list (string * A))
  : list (string * A) :=
  match l with
  | [] => [(c, v)]
  | (k, w) :: rest =>
      if String.eqb c k then (k, v) :: rest else (k, w) :: assign c v rest
  end.

Definition set_col (df : DataFrame) (c : string) (s : series) : DataFrame :=
  mkFrame (nrows df) (assign c s (columns df)).

(** [df.drop(columns=names)] *)
Definition drop (df : DataFrame) (names : list string) : DataFrame :=
  mkFrame (nrows df)
          (filter (fun p => negb (mem (fst p) names)) (columns df)).

Definition is_numeric (s : series) : bool :=
  match s with NumCol _ => true | ObjCol _ => false end.

(** [df.select_dtypes(include=[np.number])] *)
Definition select_dtypes_number (df : DataFrame) : DataFrame :=
  mkFrame (nrows df) (filter (fun p => is_numeric (snd p)) (columns df)).

Definition is_none {A : Type} (o : option A) : bool :=
  match o with None => true | Some _ => false end.

(** [s.isnull()] *)
Definition isnull (s : series) : list bool :=
  match s with
  | NumCol l => map is_none l
  | ObjCol l => map is_none l
  end.

Definition notnull (s : series) : list bool := map negb (isnull s).

Definition count_true (l : list bool) : nat :=
  List.length (filter (fun b => b) l).

(** [s.isnull().mean()]: NaN on an empty column. *)
Definition bool_mean (l : list bool) : option Q :=
  match List.length l with
  | O => None
  | S _ => Some (Qmake (Z.of_nat (count_true l)) (Pos.of_nat (List.length l)))
  end.

Definition isnull_mean (s : series) : option Q := bool_mean (isnull s).

Definition fill {A : Type} (v : A) (o : option A) : option A :=
  match o with None => Some v | Some x => Some x end.

(** [s.fillna(v)] with a number [v] *)
Definition fillna (v : Q) (s : series) : series :=
  match s with
  | NumCol l => NumCol (map (fill v) l)
  | ObjCol l => ObjCol (map (fill (VNum v)) l)
  end.

(** [s.fillna(v)] where [v] may itself be NaN: filling with NaN changes
    nothing. *)
Definition fillna_float (v : option Q) (s : series) : series :=
  match v with
  | Some q => fillna q s
  | None => s
  end.

(** [df.fillna(v)] *)
Definition fillna_frame (v : Q) (df : DataFrame) : DataFrame :=
  mkFrame (nrows df) (map (fun p => (fst p, fillna v (snd p))) (columns df)).

(** Boolean-mask row selection [df[mask]]. *)
Fixpoint select {A : Type} (mask : list bool) (l : list A) : list A :=
  match mask, l with
  | b :: mask', x :: l' => if b then x :: select mask' l' else select mask' l'
  | _, _ => []
  end.

Definition select_series (mask : list bool) (s : series) : series :=
  match s with
  | NumCol l => NumCol (select mask l)
  | ObjCol l => ObjCol (select mask l)
  end.

Definition select_rows (mask : list bool) (df : DataFrame) : DataFrame :=
  mkFrame (count_true mask)
          (map (fun p => (fst p, select_series mask (snd p))) (columns df)).

Definition series_has_null (s : series) : bool :=
  existsb (fun b => b) (isnull s).

(** [df.isnull().any().any()] *)
Definition frame_has_null (df : DataFrame) : bool :=
  existsb (fun p => series_has_null (snd p)) (columns df).

(** [df.isnull().any(axis=1).sum()] *)
Definition row_has_null (df : DataFrame) (i : nat) : bool :=
  existsb (fun p => nth i (isnull (snd p)) false) (columns df).

Definition count_null_rows (df : DataFrame) : nat :=
  count_true (map (row_has_null df) (seq 0 (nrows df))).

(** ** Numeric helpers *)

Definition Qlt_bool (a b : Q) : bool := negb (Qle_bool b a).

Fixpoint insert_sorted (x : Q) (l : list Q) : list Q :=
  match l with
  | [] => [x]
  | y :: rest => if Qle_bool x y then x :: l else y :: insert_sorted x rest
  end.

Definition sort_values (l : list Q) : list Q :=
  fold_right insert_sorted [] l.

Fixpoint dropna {A : Type} (l : list (option A)) : list A :=
  match l with
  | [] => []
  | Some x :: rest => x :: dropna rest
  | None :: rest => dropna rest
  end.

Definition Qsum (l : list Q) : Q := fold_right Qplus 0%Q l.

(** Mean and median skip NaN and are NaN when nothing is left.  [Qred] only
    picks the reduced fraction of a computed number. *)
Definition mean_values (l : list Q) : option Q :=
  match List.length l with
  | O => None
  | S _ => Some (Qred (Qsum l / (Z.of_nat (List.length l) # 1)))%Q
  end.

Definition median_values (l : list Q) : option Q :=
  let s := sort_values l in
  let n := List.length s in
  match n with
  | O => None
  | S _ =>
      if Nat.odd n then nth_error s (n / 2)
      else match nth_error s (n / 2 - 1), nth_error s (n / 2) with
           | Some a, Some b => Some (Qred ((a + b) / (2 # 1)))%Q
           | _, _ => None
           end
  end.

Definition nanmean (l : list (option Q)) : option Q := mean_values (dropna l).
Definition nanmedian (l : list (option Q)) : option Q :=
  median_values (dropna l).

(** ** Strings *)

Definition upper_ascii (a : ascii) : ascii :=
  let n := nat_of_ascii a in
  if andb (Nat.leb 97 n) (Nat.leb n 122) then ascii_of_nat (n - 32) else a.

(** [s.upper()], on ASCII letters. *)
Fixpoint upper (s : string) : string :=
  match s with
  | EmptyString => EmptyString
  | String a rest => String (upper_ascii a) (upper rest)
  end.

(** [sub in s] *)
Fixpoint contains (sub s : string) : bool :=
  if String.prefix sub s then true
  else match s with
       | EmptyString => false
       | String _ rest => contains sub rest
       end.

(** The labels on which [upper] is [str.upper]. *)
Fixpoint is_ascii (s : string) : bool :=
  match s with
  | EmptyString => true
  | String a rest => andb (Nat.ltb (nat_of_ascii a) 128) (is_ascii rest)
  end.

(** ** Printing and exceptions

    A computation yields the messages it printed and either a value or the
    exception that stopped it. *)

Inductive exn : Type :=
  | KeyError (key : string)
  | UnboundLocalError (name : string)
  | ValueError
  | TypeError
  | MergeError.

Inductive message : Type :=
  | DroppedRows (n : nat)
  | SentinelApplied
  | CategoryStatsAdded
  | DroppingColumns
  | DroppedColumn (c : string) (ratio : option Q)
  | FilledZero (c : string)
  | FilledMedian (c : string) (median_val : option Q)
  | WarnNaNRows (n_bad : nat)
  | FeatureShape (rows cols : nat)
  | TargetShape (rows : nat)
  | UniformBaseWeights
  | InternalMultiplierApplied
  | InternalFlagNotFound
  | WarnMissingFeatureColumns (n : nat)
  | LoadedShape (rows cols : nat)
  | SavedModel.

Inductive result (A : Type) : Type :=
  | Ok (a : A)
  | Raise (e : exn).

Arguments Ok {A} a.
Arguments Raise {A} e.

Definition M (A : Type) : Type := (list message * result A)%type.

Definition ret {A : Type} (a : A) : M A := ([], Ok a).

Definition raise {A : Type} (e : exn) : M A := ([], Raise e).

Definition print (m : message) : M unit := ([m], Ok tt).

Definition bind {A B : Type} (c : M A) (k : A -> M B) : M B :=
  match c with
  | (out, Ok a) => let (out', r) := k a in (out ++ out', r)
  | (out, Raise e) => (out, Raise e)
  end.

Notation "x <- c ;; k" := (bind c (fun x => k))
  (at level 61, c at next level, right associativity).
Notation "c ;; k" := (bind c (fun _ => k))
  (at level 61, right associativity).
Notation "' pat <- c ;; k" :=
  (bind c (fun x => match x with pat => k end))
  (at level 61, pat pattern, c at next level, right associativity).

Definition printed {A : Type} (c : M A) : list message := fst c.
Definition outcome {A : Type} (c : M A) : result A := snd c.

Definition lift {A : Type} (r : result A) : M A := ([], r).

Fixpoint foldM {A S : Type} (f : S -> A -> M S) (l : list A) (s : S) : M S :=
  match l with
  | [] => ret s
  | a :: rest => s' <- f s a ;; foldM f rest s'
  end.

Fixpoint for_each {A : Type} (f : A -> M unit) (l : list A) : M unit :=
  match l with
  | [] => ret tt
  | a :: rest => f a ;; for_each f rest
  end.

(** ** Configuration *)

Definition TARGET_COL : string := "VCVR".
Definition ID_COLS : list string := ["URL"].
Definition INTERNAL_FLAG_COL : string := "IsInternal".

(** ** Step 1: rows with a missing target *)

Definition drop_missing_target (df : DataFrame) : M DataFrame :=
  match get df TARGET_COL with
  | None => raise (KeyError TARGET_COL)
  | Some t =>
      let kept := select_rows (notnull t) df in
      print (DroppedRows (nrows df - nrows kept)) ;;
      ret kept
  end.

(** ** Step 2: the RANK sentinel and, nested in it, the category statistics *)

Definition sentinel_value : Q := (-1 # 1)%Q.

(** [s.isnull().astype(int)] *)
Definition isnull_astype_int (s : series) : series :=
  NumCol (map (fun b : bool => Some (if b then 1 else 0)%Q) (isnull s)).

Definition value_eqb (a b : value) : bool :=
  match a, b with
  | VNum p, VNum q => Qeq_bool p q
  | VStr s, VStr t => String.eqb s t
  | _, _ => false
  end.

Definition keys_of (s : series) : list (option value) :=
  match s with
  | NumCol l => map (option_map VNum) l
  | ObjCol l => l
  end.

Definition key_is (k : value) (c : option value) : bool :=
  match c with
  | Some v => value_eqb k v
  | None => false
  end.

(** The group keys: the distinct non-missing values of the key column. *)
Fixpoint group_keys (l : list (option value)) : list value :=
  match l with
  | [] => []
  | None :: rest => group_keys rest
  | Some k :: rest =>
      k :: filter (fun v => negb (value_eqb k v)) (group_keys rest)
  end.

Record cat_row : Type := mkCat {
  cat_key : value;
  cat_mean_vcvr : option Q;
  cat_median_vcvr : option Q;
  cat_count : nat
}.

(** [df.groupby("Category")[TARGET_COL].agg(mean, median, count)
      .reset_index()] *)
Definition groupby_agg (keys : list (option value)) (target : list (option Q))
  : list cat_row :=
  map (fun k =>
         let g := select (map (key_is k) keys) target in
         mkCat k (nanmean g) (nanmedian g) (List.length (dropna g)))
      (group_keys keys).

Definition category_stats (df : DataFrame) : M (list cat_row) :=
  match get df "Category", get df TARGET_COL with
  | None, _ => raise (KeyError "Category")
  | _, None => raise (KeyError TARGET_COL)
  | Some c, Some (NumCol t) => ret (groupby_agg (keys_of c) t)
  | Some _, Some (ObjCol _) => raise TypeError
  end.

Definition find_cat (stats : list cat_row) (k : option value) : option cat_row :=
  match k with
  | None => None
  | Some v => find (fun r => value_eqb (cat_key r) v) stats
  end.

Definition stat_labels : list string :=
  ["cat_mean_vcvr"; "cat_median_vcvr"; "cat_count"].

Definition with_suffix (overlap : list string) (suffix : string)
  (p : string * series) : string * series :=
  (if mem (fst p) overlap then String.append (fst p) suffix else fst p, snd p).

(** The three aggregate columns, one cell per left row: the aggregates of the
    row's category, NaN for a row whose key matches no group. *)
Definition stat_columns (stats : list cat_row) (keys : list (option value))
  : list (string * series) :=
  let joined := map (find_cat stats) keys in
  let pick (f : cat_row -> option Q) :=
    NumCol (map (fun j => match j with Some r => f r | None => None end)
                joined) in
  [("cat_mean_vcvr", pick cat_mean_vcvr);
   ("cat_median_vcvr", pick cat_median_vcvr);
   ("cat_count", pick (fun r => Some (inject_Z (Z.of_nat (cat_count r)))))].

Fixpoint distinct (l : list string) : bool :=
  match l with
  | [] => true
  | c :: rest => negb (mem c rest) && distinct rest
  end.

(** [df.merge(cat_stats, on="Category", how="left")]: the group keys are
    distinct, so every left row is kept once and in place.  Labels present
    on both sides take the suffixes [_x] and [_y]; suffixes that make two
    labels of the result equal raise MergeError.  (pandas before 3 lets a
    label of the left frame that equals a suffixed label of the right frame
    through, and the fit then raises ValueError at [missing_ratio[c] > 0.40]
    in the pruning loop, on the label that occurs twice: in either version
    the fit raises.) *)
Definition merge_left (df : DataFrame) (stats : list cat_row) : M DataFrame :=
  match get df "Category" with
  | None => raise (KeyError "Category")
  | Some c =>
      let right := stat_columns stats (keys_of c) in
      let overlap := filter (fun l => mem l (labels df)) stat_labels in
      let merged := map (with_suffix overlap "_x") (columns df)
                    ++ map (with_suffix overlap "_y") right in
      if distinct (map fst merged)
      then ret (mkFrame (nrows df) merged)
      else raise MergeError
  end.

Definition handle_rank (df : DataFrame)
  : M (DataFrame * list (string * Q)) :=
  match get df "RANK" with
  | None => ret (df, [])
  | Some rank =>
      let df := set_col df "RANK_missing" (isnull_astype_int rank) in
      let df := set_col df "RANK" (fillna sentinel_value rank) in
      let sentinel_cols := assign "RANK" sentinel_value [] in
      print SentinelApplied ;;
      (* [cat_stats] is bound only under the Category guard, the merge that
         reads it is not under that guard *)
      cat_stats <- (if mem "Category" (labels df)
                    then (s <- category_stats df ;; ret (Some s))
                    else ret None) ;;
      stats <- match cat_stats with
               | Some s => ret s
               | None => raise (UnboundLocalError "cat_stats")
               end ;;
      df <- merge_left df stats ;;
      print CategoryStatsAdded ;;
      ret (df, sentinel_cols)
  end.

(** ** Step 3: columns with too many missing values *)

Definition missing_ratio (df : DataFrame) (c : string) : option Q :=
  match get df c with
  | Some s => isnull_mean s
  | None => None
  end.

Definition drop_threshold : Q := (40 # 100)%Q.

(** [ratio > 0.40]; any comparison with NaN is false. *)
Definition exceeds (ratio : option Q) (threshold : Q) : bool :=
  match ratio with
  | Some r => Qlt_bool threshold r
  | None => false
  end.

Definition cols_to_drop (df : DataFrame) : list string :=
  filter (fun c =>
            if mem c [TARGET_COL; "RANK"; "RANK_missing"] then false
            else exceeds (missing_ratio df c) drop_threshold)
         (labels df).

Definition prune_columns (df : DataFrame) : M (DataFrame * list string) :=
  let dropped := cols_to_drop df in
  match dropped with
  | [] => ret tt
  | _ => print DroppingColumns ;;
         for_each (fun c => print (DroppedColumn c (missing_ratio df c)))
                  dropped
  end ;;
  ret (drop df dropped, dropped).

(** ** Steps 4 to 8 *)

Record imputation_info : Type := mkInfo {
  zero_cols : list string;
  median_cols : list (string * option Q);
  dropped_cols : list string;
  sentinel_cols : list (string * Q)
}.

Record fit_result : Type := mkFit {
  fit_X : DataFrame;
  fit_y : list (option Q);
  fit_info : imputation_info;
  fit_weight : list (option R)
}.

(** [feature_df[num_cols]] *)
Definition getitem_cols (df : DataFrame) (names : list string) : DataFrame :=
  mkFrame (nrows df)
          (flat_map (fun c => match get df c with
                              | Some s => [(c, s)]
                              | None => []
                              end) names).

Definition special_impute_cols : list string := ["RANK"; "RANK_missing"].

(** [col_missing == 0]; NaN equals nothing. *)
Definition is_zero (x : option Q) : bool :=
  match x with
  | Some q => Qeq_bool q 0
  | None => false
  end.

Definition count_like (col : string) : bool :=
  let col_upper := upper col in
  contains "COUNT" col_upper || contains "RATIO" col_upper
  || contains "PERCENT" col_upper.

(** [s.median()] *)
Definition series_median (s : series) : M (option Q) :=
  match s with
  | NumCol l => ret (nanmedian l)
  | ObjCol _ => raise TypeError
  end.

(** One pass of the imputation loop over [num_cols]. *)
Definition impute_col (st : DataFrame * imputation_info) (col : string)
  : M (DataFrame * imputation_info) :=
  let (feature_df, info) := st in
  if mem col special_impute_cols then ret st
  else
    match get feature_df col with
    | None => raise (KeyError col)
    | Some s =>
        if is_zero (isnull_mean s) then ret st
        else if count_like col then
          print (FilledZero col) ;;
          ret (set_col feature_df col (fillna 0 s),
               mkInfo (zero_cols info ++ [col]) (median_cols info)
                      (dropped_cols info) (sentinel_cols info))
        else
          median_val <- series_median s ;;
          print (FilledMedian col median_val) ;;
          ret (set_col feature_df col (fillna_float median_val s),
               mkInfo (zero_cols info) (assign col median_val (median_cols info))
                      (dropped_cols info) (sentinel_cols info))
    end.

(** The final safety check only prints. *)
Definition safety_check (feature_df : DataFrame) : M unit :=
  if frame_has_null feature_df
  then print (WarnNaNRows (count_null_rows feature_df))
  else ret tt.

Definition clip_lower (lo : Q) (x : option Q) : option Q :=
  option_map (fun q => if Qlt_bool q lo then lo else q) x.

Definition clip_upper (hi : Q) (x : option Q) : option Q :=
  option_map (fun q => if Qlt_bool hi q then hi else q) x.

Definition np_sqrt (x : option Q) : option R :=
  option_map (fun q => sqrt (Q2R q)) x.

(** [(flag != 0).astype(int)], cell by cell: a string differs from 0, and so
    does NaN. *)
Definition ne_zero (s : series) : list bool :=
  match s with
  | NumCol l =>
      map (fun c => match c with
                    | Some q => negb (Qeq_bool q 0)
                    | None => true
                    end) l
  | ObjCol l =>
      map (fun c => match c with
                    | Some (VNum q) => negb (Qeq_bool q 0)
                    | _ => true
                    end) l
  end.

(** [np.where(internal_flag == 1, 2.0, 1.0)] *)
Definition internal_multiplier (flag : list bool) : list R :=
  map (fun b : bool => if b then 2%R else 1%R) flag.

(** Elementwise product of the base weights and the multipliers. *)
Definition times (base : list (option R)) (mult : list R) : list (option R) :=
  map (fun p => option_map (fun w => (w * snd p)%R) (fst p)) (combine base mult).

Section Fit.

(** Python's [float(s)] on a string: [None] when it raises [ValueError],
    [Some None] when it reads NaN. *)
Variable float_of_str : string -> option (option Q).

Definition to_float (c : option value) : result (option Q) :=
  match c with
  | None => Ok None
  | Some (VNum q) => Ok (Some q)
  | Some (VStr s) =>
      match float_of_str s with
      | Some x => Ok x
      | None => Raise ValueError
      end
  end.

Fixpoint all_to_float (l : list (option value)) : result (list (option Q)) :=
  match l with
  | [] => Ok []
  | c :: rest =>
      match to_float c, all_to_float rest with
      | Ok x, Ok xs => Ok (x :: xs)
      | Raise e, _ => Raise e
      | _, Raise e => Raise e
      end
  end.

(** [s.astype(float)] *)
Definition astype_float (s : series) : M (list (option Q)) :=
  match s with
  | NumCol l => ret l
  | ObjCol l => lift (all_to_float l)
  end.

Definition base_weights (df X : DataFrame) : M (list (option R)) :=
  match get df "Clicks" with
  | Some s =>
      clicks <- astype_float s ;;
      let clicks := map (clip_lower 1) clicks in
      ret (map np_sqrt (map (clip_upper (1000 # 1)%Q) clicks))
  | None =>
      print UniformBaseWeights ;;
      ret (repeat (Some 1%R) (nrows X))
  end.

Definition sample_weights (df X : DataFrame) : M (list (option R)) :=
  base_weight <- base_weights df X ;;
  match get df INTERNAL_FLAG_COL with
  | Some s =>
      let internal_flag := ne_zero (fillna 0 s) in
      print InternalMultiplierApplied ;;
      ret (times base_weight (internal_multiplier internal_flag))
  | None =>
      print InternalFlagNotFound ;;
      ret base_weight
  end.

Definition clean_and_impute (df : DataFrame) : M fit_result :=
  df <- drop_missing_target df ;;
  '(df, sentinel_cols) <- handle_rank df ;;
  '(df, cols_to_drop) <- prune_columns df ;;
  target <- match get df TARGET_COL with
            | Some t => astype_float t
            | None => raise (KeyError TARGET_COL)
            end ;;
  let id_cols_present := filter (fun c => mem c (labels df)) ID_COLS in
  let feature_df := drop df (id_cols_present ++ [TARGET_COL]) in
  let num_cols := labels (select_dtypes_number feature_df) in
  let feature_df := getitem_cols feature_df num_cols in
  let imputation_info := mkInfo [] [] cols_to_drop sentinel_cols in
  '(feature_df, imputation_info) <-
     foldM impute_col num_cols (feature_df, imputation_info) ;;
  safety_check feature_df ;;
  let X := feature_df in
  let y := target in
  print (FeatureShape (nrows X) (List.length (columns X))) ;;
  print (TargetShape (List.length y)) ;;
  sample_weight <- sample_weights df X ;;
  ret (mkFit X y imputation_info sample_weight).

End Fit.

(** ** The persisted bundle *)

(** The trained regressor.  [XGBRegressor.predict] yields one prediction per
    row of the matrix it is given, so the regressor is a function on rows. *)
Definition regressor : Type := list (option Q) -> Q.

(** The payload written by [save_model]; [imputation_info] is read back with
    [payload.get("imputation_info", None)], so a payload without the key and
    one holding [None] are the same [None]. *)
Record payload : Type := mkPayload {
  model : regressor;
  feature_columns : list string;
  payload_info : option imputation_info
}.

(** The bundle that [joblib.dump] writes is the value returned. *)
Definition save_model (m : regressor) (feature_cols : list string)
  (info : imputation_info) : M payload :=
  print SavedModel ;;
  ret (mkPayload m feature_cols (Some info)).

Definition load_trained_model (p : payload)
  : regressor * list string * option imputation_info :=
  (model p, feature_columns p, payload_info p).

Section Train.

Variable float_of_str : string -> option (option Q).
(** [train_model]: the split, XGBoost's fit and the validation scores.  It
    returns the fitted regressor or raises, and prints lines of its own. *)
Variable train_model :
  DataFrame -> list (option Q) -> list (option R) -> M regressor.

Definition load_data (df : DataFrame) : M DataFrame :=
  if mem TARGET_COL (labels df)
  then print (LoadedShape (nrows df) (List.length (columns df))) ;; ret df
  else raise ValueError.

Definition main (raw : DataFrame) : M payload :=
  df <- load_data raw ;;
  r <- clean_and_impute float_of_str df ;;
  m <- train_model (fit_X r) (fit_y r) (fit_weight r) ;;
  save_model m (labels (fit_X r)) (fit_info r).

End Train.

(** ** Inference *)

(** [if col in df.columns: df[col] = df[col].fillna(v)] *)
Definition fill_if_present (df : DataFrame) (col : string) (v : option Q)
  : DataFrame :=
  match get df col with
  | Some s => set_col df col (fillna_float v s)
  | None => df
  end.

Definition apply_basic_imputation_for_inference (df : DataFrame)
  (info : option imputation_info) : DataFrame :=
  match info with
  | None => fillna_frame 0 df
  | Some info =>
      let df :=
        fold_left (fun d col => fill_if_present d col (Some 0%Q))
                  (zero_cols info) df in
      let df :=
        fold_left (fun d item => fill_if_present d (fst item) (snd item))
                  (median_cols info) df in
      fillna_frame 0 df
  end.

(** [df.reindex(columns=cols, fill_value=v)] on a frame with distinct
    labels. *)
Definition reindex (df : DataFrame) (cols : list string) (v : Q) : DataFrame :=
  mkFrame (nrows df)
          (map (fun c => (c, match get df c with
                             | Some s => s
                             | None => NumCol (repeat (Some v) (nrows df))
                             end)) cols).

Definition numeric_cells (s : series) : list (option Q) :=
  match s with
  | NumCol l => l
  | ObjCol l => map (fun c => match c with
                              | Some (VNum q) => Some q
                              | _ => None
                              end) l
  end.

(** The rows of a matrix, in index order. *)
Definition rows_of (df : DataFrame) : list (list (option Q)) :=
  map (fun i => map (fun p => nth i (numeric_cells (snd p)) None) (columns df))
      (seq 0 (nrows df)).

(** The matrix [X] that [predict_vcvr_from_features] hands to the model. *)
Definition inference_matrix (p : payload) (features : DataFrame) : DataFrame :=
  let '(_, feature_columns, imputation_info) := load_trained_model p in
  let features_num := select_dtypes_number features in
  let features_num :=
    apply_basic_imputation_for_inference features_num imputation_info in
  reindex features_num feature_columns 0.

Definition predict_vcvr_from_features (p : payload) (features : DataFrame)
  : M (list Q) :=
  let '(model, feature_columns, imputation_info) := load_trained_model p in
  let features_num := select_dtypes_number features in
  let features_num :=
    apply_basic_imputation_for_inference features_num imputation_info in
  let X := reindex features_num feature_columns 0 in
  let missing_cols :=
    filter (fun c => negb (mem c (labels features_num))) feature_columns in
  match missing_cols with
  | [] => ret tt
  | _ => print (WarnMissingFeatureColumns (List.length missing_cols))
  end ;;
  ret (map model (rows_of X)).

(** The smoke test at the end of the prediction script: the identifier and
    the target are dropped when present, the rest is predicted, and one line
    is printed per prediction. *)
Definition drop_if_present (df : DataFrame) (col : string) : DataFrame :=
  if mem col (labels df) then drop df [col] else df.

(** What the script prints: the messages of [predict_vcvr_from_features],
    then its own lines. *)
Inductive predict_line : Type :=
  | Logged (m : message)
  | PredictedRow (i : nat) (pred : Q).

Definition predict_main (p : payload) (df : DataFrame)
  : list predict_line * result unit :=
  let df := fold_left drop_if_present ["URL"; "VCVR"] df in
  let run := predict_vcvr_from_features p df in
  match outcome run with
  | Ok preds =>
      (map Logged (printed run)
       ++ map (fun ip => PredictedRow (fst ip) (snd ip))
              (combine (seq 0 (List.length preds)) preds),
       Ok tt)
  | Raise e => (map Logged (printed run), Raise e)
  end.

(** ** The debugging script [debug_error_column.py]

    The script reads the feature file and prints a report in four parts.  One
    line of the report per [print] of the script. *)

Inductive debug_line : Type :=
  | Rule
  | Title
  | LoadedFile
  | Shape (rows cols : nat)
  | ColumnCount (n : nat)
  | ErrorColumnFound
  | ErrorMissing (n : nat)
  | ErrorNonNull (n : nat)
  | SampleHeader
  | SampleRows (rows : list (option value * option value))
  | NoErrorColumn
  | ColumnsHeader
  | ColumnListed (i : nat) (col : string)
  | UnusualHeader
  | UnusualFound (cols : list string)
  | NoUnusual
  | MissingHeader
  | MissingSummary (top : list (string * nat))
  | NoMissing.

Definition lower_ascii (a : ascii) : ascii :=
  let n := nat_of_ascii a in
  if andb (Nat.leb 65 n) (Nat.leb n 90) then ascii_of_nat (n + 32) else a.

(** [s.lower()], on ASCII letters. *)
Fixpoint lower (s : string) : string :=
  match s with
  | EmptyString => EmptyString
  | String a rest => String (lower_ascii a) (lower rest)
  end.

(** Part 1: the ERROR column.  [df[['URL', 'ERROR']]] raises KeyError when
    the frame has no URL column. *)
Definition error_section (df : DataFrame) : list debug_line * result unit :=
  match get df "ERROR" with
  | Some err =>
      let found := [ErrorColumnFound;
                    ErrorMissing (count_true (isnull err));
                    ErrorNonNull (count_true (notnull err));
                    SampleHeader] in
      match get df "URL" with
      | Some url =>
          (found ++ [SampleRows (firstn 10 (combine (keys_of url)
                                                    (keys_of err)))],
           Ok tt)
      | None => (found, Raise (KeyError "URL"))
      end
  | None => ([NoErrorColumn], Ok tt)
  end.

(** Part 2: all columns, numbered from 1. *)
Definition column_lines (df : DataFrame) : list debug_line :=
  ColumnsHeader
  :: map (fun ic => ColumnListed (fst ic) (snd ic))
         (combine (seq 1 (List.length (labels df))) (labels df)).

(** Part 3: column names that contain one of four words. *)
Definition unusual_words : list string :=
  ["error"; "fail"; "problem"; "issue"].

Definition unusual_columns (df : DataFrame) : list string :=
  filter (fun col => existsb (fun w => contains w (lower col)) unusual_words)
         (labels df).

Definition unusual_lines (df : DataFrame) : list debug_line :=
  [UnusualHeader;
   match unusual_columns df with
   | [] => NoUnusual
   | cols => UnusualFound cols
   end].

(** Part 4: [df.isnull().sum()] and its ten largest positive entries. *)
Definition missing_counts (df : DataFrame) : list (string * nat) :=
  map (fun p => (fst p, count_true (isnull (snd p)))) (columns df).

Section Debug.

(** [sort_values(ascending=False)]: the order among equal counts is the
    sorting routine's. *)
Variable sort_values_descending : list (string * nat) -> list (string * nat).

Definition missing_lines (df : DataFrame) : list debug_line :=
  let missing := missing_counts df in
  [MissingHeader;
   if Nat.ltb 0 (list_sum (map snd missing))
   then MissingSummary
          (firstn 10 (sort_values_descending
                        (filter (fun p => Nat.ltb 0 (snd p)) missing)))
   else NoMissing].

Definition debug_error_column (df : DataFrame)
  : list debug_line * result unit :=
  let intro := [Rule; Title; Rule; LoadedFile;
                Shape (nrows df) (List.length (columns df));
                ColumnCount (List.length (columns df))] in
  match error_section df with
  | (lines, Ok _) =>
      (intro ++ lines ++ column_lines df ++ unusual_lines df
       ++ missing_lines df, Ok tt)
  | (lines, Raise e) => (intro ++ lines, Raise e)
  end.

End Debug.

(** * Vocabulary of the statements *)

(** ** Reading an outcome *)

Definition ok {A : Type} (c : M A) : option A :=
  match outcome c with
  | Ok a => Some a
  | Raise _ => None
  end.

(** ** The frames between the stages of [clean_and_impute] *)

(** The frame that reaches the pruning step. *)
Definition before_pruning (raw : DataFrame) : M DataFrame :=
  df <- drop_missing_target raw ;;
  '(df, _) <- handle_rank df ;;
  ret df.

(** The frame after the two assignments of the RANK block. *)
Definition with_rank_sentinel (df : DataFrame) (rank : series) : DataFrame :=
  set_col (set_col df "RANK_missing" (isnull_astype_int rank))
          "RANK" (fillna sentinel_value rank).

(** The feature frame and the numeric column list that enter the imputation
    loop, from the pruned frame. *)
Definition feature_frame (df : DataFrame) : DataFrame :=
  drop df (filter (fun c => mem c (labels df)) ID_COLS ++ [TARGET_COL]).

Definition num_cols_of (df : DataFrame) : list string :=
  labels (select_dtypes_number (feature_frame df)).

Definition features_of (df : DataFrame) : DataFrame :=
  getitem_cols (feature_frame df) (num_cols_of df).

(** ** The imputation loop, column by column *)

(** What the loop does to the column [col]. *)
Definition impute_series (col : string) (s : series) : series :=
  if mem col special_impute_cols then s
  else if is_zero (isnull_mean s) then s
  else if count_like col then fillna 0 s
  else match s with
       | NumCol l => fillna_float (nanmedian l) s
       | ObjCol _ => s
       end.

(** What one pass of the loop, on [col], changes. *)
Record loop_step (col : string) (st st' : DataFrame * imputation_info)
  : Prop := mkStep {
  step_dropped : dropped_cols (snd st') = dropped_cols (snd st);
  step_sentinel : sentinel_cols (snd st') = sentinel_cols (snd st);
  step_labels : labels (fst st') = labels (fst st);
  step_nrows : nrows (fst st') = nrows (fst st);
  step_zero : forall c, In c (zero_cols (snd st')) ->
      In c (zero_cols (snd st))
      \/ (c = col /\ mem c special_impute_cols = false /\ count_like c = true);
  step_median : forall c, In c (map fst (median_cols (snd st'))) ->
      In c (map fst (median_cols (snd st)))
      \/ (c = col /\ mem c special_impute_cols = false /\ count_like c = false);
  step_get : forall c,
      get (fst st') c =
      if String.eqb c col then option_map (impute_series col) (get (fst st) c)
      else get (fst st) c
}.

(** What the whole loop, over [names], changes. *)
Record loop_run (names : list string) (st st' : DataFrame * imputation_info)
  : Prop := mkRun {
  run_dropped : dropped_cols (snd st') = dropped_cols (snd st);
  run_sentinel : sentinel_cols (snd st') = sentinel_cols (snd st);
  run_labels : labels (fst st') = labels (fst st);
  run_nrows : nrows (fst st') = nrows (fst st);
  run_zero : forall c, In c (zero_cols (snd st')) ->
      In c (zero_cols (snd st))
      \/ (In c names /\ mem c special_impute_cols = false
          /\ count_like c = true);
  run_median : forall c, In c (map fst (median_cols (snd st'))) ->
      In c (map fst (median_cols (snd st)))
      \/ (In c names /\ mem c special_impute_cols = false
          /\ count_like c = false)
}.

(** ** Frames whose columns all have one cell per row *)

Definition series_length (s : series) : nat :=
  match s with
  | NumCol l => List.length l
  | ObjCol l => List.length l
  end.

Definition well_formed (df : DataFrame) : Prop :=
  forall c s, In (c, s) (columns df) -> series_length s = nrows df.

(** ** Weights *)

(** [clip(lower=1)] followed by [clip(upper=1000)] on a number. *)
Definition clamp (q : Q) : Q :=
  if Qlt_bool q 1 then 1%Q else if Qlt_bool (1000 # 1) q then (1000 # 1)%Q
  else q.

(** The flag of one row, after [fillna(0)] and [!= 0]. *)
Definition is_internal (fl : option Q) : bool :=
  match fl with
  | Some q => negb (Qeq_bool q 0)
  | None => false
  end.

(** ** The replay, column by column *)

(** What a sequence of fills does to the column [c]. *)
Definition replay (c : string) (items : list (string * option Q)) (s : series)
  : series :=
  fold_left (fun s it => if String.eqb c (fst it) then fillna_float (snd it) s
                         else s) items s.

(** The fills of a list of (column, value) items, in order. *)
Definition fill_items (items : list (string * option Q)) (df : DataFrame)
  : DataFrame :=
  fold_left (fun d it => fill_if_present d (fst it) (snd it)) items df.

(** The zero-fill columns as fill items. *)
Definition zero_items (cols : list string) : list (string * option Q) :=
  map (fun col => (col, Some 0%Q)) cols.

(** The expected feature columns that the numeric input lacks. *)
Definition missing_feature_columns (p : payload) (features : DataFrame)
  : list string :=
  filter (fun c => negb (mem c (labels (select_dtypes_number features))))
         (feature_columns p).

(** The same plan with other sentinel entries. *)
Definition with_sentinels (info : imputation_info) (sc : list (string * Q))
  : imputation_info :=
  mkInfo (zero_cols info) (median_cols info) (dropped_cols info) sc.

(** ** Cells that stay in place *)

(** [l'] has the length of [l] and its observed cells at the same rows. *)
Definition keeps_observed (l l' : list (option Q)) : Prop :=
  List.length l' = List.length l /\
  forall i q, nth_error l i = Some (Some q) -> nth_error l' i = Some (Some q).

(** ** Sample data *)

(** A [float] that reads no string. *)
Definition no_float : string -> option (option Q) := fun _ => None.

Definition num (z : Z) : option Q := Some (inject_Z z).
Definition str (s : string) : option value := Some (VStr s).

(** A RANK column and no Category column. *)
Definition rank_only : DataFrame :=
  mkFrame 3
    [("VCVR", NumCol [Some (1 # 10); Some (2 # 10); Some (3 # 10)]%Q);
     ("RANK", NumCol [None; num 5; num 7]);
     ("x", NumCol [num 3; None; num 1])].

(** A Category column and no RANK column. *)
Definition category_only : DataFrame :=
  mkFrame 3
    [("VCVR", NumCol [Some (1 # 10); Some (2 # 10); Some (3 # 10)]%Q);
     ("Category", ObjCol [str "a"; str "b"; str "a"]);
     ("x", NumCol [num 3; None; num 1])].

(** RANK, Category, traffic volume and origin flag, with gaps; the third row
    has no target. *)
Definition full_sample : DataFrame :=
  mkFrame 4
    [("URL", ObjCol [str "u1"; str "u2"; str "u3"; str "u4"]);
     ("VCVR", NumCol [Some (1 # 10); Some (2 # 10); None; Some (3 # 10)]%Q);
     ("RANK", NumCol [None; num 5; num 7; num 9]);
     ("Category", ObjCol [str "a"; str "b"; None; str "a"]);
     ("x", NumCol [num 3; None; num 1; num 4]);
     ("Clicks", NumCol [num 2000; None; num 1; num 0]);
     ("IsInternal", NumCol [num 1; None; num 1; num 0])].

(** RANK and Category, and a data column named as an aggregate. *)
Definition own_count_sample : DataFrame :=
  mkFrame 3
    [("VCVR", NumCol [Some (1 # 10); Some (2 # 10); Some (3 # 10)]%Q);
     ("RANK", NumCol [None; num 5; num 7]);
     ("Category", ObjCol [str "a"; str "b"; str "a"]);
     ("cat_count", NumCol [num 4; None; num 6])].

(** The same, and a data column named as the renamed one. *)
Definition colliding_sample : DataFrame :=
  mkFrame 3
    [("VCVR", NumCol [Some (1 # 10); Some (2 # 10); Some (3 # 10)]%Q);
     ("RANK", NumCol [None; num 5; num 7]);
     ("Category", ObjCol [str "a"; str "b"; str "a"]);
     ("cat_count", NumCol [num 4; None; num 6]);
     ("cat_count_x", NumCol [num 1; num 1; num 1])].

(** An indicator-named column supplied by the data, without RANK. *)
Definition stray_indicator : DataFrame :=
  mkFrame 2
    [("VCVR", NumCol [Some (1 # 10); Some (2 # 10)]%Q);
     ("RANK_missing", NumCol [None; num 1])].

(** Two of five cells missing in one column, three of five in another. *)
Definition boundary_sample : DataFrame :=
  mkFrame 5
    [("VCVR", NumCol [num 1; num 2; num 1; num 2; num 3]);
     ("at_threshold", NumCol [None; None; num 1; num 2; num 3]);
     ("above", NumCol [None; None; None; num 2; num 3])].

(** A volume column with one gap in the two rows that have a target. *)
Definition sparse_volume : DataFrame :=
  mkFrame 3
    [("VCVR", NumCol [Some (1 # 10); None; Some (3 # 10)]%Q);
     ("Clicks", NumCol [num 100; None; None])].

(** The plan of the replay example: one zero-fill column, one median-fill
    column with stored median 5. *)
Definition sample_plan : imputation_info :=
  mkInfo ["clicks_count"] [("x", Some (5 # 1)%Q)] [] [("RANK", sentinel_value)].

Definition sample_payload : payload :=
  mkPayload (fun _ => 0%Q) ["clicks_count"; "x"; "RANK"; "RANK_missing"]
            (Some sample_plan).

(** A bundle without plan. *)
Definition bare_payload : payload :=
  mkPayload (fun _ => 0%Q) ["clicks_count"; "x"] None.

(** A bundle whose regressor answers with the first cell of the row it is
    given (-1 when that cell is missing). *)
Definition first_cell_payload : payload :=
  mkPayload (fun row => match row with
                        | Some q :: _ => q
                        | _ => (-1 # 1)%Q
                        end)
            ["x"; "absent"; "clicks_count"] (Some sample_plan).

(** An inference frame with gaps, an extra column, a text column, and no
    RANK_missing column. *)
Definition sample_features : DataFrame :=
  mkFrame 2
    [("x", NumCol [None; num 2]);
     ("extra", NumCol [None; num 8]);
     ("RANK", NumCol [None; num 2]);
     ("note", ObjCol [None; str "n"]);
     ("clicks_count", NumCol [num 4; None])].

(** A dataset without RANK: an identifier, a row without target, a column
    to median-fill, a count to zero-fill, and a column too sparse to keep. *)
Definition plain_sample : DataFrame :=
  mkFrame 4
    [("URL", ObjCol [str "u1"; str "u2"; str "u3"; str "u4"]);
     ("VCVR", NumCol [Some (1 # 10); None; Some (3 # 10); Some (2 # 10)]%Q);
     ("x", NumCol [num 3; num 9; None; num 1]);
     ("visit_count", NumCol [None; num 2; num 5; num 7]);
     ("sparse", NumCol [None; None; None; num 4])].

(** A dataset in which no row has a target. *)
Definition no_target_sample : DataFrame :=
  mkFrame 2
    [("VCVR", NumCol [None; None]);
     ("x", NumCol [num 1; None]);
     ("visit_count", NumCol [None; num 2])].

(** Feature files with an ERROR column, one without URL column. *)
Definition error_with_url : DataFrame :=
  mkFrame 2
    [("URL", ObjCol [str "u1"; str "u2"]);
     ("x", NumCol [num 1; None]);
     ("ERROR", ObjCol [None; str "timeout"])].

Definition error_without_url : DataFrame :=
  mkFrame 2
    [("x", NumCol [num 1; num 2]);
     ("ERROR", ObjCol [None; str "timeout"])].

(** A training step that returns the regressor predicting 0. *)
Definition constant_train (X : DataFrame) (y : list (option Q))
  (w : list (option R)) : M regressor := ret (fun _ => 0%Q).

(** ** Category statistics, row by row *)

(** The targets of the rows whose category equals [k]. *)
Definition group_targets (k : value) (keys : list (option value))
  (target : list (option Q)) : list (option Q) :=
  select (map (key_is k) keys) target.

(** The aggregates of the category [key] over the whole frame: nothing for a
    missing category. *)
Definition mean_of_category (key : option value) (keys : list (option value))
  (target : list (option Q)) : option Q :=
  match key with
  | Some k => nanmean (group_targets k keys target)
  | None => None
  end.

Definition median_of_category (key : option value)
  (keys : list (option value)) (target : list (option Q)) : option Q :=
  match key with
  | Some k => nanmedian (group_targets k keys target)
  | None => None
  end.

Definition count_of_category (key : option value) (keys : list (option value))
  (target : list (option Q)) : option Q :=
  match key with
  | Some k =>
      Some (inject_Z (Z.of_nat (List.length
                                  (dropna (group_targets k keys target)))))
  | None => None
  end.

(** ** The rows of a matrix given by its columns' cells *)

Definition rows_of_cells (n : nat) (cells : list (list (option Q)))
  : list (list (option Q)) :=
  map (fun i => map (fun l => nth i l None) cells) (seq 0 n).

(** ** What the plan records, column by column *)

(** The loop fills the column [c] of [df]: it is not RANK or its indicator,
    and its fraction of missing cells is not 0. *)
Definition needs_fill (df : DataFrame) (c : string) : bool :=
  negb (mem c special_impute_cols)
  && match get df c with
     | Some s => negb (is_zero (isnull_mean s))
     | None => false
     end.

Definition zero_filled (df : DataFrame) (c : string) : bool :=
  needs_fill df c && count_like c.

Definition median_filled (df : DataFrame) (c : string) : bool :=
  needs_fill df c && negb (count_like c).

(** The fill that the plan [info] records for the column [c]. *)
Definition recorded_fill (info : imputation_info) (c : string) (s : series)
  : series :=
  if mem c (zero_cols info) then fillna 0 s
  else match lookup c (median_cols info) with
       | Some m => fillna_float m s
       | None => s
       end.

(** The median of the numeric column [c] of [df]. *)
Definition column_median (df : DataFrame) (c : string) : option Q :=
  match get df c with
  | Some (NumCol l) => nanmedian l
  | _ => None
  end.

(** What the loop prints for the column [c] of [df]. *)
Definition fill_line (df : DataFrame) (c : string) : list message :=
  if zero_filled df c then [FilledZero c]
  else if median_filled df c then [FilledMedian c (column_median df c)]
  else [].

(** The lines of the log that speak of the plan. *)
Definition plan_line (m : message) : bool :=
  match m with
  | FilledZero _ | FilledMedian _ _ | DroppedColumn _ _ => true
  | _ => false
  end.

(** The feature frame that enters the imputation loop. *)
Definition features_before_imputation (raw : DataFrame) : M DataFrame :=
  df <- before_pruning raw ;;
  ret (features_of (drop df (cols_to_drop df))).

(** The stages of a fit that returns, on a dataset with distinct labels. *)
Definition fit_trace (f : string -> option (option Q)) (raw : DataFrame)
  (r : fit_result) : Prop :=
  exists (target : series) (df2 : DataFrame) (sc : list (string * Q)),
    let df3 := drop df2 (cols_to_drop df2) in
    get raw TARGET_COL = Some target /\
    outcome (handle_rank (select_rows (notnull target) raw)) = Ok (df2, sc) /\
    NoDup (labels df2) /\
    NoDup (num_cols_of df3) /\
    labels (features_of df3) = num_cols_of df3 /\
    outcome (foldM impute_col (num_cols_of df3)
                   (features_of df3, mkInfo [] [] (cols_to_drop df2) sc))
    = Ok (fit_X r, fit_info r) /\
    (exists t, get df3 TARGET_COL = Some t
               /\ outcome (astype_float f t) = Ok (fit_y r)) /\
    outcome (sample_weights f df3 (fit_X r)) = Ok (fit_weight r).

(** * Properties *)

(** ** The monad *)

Lemma outcome_bind {A B : Type} (c : M A) (k : A -> M B) :
  outcome (bind c k) =
  match outcome c with
  | Ok a => outcome (k a)
  | Raise e => Raise e
  end.
Proof.
  destruct c as [out [a | e]]; simpl; [destruct (k a) |]; reflexivity.
Qed.

Lemma printed_bind {A B : Type} (c : M A) (k : A -> M B) :
  printed (bind c k) =
  printed c ++ match outcome c with
               | Ok a => printed (k a)
               | Raise _ => []
               end.
Proof.
  destruct c as [out [a | e]]; simpl.
  - destruct (k a); reflexivity.
  - symmetry; apply app_nil_r.
Qed.

Lemma bind_ok {A B : Type} (c : M A) (k : A -> M B) (b : B) :
  outcome (bind c k) = Ok b ->
  exists a, outcome c = Ok a /\ outcome (k a) = Ok b.
Proof.
  rewrite outcome_bind. destruct (outcome c) as [a | e]; [eauto | discriminate].
Qed.

Lemma bind_ok_full {A B : Type} (c : M A) (k : A -> M B) (b : B) :
  outcome (bind c k) = Ok b ->
  exists a, outcome c = Ok a /\ outcome (k a) = Ok b /\
            printed (bind c k) = printed c ++ printed (k a).
Proof.
  intro H. rewrite printed_bind. rewrite outcome_bind in H.
  destruct (outcome c) as [a | e]; [eauto | discriminate].
Qed.

Lemma outcome_ret {A : Type} (a : A) : outcome (ret a) = Ok a.
Proof. reflexivity. Qed.

Lemma outcome_print (m : message) : outcome (print m) = Ok tt.
Proof. reflexivity. Qed.

Lemma outcome_for_each_print {A : Type} (g : A -> message) (l : list A) :
  outcome (for_each (fun a => print (g a)) l) = Ok tt.
Proof.
  induction l as [| a l IH]; cbn [for_each]; [reflexivity |].
  rewrite outcome_bind. exact IH.
Qed.

(** ** Labelled lists *)

Lemma mem_In (c : string) (l : list string) : mem c l = true <-> In c l.
Proof.
  unfold mem. rewrite existsb_exists. split.
  - intros [x [Hx He]]. apply String.eqb_eq in He. now subst.
  - intro H. exists c. split; [exact H | apply String.eqb_refl].
Qed.

Lemma mem_not_In (c : string) (l : list string) : mem c l = false <-> ~ In c l.
Proof.
  rewrite <- mem_In. destruct (mem c l); split; congruence.
Qed.

Section Labelled.

Variable A : Type.
Implicit Types (l : list (string * A)) (c : string) (v : A).

Lemma lookup_None c l : lookup c l = None <-> ~ In c (map fst l).
Proof.
  induction l as [| [k w] l IH]; simpl.
  - tauto.
  - destruct (String.eqb_spec c k) as [-> | Hne].
    + split; [discriminate | intro H; exfalso; apply H; now left].
    + rewrite IH. split; intro H; [intros [E | I] |]; try tauto.
      apply Hne. now symmetry.
Qed.

Lemma lookup_Some_In c l v : lookup c l = Some v -> In (c, v) l.
Proof.
  induction l as [| [k w] l IH]; simpl; [discriminate |].
  destruct (String.eqb_spec c k) as [-> | Hne].
  - intros [= ->]. now left.
  - intro H. right. now apply IH.
Qed.

Lemma lookup_In_label c l : In c (map fst l) -> exists v, lookup c l = Some v.
Proof.
  intro H. destruct (lookup c l) as [v |] eqn:E; [eauto |].
  apply lookup_None in E. contradiction.
Qed.

Lemma lookup_label c l v : lookup c l = Some v -> In c (map fst l).
Proof.
  intro H. apply lookup_Some_In in H. apply (in_map fst) in H. exact H.
Qed.

Lemma lookup_NoDup c l v :
  NoDup (map fst l) -> In (c, v) l -> lookup c l = Some v.
Proof.
  induction l as [| [k w] l IH]; simpl; [tauto |].
  intros Hnd [E | I].
  - inversion E; subst. now rewrite String.eqb_refl.
  - inversion Hnd as [| ? ? Hk Hnd']; subst.
    destruct (String.eqb_spec c k) as [-> | Hne].
    + exfalso. apply Hk. apply (in_map fst) in I. exact I.
    + now apply IH.
Qed.

Lemma lookup_assign_eq c v l : lookup c (assign c v l) = Some v.
Proof.
  induction l as [| [k w] l IH]; simpl.
  - now rewrite String.eqb_refl.
  - destruct (String.eqb_spec c k) as [-> | Hne]; simpl.
    + now rewrite String.eqb_refl.
    + destruct (String.eqb_spec c k); [contradiction | exact IH].
Qed.

Lemma lookup_assign_neq c c' v l :
  c <> c' -> lookup c' (assign c v l) = lookup c' l.
Proof.
  intro Hne. induction l as [| [k w] l IH]; simpl.
  - destruct (String.eqb_spec c' c); [congruence | reflexivity].
  - destruct (String.eqb_spec c k) as [-> | Hck]; simpl.
    + destruct (String.eqb_spec c' k); [congruence | reflexivity].
    + now rewrite IH.
Qed.

Lemma labels_assign_present c v l :
  In c (map fst l) -> map fst (assign c v l) = map fst l.
Proof.
  induction l as [| [k w] l IH]; simpl; [tauto |].
  intro H. destruct (String.eqb_spec c k) as [-> | Hck]; simpl.
  - reflexivity.
  - f_equal. apply IH. destruct H; [congruence | assumption].
Qed.

Lemma labels_assign_absent c v l :
  ~ In c (map fst l) -> map fst (assign c v l) = map fst l ++ [c].
Proof.
  induction l as [| [k w] l IH]; simpl; [reflexivity |].
  intro H. destruct (String.eqb_spec c k) as [-> | Hck]; simpl.
  - exfalso. apply H. now left.
  - f_equal. apply IH. tauto.
Qed.

Lemma In_labels_assign c c' v l :
  In c' (map fst (assign c v l)) <-> c' = c \/ In c' (map fst l).
Proof.
  destruct (in_dec string_dec c (map fst l)) as [Hin | Hout].
  - rewrite labels_assign_present by assumption.
    split; [tauto | intros [-> | H]; assumption].
  - rewrite labels_assign_absent by assumption.
    rewrite in_app_iff. simpl. split; intros [H | H]; try tauto.
    + destruct H; [now left | contradiction].
    + right. now left.
Qed.

End Labelled.

Lemma lookup_map_snd {A B : Type} (f : A -> B) (c : string)
  (l : list (string * A)) :
  lookup c (map (fun p => (fst p, f (snd p))) l) = option_map f (lookup c l).
Proof.
  induction l as [| [k w] l IH]; simpl; [reflexivity |].
  destruct (String.eqb c k); [reflexivity | exact IH].
Qed.

Lemma lookup_filter {A : Type} (keep : string -> bool) (c : string)
  (l : list (string * A)) :
  lookup c (filter (fun p => keep (fst p)) l) =
  if keep c then lookup c l else None.
Proof.
  induction l as [| [k w] l IH]; simpl.
  - now destruct (keep c).
  - destruct (keep k) eqn:Ek; simpl.
    + destruct (String.eqb_spec c k) as [-> | Hne].
      * now rewrite Ek.
      * exact IH.
    + rewrite IH. destruct (String.eqb_spec c k) as [-> | Hne].
      * now rewrite Ek.
      * reflexivity.
Qed.

Lemma lookup_filter_kept {A : Type} (keep : string * A -> bool) (c : string)
  (l : list (string * A)) (v : A) :
  lookup c l = Some v -> keep (c, v) = true ->
  lookup c (filter keep l) = Some v.
Proof.
  intros Hl Hk. induction l as [| [k w] l IH]; simpl in *; [discriminate |].
  destruct (String.eqb_spec c k) as [-> | Hne].
  - injection Hl as ->. rewrite Hk. simpl. now rewrite String.eqb_refl.
  - destruct (keep (k, w)); simpl; [| now apply IH].
    destruct (String.eqb_spec c k); [contradiction | now apply IH].
Qed.

Lemma lookup_filter_None {A : Type} (keep : string * A -> bool) (c : string)
  (l : list (string * A)) :
  lookup c l = None -> lookup c (filter keep l) = None.
Proof.
  intro H. apply lookup_None. apply lookup_None in H.
  intro Hin. apply H. apply in_map_iff in Hin. destruct Hin as [x [Hx Hi]].
  apply filter_In in Hi. apply in_map_iff. exists x. tauto.
Qed.

Lemma lookup_app {A : Type} (c : string) (l1 l2 : list (string * A)) :
  lookup c (l1 ++ l2) =
  match lookup c l1 with
  | Some v => Some v
  | None => lookup c l2
  end.
Proof.
  induction l1 as [| [k v] l1 IH]; simpl; [reflexivity |].
  destruct (String.eqb c k); [reflexivity | exact IH].
Qed.

Lemma NoDup_labels_assign {A : Type} (c : string) (v : A)
  (l : list (string * A)) :
  NoDup (map fst l) -> NoDup (map fst (assign c v l)).
Proof.
  intro H. destruct (in_dec string_dec c (map fst l)) as [Hin | Hout].
  - now rewrite labels_assign_present.
  - rewrite labels_assign_absent by assumption.
    apply NoDup_app; [exact H | repeat constructor; simpl; tauto |].
    intros a Ha [<- | []]. contradiction.
Qed.

Lemma NoDup_labels_filter {A : Type} (keep : string * A -> bool)
  (l : list (string * A)) :
  NoDup (map fst l) -> NoDup (map fst (filter keep l)).
Proof.
  induction l as [| [k v] l IH]; simpl; [auto |].
  intro H. inversion H as [| ? ? Hk Hl]; subst.
  destruct (keep (k, v)); simpl; [| now apply IH].
  constructor; [| now apply IH].
  intro Hin. apply Hk. apply in_map_iff in Hin.
  destruct Hin as [x [Hx Hi]]. apply filter_In in Hi.
  apply in_map_iff. exists x. tauto.
Qed.

Lemma flat_map_lookup {A : Type} (l sub : list (string * A)) :
  (forall p, In p sub -> lookup (fst p) l = Some (snd p)) ->
  flat_map (fun c => match lookup c l with
                     | Some s => [(c, s)]
                     | None => []
                     end) (map fst sub) = sub.
Proof.
  induction sub as [| [k v] sub IH]; simpl; intro H; [reflexivity |].
  pose proof (H (k, v) (or_introl eq_refl)) as Hk. simpl in Hk.
  rewrite Hk. simpl. f_equal.
  apply IH. intros p Hp. apply H. now right.
Qed.

(** ** Frames *)

Lemma get_set_col (df : DataFrame) (col c : string) (s : series) :
  get (set_col df col s) c = if String.eqb c col then Some s else get df c.
Proof.
  unfold get, set_col. simpl.
  destruct (String.eqb_spec c col) as [-> | Hne].
  - apply lookup_assign_eq.
  - apply lookup_assign_neq. congruence.
Qed.

Lemma labels_set_col_present (df : DataFrame) (col : string) (s s' : series) :
  get df col = Some s -> labels (set_col df col s') = labels df.
Proof.
  intro H. unfold labels, set_col. simpl. apply labels_assign_present.
  now apply lookup_label with (v := s).
Qed.

Lemma nrows_set_col (df : DataFrame) (c : string) (s : series) :
  nrows (set_col df c s) = nrows df.
Proof. reflexivity. Qed.

Lemma In_labels_set_col (df : DataFrame) (col c : string) (s : series) :
  In c (labels (set_col df col s)) <-> c = col \/ In c (labels df).
Proof. unfold labels, set_col. simpl. apply In_labels_assign. Qed.

Lemma NoDup_labels_set_col (df : DataFrame) (c : string) (s : series) :
  NoDup (labels df) -> NoDup (labels (set_col df c s)).
Proof. unfold labels, set_col. simpl. apply NoDup_labels_assign. Qed.

Lemma labels_select_rows (mask : list bool) (df : DataFrame) :
  labels (select_rows mask df) = labels df.
Proof. unfold labels, select_rows. simpl. now rewrite map_map. Qed.

Lemma get_select_rows (mask : list bool) (df : DataFrame) (c : string) :
  get (select_rows mask df) c = option_map (select_series mask) (get df c).
Proof. unfold get, select_rows. simpl. apply lookup_map_snd. Qed.

Lemma get_drop (df : DataFrame) (names : list string) (c : string) :
  get (drop df names) c = if mem c names then None else get df c.
Proof.
  unfold get, drop. simpl.
  rewrite (lookup_filter (fun k => negb (mem k names))).
  now destruct (mem c names).
Qed.

Lemma In_labels_drop (df : DataFrame) (names : list string) (c : string) :
  In c (labels (drop df names)) <-> In c (labels df) /\ ~ In c names.
Proof.
  unfold labels, drop. simpl. rewrite !in_map_iff. split.
  - intros [[k s] [<- Hin]]. apply filter_In in Hin. destruct Hin as [Hin Hk].
    simpl in *. apply negb_true_iff, mem_not_In in Hk.
    split; [exists (k, s); auto | exact Hk].
  - intros [[[k s] [<- Hin]] Hout]. exists (k, s). split; [reflexivity |].
    apply filter_In. split; [exact Hin |]. simpl.
    now apply negb_true_iff, mem_not_In.
Qed.

Lemma NoDup_labels_drop (df : DataFrame) (names : list string) :
  NoDup (labels df) -> NoDup (labels (drop df names)).
Proof. unfold labels, drop. simpl. apply NoDup_labels_filter. Qed.

Lemma In_labels_getitem (df : DataFrame) (names : list string) (c : string) :
  In c (labels (getitem_cols df names)) -> In c names /\ In c (labels df).
Proof.
  unfold labels, getitem_cols. simpl. rewrite in_map_iff.
  intros [[k s] [<- Hin]]. apply in_flat_map in Hin.
  destruct Hin as [n [Hn Hin]]. destruct (get df n) as [s' |] eqn:E;
    [| contradiction].
  destruct Hin as [[= <- <-] | []]. simpl. split; [exact Hn |].
  now apply lookup_label with (v := s').
Qed.

(** With distinct labels, [feature_df[num_cols]] is the numeric part of
    [feature_df]. *)
Lemma getitem_numeric_cols (df : DataFrame) :
  NoDup (labels df) ->
  getitem_cols df (labels (select_dtypes_number df)) = select_dtypes_number df.
Proof.
  intro Hnd. unfold getitem_cols, select_dtypes_number, labels, get. simpl.
  f_equal. apply flat_map_lookup.
  intros [k s] Hin. apply filter_In in Hin. destruct Hin as [Hin _].
  now apply lookup_NoDup.
Qed.

(** ** Filling *)

Lemma fillna_absorbs (v : option Q) (q : Q) (s : series) :
  fillna_float v (fillna q s) = fillna q s.
Proof.
  destruct v as [w |]; [| reflexivity].
  destruct s as [l | l]; simpl; f_equal; rewrite map_map;
    apply map_ext; intros [x |]; reflexivity.
Qed.

Lemma fillna_no_null (q : Q) (s : series) :
  series_has_null (fillna q s) = false.
Proof.
  unfold series_has_null.
  destruct s as [l | l]; simpl; rewrite map_map;
    induction l as [| [x |] l IH]; simpl; auto.
Qed.

Lemma fillna_frame_no_null (q : Q) (df : DataFrame) :
  frame_has_null (fillna_frame q df) = false.
Proof.
  unfold frame_has_null, fillna_frame. simpl.
  induction (columns df) as [| [k s] l IH]; simpl; [reflexivity |].
  now rewrite fillna_no_null.
Qed.

Lemma get_fillna_frame (q : Q) (df : DataFrame) (c : string) :
  get (fillna_frame q df) c = option_map (fillna q) (get df c).
Proof. unfold get, fillna_frame. simpl. apply lookup_map_snd. Qed.

Lemma labels_fillna_frame (q : Q) (df : DataFrame) :
  labels (fillna_frame q df) = labels df.
Proof.
  unfold labels, fillna_frame. simpl. rewrite map_map. reflexivity.
Qed.

Lemma labels_fill_if_present (df : DataFrame) (c : string) (v : option Q) :
  labels (fill_if_present df c v) = labels df.
Proof.
  unfold fill_if_present. destruct (get df c) as [s |] eqn:E; [| reflexivity].
  unfold labels, set_col; simpl. apply labels_assign_present.
  now apply lookup_label with (v := s).
Qed.

Lemma nrows_fill_if_present (df : DataFrame) (c : string) (v : option Q) :
  nrows (fill_if_present df c v) = nrows df.
Proof. unfold fill_if_present. now destruct (get df c). Qed.

Lemma get_fill_if_present (df : DataFrame) (c c' : string) (v : option Q) :
  get (fill_if_present df c v) c' =
  if String.eqb c' c then option_map (fillna_float v) (get df c')
  else get df c'.
Proof.
  unfold fill_if_present.
  destruct (String.eqb_spec c' c) as [-> | Hne].
  - destruct (get df c) as [s |] eqn:E; simpl.
    + unfold get, set_col; simpl. apply lookup_assign_eq.
    + exact E.
  - destruct (get df c) as [s |] eqn:E; [| reflexivity].
    unfold get, set_col; simpl. apply lookup_assign_neq. congruence.
Qed.

Lemma get_fill_items (items : list (string * option Q)) (df : DataFrame)
  (c : string) :
  get (fill_items items df) c = option_map (replay c items) (get df c).
Proof.
  unfold fill_items, replay. revert df.
  induction items as [| [k v] items IH]; intro df; simpl.
  - now destruct (get df c).
  - rewrite IH, get_fill_if_present.
    destruct (String.eqb c k); destruct (get df c); reflexivity.
Qed.

Lemma labels_fill_items (items : list (string * option Q)) (df : DataFrame) :
  labels (fill_items items df) = labels df.
Proof.
  unfold fill_items. revert df.
  induction items as [| [k v] items IH]; intro df; simpl; [reflexivity |].
  now rewrite IH, labels_fill_if_present.
Qed.

Lemma nrows_fill_items (items : list (string * option Q)) (df : DataFrame) :
  nrows (fill_items items df) = nrows df.
Proof.
  unfold fill_items. revert df.
  induction items as [| [k v] items IH]; intro df; simpl; [reflexivity |].
  now rewrite IH, nrows_fill_if_present.
Qed.

Lemma replay_filled (c : string) (items : list (string * option Q)) (q : Q)
  (s : series) :
  replay c items (fillna q s) = fillna q s.
Proof.
  unfold replay. induction items as [| [k v] items IH]; simpl; [reflexivity |].
  destruct (String.eqb c k); [rewrite fillna_absorbs |]; exact IH.
Qed.

Lemma replay_absent (c : string) (items : list (string * option Q))
  (s : series) :
  ~ In c (map fst items) -> replay c items s = s.
Proof.
  unfold replay. revert s.
  induction items as [| [k v] items IH]; intros s H; simpl; [reflexivity |].
  simpl in H. destruct (String.eqb_spec c k) as [-> | Hne]; [tauto |].
  apply IH. tauto.
Qed.

Lemma replay_first (c : string) (items : list (string * option Q)) (m : Q)
  (s : series) :
  lookup c items = Some (Some m) -> replay c items s = fillna m s.
Proof.
  revert s. induction items as [| [k v] items IH]; intros s; simpl;
    [discriminate |].
  unfold replay; simpl.
  destruct (String.eqb c k).
  - intros [= ->]. apply replay_filled.
  - apply IH.
Qed.

Lemma fold_zero_items (cols : list string) (df : DataFrame) :
  fold_left (fun d col => fill_if_present d col (Some 0%Q)) cols df =
  fill_items (zero_items cols) df.
Proof.
  unfold fill_items, zero_items. revert df.
  induction cols as [| c cols IH]; intro df; simpl; [reflexivity | apply IH].
Qed.

Lemma lookup_zero_items (c : string) (cols : list string) :
  In c cols -> lookup c (zero_items cols) = Some (Some 0%Q).
Proof.
  induction cols as [| k cols IH]; simpl; [tauto |].
  intros [-> | H].
  - now rewrite String.eqb_refl.
  - destruct (String.eqb c k); [reflexivity | now apply IH].
Qed.

Lemma labels_zero_items (cols : list string) :
  map fst (zero_items cols) = cols.
Proof.
  unfold zero_items. rewrite map_map. simpl. apply map_id.
Qed.

Lemma apply_plan_unfold (df : DataFrame) (info : imputation_info) :
  apply_basic_imputation_for_inference df (Some info) =
  fillna_frame 0
    (fill_items (median_cols info) (fill_items (zero_items (zero_cols info)) df)).
Proof.
  unfold apply_basic_imputation_for_inference.
  now rewrite fold_zero_items.
Qed.

(** ** Counting missing cells *)

Lemma length_insert_sorted (x : Q) (l : list Q) :
  List.length (insert_sorted x l) = S (List.length l).
Proof.
  induction l as [| y l IH]; simpl; [reflexivity |].
  destruct (Qle_bool x y); simpl; [reflexivity | now rewrite IH].
Qed.

Lemma length_sort_values (l : list Q) :
  List.length (sort_values l) = List.length l.
Proof.
  induction l as [| x l IH]; simpl; [reflexivity |].
  now rewrite length_insert_sorted, IH.
Qed.

Lemma nth_error_in_range {A : Type} (l : list A) (i : nat) :
  i < List.length l -> exists a, nth_error l i = Some a.
Proof.
  intro H. destruct (nth_error l i) as [a |] eqn:E; [eauto |].
  apply nth_error_None in E. lia.
Qed.

Lemma median_values_some (l : list Q) :
  l <> [] -> exists m, median_values l = Some m.
Proof.
  intro Hne. unfold median_values.
  pose proof (length_sort_values l) as Hlen.
  destruct l as [| x l]; [congruence |].
  set (s := sort_values (x :: l)) in *. simpl in Hlen.
  destruct (List.length s) as [| n] eqn:En; [discriminate |].
  assert (Hhalf : S n / 2 < List.length s).
  { rewrite En. apply Nat.div_lt; lia. }
  destruct (nth_error_in_range s Hhalf) as [b Hb].
  destruct (Nat.odd (S n)); [eauto |].
  assert (Hprev : S n / 2 - 1 < List.length s) by lia.
  destruct (nth_error_in_range s Hprev) as [a Ha].
  rewrite Ha, Hb. eauto.
Qed.

Lemma count_none {A : Type} (l : list (option A)) :
  List.length (dropna l) + count_true (map is_none l) = List.length l.
Proof.
  unfold count_true.
  induction l as [| [x |] l IH]; simpl; lia.
Qed.

Lemma count_true_zero (l : list bool) :
  count_true l = 0 -> existsb (fun b => b) l = false.
Proof.
  unfold count_true.
  induction l as [| [|] l IH]; simpl; [reflexivity | discriminate | exact IH].
Qed.

Lemma count_true_le (l : list bool) : count_true l <= List.length l.
Proof. unfold count_true. apply filter_length_le. Qed.

Lemma Zpos_of_nat (n : nat) : n <> 0 -> Zpos (Pos.of_nat n) = Z.of_nat n.
Proof.
  intro H. rewrite <- positive_nat_Z. now rewrite Nat2Pos.id.
Qed.

Lemma Qlt_bool_iff (a b : Q) : Qlt_bool a b = true <-> (a < b)%Q.
Proof.
  unfold Qlt_bool. rewrite negb_true_iff. split.
  - intro H. apply Qnot_le_lt. intro Hle.
    apply Qle_bool_iff in Hle. congruence.
  - intro H. destruct (Qle_bool b a) eqn:E; [| reflexivity].
    apply Qle_bool_iff in E. exfalso. now apply (Qlt_not_le a b).
Qed.

Lemma is_zero_no_null (s : series) :
  is_zero (isnull_mean s) = true -> series_has_null s = false.
Proof.
  unfold isnull_mean, bool_mean, series_has_null.
  destruct (List.length (isnull s)) as [| n] eqn:En; [discriminate |].
  simpl. intro H. apply Qeq_bool_iff in H.
  unfold Qeq in H. simpl in H.
  apply count_true_zero. lia.
Qed.

(** A column that the pruning step keeps is empty or has a value. *)
Lemma kept_column_has_value (l : list (option Q)) :
  exceeds (isnull_mean (NumCol l)) drop_threshold = false ->
  l = [] \/ dropna l <> [].
Proof.
  unfold isnull_mean, bool_mean, exceeds. cbn [isnull].
  rewrite length_map.
  destruct (List.length l) as [| n] eqn:En.
  - left. now apply length_zero_iff_nil.
  - intro H. right.
    apply negb_false_iff in H. apply Qle_bool_iff in H.
    unfold drop_threshold, Qle in H. cbn [Qnum Qden] in H.
    rewrite Zpos_of_nat in H by lia.
    pose proof (count_none l) as Hc.
    intro Hd. rewrite Hd in Hc. simpl in Hc. lia.
Qed.

Lemma nanmedian_fill_no_null (l : list (option Q)) :
  l = [] \/ dropna l <> [] ->
  series_has_null (fillna_float (nanmedian l) (NumCol l)) = false.
Proof.
  intros [-> | H]; [reflexivity |].
  unfold nanmedian. destruct (median_values_some H) as [m ->].
  apply fillna_no_null.
Qed.

Lemma isnull_astype_int_no_null (s : series) :
  series_has_null (isnull_astype_int s) = false.
Proof.
  unfold series_has_null, isnull_astype_int. simpl. rewrite map_map.
  induction (isnull s) as [| b l IH]; simpl; auto.
Qed.

Lemma series_null_free_frame (df : DataFrame) :
  (forall c s, In (c, s) (columns df) -> series_has_null s = false) ->
  frame_has_null df = false.
Proof.
  unfold frame_has_null. intro H.
  induction (columns df) as [| [k s] l IH]; simpl; [reflexivity |].
  rewrite (H k s) by now left. apply IH. intros c s' Hin. apply (H c s').
  now right.
Qed.

(** The ratio that the pruning step compares is the number of missing cells
    over the number of cells. *)
Lemma missing_ratio_is_fraction (df : DataFrame) (c : string) (s : series) :
  get df c = Some s ->
  isnull s <> [] ->
  missing_ratio df c
  = Some (Qmake (Z.of_nat (count_true (isnull s)))
                (Pos.of_nat (List.length (isnull s)))).
Proof.
  intros H Hne. unfold missing_ratio, isnull_mean, bool_mean. rewrite H.
  destruct (isnull s); [congruence | reflexivity].
Qed.

(** ** The stages of fit *)

Lemma outcome_prune (df : DataFrame) :
  outcome (prune_columns df) = Ok (drop df (cols_to_drop df), cols_to_drop df).
Proof.
  unfold prune_columns. rewrite outcome_bind.
  destruct (cols_to_drop df) as [| c l]; [reflexivity |].
  rewrite outcome_bind, outcome_print.
  now rewrite outcome_for_each_print.
Qed.

Lemma fit_stages (f : string -> option (option Q)) (raw : DataFrame)
  (r : fit_result) :
  outcome (clean_and_impute f raw) = Ok r ->
  exists df1 df2 sc t,
    outcome (drop_missing_target raw) = Ok df1 /\
    outcome (handle_rank df1) = Ok (df2, sc) /\
    let df3 := drop df2 (cols_to_drop df2) in
    outcome (foldM impute_col (num_cols_of df3)
                   (features_of df3, mkInfo [] [] (cols_to_drop df2) sc))
    = Ok (fit_X r, fit_info r) /\
    get df3 TARGET_COL = Some t /\
    outcome (astype_float f t) = Ok (fit_y r) /\
    outcome (sample_weights f df3 (fit_X r)) = Ok (fit_weight r) /\
    (forall m, In m (printed (safety_check (fit_X r))) ->
               In m (printed (clean_and_impute f raw))).
Proof.
  unfold clean_and_impute. intro H.
  apply bind_ok_full in H. destruct H as (df1 & H1 & H & P1).
  apply bind_ok_full in H. destruct H as ([df2 sc] & H2 & H & P2).
  apply bind_ok_full in H. destruct H as ([df3 dropped] & H3 & H & P3).
  rewrite outcome_prune in H3. injection H3 as <- <-.
  apply bind_ok_full in H. destruct H as (target & H4 & H & P4).
  apply bind_ok_full in H. destruct H as ([X info] & H5 & H & P5).
  apply bind_ok_full in H. destruct H as ([] & H6 & H & P6).
  apply bind_ok_full in H. destruct H as ([] & H7 & H & P7).
  apply bind_ok_full in H. destruct H as ([] & H8 & H & P8).
  apply bind_ok_full in H. destruct H as (w & H9 & H & P9).
  simpl in H. injection H as <-. cbn [fit_X fit_y fit_info fit_weight].
  destruct (get (drop df2 (cols_to_drop df2)) TARGET_COL) as [t |] eqn:Et;
    [| discriminate].
  exists df1, df2, sc, t. repeat split; try assumption.
  intros m Hm. rewrite P1, P2, P3, P4, P5, P6.
  do 5 (apply in_or_app; right).
  apply in_or_app. left. exact Hm.
Qed.

Lemma drop_missing_target_ok (df : DataFrame) (t : series) :
  get df TARGET_COL = Some t ->
  outcome (drop_missing_target df) = Ok (select_rows (notnull t) df).
Proof.
  intro H. unfold drop_missing_target. rewrite H.
  now rewrite outcome_bind, outcome_print.
Qed.

Lemma get_feature_frame (df : DataFrame) (c : string) :
  c <> "URL" -> c <> TARGET_COL -> get (feature_frame df) c = get df c.
Proof.
  intros Hu Ht. unfold feature_frame. rewrite get_drop.
  match goal with |- context [mem c ?l] =>
    assert (Hm : mem c l = false) end.
  { apply mem_not_In. intro H. apply in_app_or in H.
    destruct H as [H | [H | []]]; [| congruence].
    apply filter_In in H. destruct H as [[H | []] _]. congruence. }
  now rewrite Hm.
Qed.

Lemma labels_features_of (df : DataFrame) (c : string) :
  In c (labels (features_of df)) -> In c (labels df) /\ c <> TARGET_COL.
Proof.
  intro H. apply In_labels_getitem in H. destruct H as [_ H].
  apply In_labels_drop in H. destruct H as [H Hout]. split; [exact H |].
  intros ->. apply Hout. apply in_or_app. right. now left.
Qed.

Lemma features_of_numeric (df : DataFrame) :
  NoDup (labels df) ->
  features_of df = select_dtypes_number (feature_frame df).
Proof.
  intro H. unfold features_of, num_cols_of.
  apply getitem_numeric_cols. now apply NoDup_labels_drop.
Qed.

(** A column of the feature frame is a numeric column of the pruned frame,
    other than the target. *)
Lemma features_of_column (df : DataFrame) (c : string) (s : series) :
  NoDup (labels df) ->
  In (c, s) (columns (features_of df)) ->
  In (c, s) (columns df) /\ is_numeric s = true /\ c <> TARGET_COL.
Proof.
  intros Hnd Hin. rewrite features_of_numeric in Hin by assumption.
  unfold select_dtypes_number, feature_frame, drop in Hin. simpl in Hin.
  apply filter_In in Hin. destruct Hin as [Hin Hnum].
  apply filter_In in Hin. destruct Hin as [Hin Hkeep].
  simpl in *. repeat split; try assumption.
  intros ->. apply negb_true_iff, mem_not_In in Hkeep.
  apply Hkeep. apply in_or_app. right. now left.
Qed.

Lemma labels_num_cols (df : DataFrame) :
  NoDup (labels df) -> labels (features_of df) = num_cols_of df.
Proof.
  intro H. now rewrite features_of_numeric.
Qed.

(** ** The imputation loop *)

Lemma impute_col_step (st st' : DataFrame * imputation_info) (col : string) :
  outcome (impute_col st col) = Ok st' -> loop_step col st st'.
Proof.
  destruct st as [fdf info]. unfold impute_col.
  assert (Hsame : forall c,
             get fdf c = if String.eqb c col
                         then option_map (fun s => s) (get fdf c)
                         else get fdf c).
  { intro c. destruct (String.eqb c col); now destruct (get fdf c). }
  destruct (mem col special_impute_cols) eqn:Esp.
  - intros [= <-]. constructor; simpl; auto.
    intro c. unfold impute_series. rewrite Esp. apply Hsame.
  - destruct (get fdf col) as [s |] eqn:Eg; [| discriminate].
    destruct (is_zero (isnull_mean s)) eqn:Ez.
    + intros [= <-]. constructor; simpl; auto.
      intro c. destruct (String.eqb_spec c col) as [-> | Hne]; [| reflexivity].
      rewrite Eg. simpl. unfold impute_series. now rewrite Esp, Ez.
    + destruct (count_like col) eqn:Ec.
      * rewrite outcome_bind, outcome_print. intros [= <-].
        constructor; simpl; auto.
        -- now apply labels_set_col_present with (s := s).
        -- intros c Hc. apply in_app_or in Hc. destruct Hc as [Hc | [<- | []]];
             [now left | right; auto].
        -- intro c. rewrite get_set_col.
           destruct (String.eqb_spec c col) as [-> | Hne]; [| reflexivity].
           rewrite Eg. simpl. unfold impute_series. now rewrite Esp, Ez, Ec.
      * rewrite outcome_bind. destruct s as [l | l]; [| discriminate].
        simpl outcome at 1. cbv iota.
        rewrite outcome_bind, outcome_print. intros [= <-].
        constructor; simpl; auto.
        -- now apply labels_set_col_present with (s := NumCol l).
        -- intros c Hc. apply In_labels_assign in Hc.
           destruct Hc as [-> | Hc]; [right; auto | now left].
        -- intro c. rewrite get_set_col.
           destruct (String.eqb_spec c col) as [-> | Hne]; [| reflexivity].
           rewrite Eg. simpl. unfold impute_series. now rewrite Esp, Ez, Ec.
Qed.

Lemma foldM_impute_run (names : list string) :
  forall st st',
    outcome (foldM impute_col names st) = Ok st' -> loop_run names st st'.
Proof.
  induction names as [| col names IH]; intros st st' H.
  - injection H as <-. constructor; auto.
  - cbn [foldM] in H. apply bind_ok in H. destruct H as (st1 & H1 & H).
    apply impute_col_step in H1. apply IH in H.
    destruct H1, H. constructor; try congruence.
    + intros c Hc. destruct (run_zero0 c Hc) as [Hc' | (? & ? & ?)].
      * destruct (step_zero0 c Hc') as [? | (-> & ? & ?)];
          [now left | right; simpl; auto].
      * right; simpl; auto.
    + intros c Hc. destruct (run_median0 c Hc) as [Hc' | (? & ? & ?)].
      * destruct (step_median0 c Hc') as [? | (-> & ? & ?)];
          [now left | right; simpl; auto].
      * right; simpl; auto.
Qed.

Lemma foldM_impute_get (names : list string) :
  forall st st',
    NoDup names ->
    outcome (foldM impute_col names st) = Ok st' ->
    forall c,
      get (fst st') c =
      if mem c names then option_map (impute_series c) (get (fst st) c)
      else get (fst st) c.
Proof.
  induction names as [| col names IH]; intros st st' Hnd H c.
  - injection H as <-. reflexivity.
  - cbn [foldM] in H. apply bind_ok in H. destruct H as (st1 & H1 & H).
    inversion Hnd as [| ? ? Hcol Hnd']; subst.
    apply impute_col_step in H1.
    rewrite (IH _ _ Hnd' H c), (step_get H1).
    unfold mem at 2. simpl. fold (mem c names).
    destruct (String.eqb_spec c col) as [-> | Hne]; simpl.
    + apply mem_not_In in Hcol. now rewrite Hcol.
    + reflexivity.
Qed.

Lemma In_special (c : string) :
  mem c special_impute_cols = true <-> c = "RANK" \/ c = "RANK_missing".
Proof.
  rewrite mem_In. simpl. intuition congruence.
Qed.

Lemma impute_series_special (c : string) (s : series) :
  mem c special_impute_cols = true -> impute_series c s = s.
Proof. intro H. unfold impute_series. now rewrite H. Qed.

Lemma impute_series_no_null (c : string) (l : list (option Q)) :
  (mem c special_impute_cols = true -> series_has_null (NumCol l) = false) ->
  (mem c special_impute_cols = false ->
   exceeds (isnull_mean (NumCol l)) drop_threshold = false) ->
  series_has_null (impute_series c (NumCol l)) = false.
Proof.
  intros Hsp Hkept. unfold impute_series.
  destruct (mem c special_impute_cols); [now apply Hsp |].
  destruct (is_zero (isnull_mean (NumCol l))) eqn:Ez;
    [now apply is_zero_no_null |].
  destruct (count_like c); [apply fillna_no_null |].
  apply nanmedian_fill_no_null, kept_column_has_value. now apply Hkept.
Qed.

(** ** What the RANK block returns *)

Lemma with_suffix_nil (suffix : string) (l : list (string * series)) :
  map (with_suffix [] suffix) l = l.
Proof.
  induction l as [| [k s] l IH]; simpl; [reflexivity | now rewrite IH].
Qed.

Lemma labels_stat_columns (stats : list cat_row) (keys : list (option value)) :
  map fst (stat_columns stats keys) = stat_labels.
Proof. reflexivity. Qed.

Lemma no_overlap (df : DataFrame) :
  (forall c, In c stat_labels -> ~ In c (labels df)) ->
  filter (fun l => mem l (labels df)) stat_labels = [].
Proof.
  intro H. unfold stat_labels in *. simpl.
  rewrite !(proj2 (mem_not_In _ _)); [reflexivity | | |];
    apply H; simpl; tauto.
Qed.

Lemma distinct_NoDup (l : list string) : distinct l = true <-> NoDup l.
Proof.
  induction l as [| c l IH]; simpl.
  - split; [constructor | reflexivity].
  - rewrite andb_true_iff, negb_true_iff, IH. split.
    + intros [Hc Hl]. constructor; [now apply mem_not_In | exact Hl].
    + intro H. inversion H; subst. split; [now apply mem_not_In | assumption].
Qed.

Lemma merge_left_ok (df out : DataFrame) (stats : list cat_row) :
  outcome (merge_left df stats) = Ok out ->
  exists c,
    get df "Category" = Some c /\
    out = mkFrame (nrows df)
            (map (with_suffix (filter (fun l => mem l (labels df)) stat_labels)
                              "_x") (columns df)
             ++ map (with_suffix (filter (fun l => mem l (labels df)) stat_labels)
                                 "_y")
                    (stat_columns stats (keys_of c))).
Proof.
  unfold merge_left. destruct (get df "Category") as [c |]; [| discriminate].
  destruct (distinct _); [| discriminate].
  intros [= <-]. eauto.
Qed.

(** A merge that returns has made no two labels equal. *)
Lemma merge_left_NoDup (df out : DataFrame) (stats : list cat_row) :
  outcome (merge_left df stats) = Ok out -> NoDup (labels out).
Proof.
  unfold merge_left. destruct (get df "Category") as [c |]; [| discriminate].
  destruct (distinct _) eqn:E; [| discriminate].
  intros [= <-]. now apply distinct_NoDup.
Qed.

Lemma In_with_suffix (overlap : list string) (suffix c : string) (s : series)
  (l : list (string * series)) :
  In (c, s) (map (with_suffix overlap suffix) l) ->
  exists k, In (k, s) l /\
            c = if mem k overlap then String.append k suffix else k.
Proof.
  intro H. apply in_map_iff in H. destruct H as ([k v] & E & Hin).
  unfold with_suffix in E. cbn [fst snd] in E. injection E as <- <-.
  now exists k.
Qed.

(** No suffixed aggregate label is an aggregate label, RANK or its
    indicator. *)
Lemma suffixed_stat_label (k suffix c : string) :
  In k stat_labels ->
  suffix = "_x" \/ suffix = "_y" ->
  In c stat_labels \/ c = "RANK" \/ c = "RANK_missing" \/ c = TARGET_COL ->
  String.append k suffix <> c.
Proof.
  intros Hk Hs Hc. simpl in Hk, Hc.
  destruct Hs as [-> | ->];
    repeat (destruct Hk as [<- | Hk]; [intuition (subst; discriminate) |]);
    destruct Hk.
Qed.

(** A column whose label is neither renamed nor the new name of another goes
    through the renaming as it is. *)
Lemma lookup_with_suffix (overlap : list string) (suffix c : string)
  (l : list (string * series)) :
  (forall k, In k overlap -> c <> k /\ c <> String.append k suffix) ->
  lookup c (map (with_suffix overlap suffix) l) = lookup c l.
Proof.
  intro H. induction l as [| [k v] l IH]; [reflexivity |].
  cbn [map with_suffix fst snd lookup].
  destruct (mem k overlap) eqn:Ek.
  - apply mem_In in Ek. destruct (H k Ek) as [H1 H2].
    destruct (String.eqb_spec c (String.append k suffix)); [contradiction |].
    destruct (String.eqb_spec c k); [contradiction | exact IH].
  - destruct (String.eqb c k); [reflexivity | exact IH].
Qed.

Lemma handle_rank_ok (df out : DataFrame) (sc : list (string * Q)) :
  outcome (handle_rank df) = Ok (out, sc) ->
  (get df "RANK" = None /\ out = df /\ sc = [])
  \/ exists rank stats,
       get df "RANK" = Some rank /\
       sc = [("RANK", sentinel_value)] /\
       outcome (merge_left (with_rank_sentinel df rank) stats) = Ok out.
Proof.
  unfold handle_rank. destruct (get df "RANK") as [rank |] eqn:Er.
  - intro H. right. exists rank.
    rewrite outcome_bind, outcome_print in H.
    apply bind_ok in H. destruct H as (cs & _ & H).
    apply bind_ok in H. destruct H as (stats & _ & H).
    apply bind_ok in H. destruct H as (df' & Hm & H).
    rewrite outcome_bind, outcome_print in H.
    injection H as <- <-. exists stats. auto.
  - intros [= <- <-]. now left.
Qed.

(** Without RANK the whole block is skipped, the category statistics with
    it. *)
Lemma handle_rank_without_rank (df : DataFrame) :
  ~ In "RANK" (labels df) -> handle_rank df = ret (df, []).
Proof.
  intro H. apply lookup_None in H. unfold handle_rank, get. now rewrite H.
Qed.

Lemma handle_rank_NoDup (df out : DataFrame) (sc : list (string * Q)) :
  NoDup (labels df) ->
  outcome (handle_rank df) = Ok (out, sc) ->
  NoDup (labels out).
Proof.
  intros Hnd H. apply handle_rank_ok in H.
  destruct H as [(_ & -> & _) | (rank & stats & _ & _ & Hm)]; [exact Hnd |].
  now apply merge_left_NoDup in Hm.
Qed.

(** The frame that leaves the RANK block: labels stay distinct, and RANK and
    its indicator hold no missing value. *)
Lemma rank_block_frame (df out : DataFrame) (sc : list (string * Q)) :
  NoDup (labels df) ->
  In "RANK" (labels df) \/ ~ In "RANK_missing" (labels df) ->
  outcome (handle_rank df) = Ok (out, sc) ->
  NoDup (labels out) /\
  forall c s, mem c special_impute_cols = true ->
              In (c, s) (columns out) -> series_has_null s = false.
Proof.
  intros Hnd Hrank H.
  split; [exact (@handle_rank_NoDup df out sc Hnd H) |].
  apply handle_rank_ok in H.
  destruct H as [(Hno & -> & _) | (rank & stats & Hr & _ & Hm)].
  - intros c s Hc Hin.
    exfalso. apply (in_map fst) in Hin. simpl in Hin.
    apply lookup_None in Hno.
    apply In_special in Hc. destruct Hc as [-> | ->]; tauto.
  - apply merge_left_ok in Hm. destruct Hm as (cat & _ & ->).
    set (df' := with_rank_sentinel df rank).
    assert (Hnd' : NoDup (labels df'))
      by (unfold df', with_rank_sentinel; now do 2 apply NoDup_labels_set_col).
    set (overlap := filter (fun l => mem l (labels df')) stat_labels).
    assert (Hov : forall k, mem k overlap = true -> In k stat_labels).
    { intros k Hk. apply mem_In in Hk. unfold overlap in Hk.
      now apply filter_In in Hk. }
    intros c s Hc Hin. apply In_special in Hc.
    cbn [columns] in Hin. apply in_app_or in Hin.
    destruct Hin as [Hin | Hin]; apply In_with_suffix in Hin;
      destruct Hin as (k & Hk & E).
    + destruct (mem k overlap) eqn:Ek.
      * exfalso. symmetry in E. revert E.
        apply suffixed_stat_label; [now apply Hov | now left | tauto].
      * subst k. apply (lookup_NoDup _ _ _ Hnd') in Hk.
        fold (get df' c) in Hk. unfold df', with_rank_sentinel in Hk.
        rewrite !get_set_col in Hk.
        destruct Hc as [-> | ->]; simpl in Hk; injection Hk as <-.
        -- apply fillna_no_null.
        -- apply isnull_astype_int_no_null.
    + exfalso. apply (in_map fst) in Hk. rewrite labels_stat_columns in Hk.
      destruct (mem k overlap).
      * symmetry in E. revert E.
        apply suffixed_stat_label; [exact Hk | now right | tauto].
      * subst k. simpl in Hk. destruct Hc as [-> | ->]; intuition discriminate.
Qed.

(** ** Column pruning *)

Lemma cols_to_drop_iff (df : DataFrame) (c : string) :
  In c (cols_to_drop df) <->
  In c (labels df) /\ c <> TARGET_COL /\ c <> "RANK" /\ c <> "RANK_missing" /\
  exists r, missing_ratio df c = Some r /\ (drop_threshold < r)%Q.
Proof.
  unfold cols_to_drop. rewrite filter_In.
  destruct (mem c [TARGET_COL; "RANK"; "RANK_missing"]) eqn:Em.
  - apply mem_In in Em. split; [intros [_ H]; discriminate |].
    intros (_ & H1 & H2 & H3 & _). simpl in Em.
    destruct Em as [E | [E | [E | []]]]; congruence.
  - apply mem_not_In in Em. simpl in Em.
    split.
    + intros [Hin He]. repeat split; try (intro; apply Em; auto; fail); auto.
      unfold exceeds in He. destruct (missing_ratio df c) as [r |];
        [| discriminate].
      exists r. split; [reflexivity | now apply Qlt_bool_iff].
    + intros (Hin & _ & _ & _ & r & Hr & Hlt). split; [exact Hin |].
      rewrite Hr. simpl. now apply Qlt_bool_iff.
Qed.

(** C8, as stated, fails: the exemption goes by the names RANK and
    RANK_missing, not by the role of the column.  In this dataset no sentinel
    is applied (there is no RANK column), the column RANK_missing is nobody's
    indicator and half of its cells are missing, and yet it is not dropped:
    it reaches the matrix. *)
Lemma unpaired_indicator_is_not_pruned :
  missing_ratio stray_indicator "RANK_missing" = Some (1 # 2)%Q /\
  (drop_threshold < 1 # 2)%Q /\
  cols_to_drop stray_indicator = [] /\
  option_map (fun r => (sentinel_cols (fit_info r), dropped_cols (fit_info r),
                        labels (fit_X r)))
             (ok (clean_and_impute no_float stray_indicator))
  = Some ([], [], ["RANK_missing"]).
Proof.
  split; [reflexivity |]. split; [reflexivity |].
  split; [reflexivity |]. vm_compute. reflexivity.
Qed.

(** C8, amended: the pruning step drops a column exactly when it is not the
    target, not named RANK, not named RANK_missing (whether or not a sentinel
    was applied), and its fraction of missing cells is strictly above 0.40; a
    column at exactly 0.40 stays; and when fit returns, the plan's
    [dropped_cols] are exactly the dropped columns, none of which is a column
    of the feature matrix. *)
Theorem pruning_rule :
  (forall df c,
      In c (cols_to_drop df) <->
      In c (labels df) /\ c <> TARGET_COL /\ c <> "RANK"
      /\ c <> "RANK_missing"
      /\ exists r, missing_ratio df c = Some r /\ (drop_threshold < r)%Q) /\
  (forall df c r,
      missing_ratio df c = Some r -> (r == drop_threshold)%Q ->
      ~ In c (cols_to_drop df)) /\
  (forall f raw r,
      outcome (clean_and_impute f raw) = Ok r ->
      exists df,
        outcome (before_pruning raw) = Ok df /\
        dropped_cols (fit_info r) = cols_to_drop df /\
        forall c, In c (cols_to_drop df) -> ~ In c (labels (fit_X r))).
Proof.
  split; [exact cols_to_drop_iff | split].
  - intros df c r Hr Heq Hin. apply cols_to_drop_iff in Hin.
    destruct Hin as (_ & _ & _ & _ & r' & Hr' & Hlt).
    rewrite Hr in Hr'. injection Hr' as <-. rewrite Heq in Hlt.
    now apply (Qlt_irrefl drop_threshold).
  - intros f raw r H. apply fit_stages in H.
    destruct H as (df1 & df2 & sc & t & H1 & H2 & Hloop & _).
    exists df2. split; [| split].
    + unfold before_pruning. rewrite outcome_bind, H1, outcome_bind, H2.
      reflexivity.
    + apply foldM_impute_run in Hloop. exact (run_dropped Hloop).
    + intros c Hc Hin. apply foldM_impute_run in Hloop.
      pose proof (run_labels Hloop) as Hl. simpl in Hl.
      rewrite Hl in Hin.
      apply labels_features_of in Hin. destruct Hin as [Hin _].
      apply In_labels_drop in Hin. tauto.
Qed.

(** The rule on both sides of the threshold, and the plan of the fit. *)
Lemma pruning_rule_witness :
  In "above" (cols_to_drop boundary_sample) /\
  ~ In "at_threshold" (cols_to_drop boundary_sample) /\
  option_map (fun r => dropped_cols (fit_info r))
             (ok (clean_and_impute no_float boundary_sample))
  = Some ["above"].
Proof.
  destruct pruning_rule as (Hiff & Hedge & Hplan).
  split; [| split].
  - apply Hiff. repeat split; try discriminate.
    + simpl. tauto.
    + exists (3 # 5)%Q. split; [reflexivity | reflexivity].
  - apply (Hedge boundary_sample "at_threshold" (2 # 5)%Q).
    + reflexivity.
    + reflexivity.
  - destruct (ok (clean_and_impute no_float boundary_sample)) as [r |] eqn:E;
      [| vm_compute in E; discriminate].
    unfold ok in E.
    destruct (outcome (clean_and_impute no_float boundary_sample)) as [r' | e]
      eqn:Eo; [| discriminate].
    injection E as ->.
    destruct (Hplan no_float boundary_sample r Eo) as (df & Hdf & Hd & _).
    simpl. rewrite Hd. f_equal.
    vm_compute in Hdf. injection Hdf as <-. reflexivity.
Defined.

(** ** The category block nested under the RANK guard *)

(** Whenever the data has RANK but no Category, the merge reads the unbound
    [cat_stats] and fit stops there. *)
Lemma rank_without_category_raises (f : string -> option (option Q))
  (df : DataFrame) :
  In TARGET_COL (labels df) ->
  In "RANK" (labels df) ->
  ~ In "Category" (labels df) ->
  outcome (clean_and_impute f df) = Raise (UnboundLocalError "cat_stats").
Proof.
  intros Ht Hr Hc. unfold clean_and_impute.
  apply lookup_In_label in Ht. destruct Ht as [t Ht].
  rewrite outcome_bind, (drop_missing_target_ok _ Ht).
  rewrite outcome_bind.
  set (df1 := select_rows (notnull t) df).
  assert (Hr1 : In "RANK" (labels df1))
    by (unfold df1; now rewrite labels_select_rows).
  assert (Hc1 : ~ In "Category" (labels df1))
    by (unfold df1; now rewrite labels_select_rows).
  unfold handle_rank.
  apply lookup_In_label in Hr1. destruct Hr1 as [rank Hrank].
  unfold get. rewrite Hrank.
  rewrite outcome_bind, outcome_print, outcome_bind.
  match goal with |- context [mem "Category" ?l] =>
    assert (Hm : mem "Category" l = false) end.
  { apply mem_not_In. intro H.
    apply In_labels_set_col in H. destruct H as [H | H]; [discriminate |].
    apply In_labels_set_col in H. destruct H as [H | H]; [discriminate |].
    contradiction. }
  rewrite Hm. reflexivity.
Qed.

(** Without RANK, fit adds no column at all: every column of the returned
    matrix is a column of the data, whether or not there is a Category. *)
Lemma no_enrichment_without_rank (f : string -> option (option Q))
  (raw : DataFrame) (r : fit_result) (c : string) :
  ~ In "RANK" (labels raw) ->
  outcome (clean_and_impute f raw) = Ok r ->
  In c (labels (fit_X r)) -> In c (labels raw).
Proof.
  intros Hno H Hc. apply fit_stages in H.
  destruct H as (df1 & df2 & sc & t & H1 & H2 & Hloop & _).
  assert (Hlab1 : labels df1 = labels raw).
  { unfold drop_missing_target in H1.
    destruct (get raw TARGET_COL) as [t0 |]; [| discriminate].
    rewrite outcome_bind, outcome_print in H1. injection H1 as <-.
    apply labels_select_rows. }
  rewrite handle_rank_without_rank in H2 by now rewrite Hlab1.
  injection H2 as <- <-.
  apply foldM_impute_run in Hloop.
  pose proof (run_labels Hloop) as Hl. simpl in Hl. rewrite Hl in Hc.
  apply labels_features_of in Hc. destruct Hc as [Hc _].
  apply In_labels_drop in Hc. destruct Hc as [Hc _].
  now rewrite <- Hlab1.
Qed.

(** C2, at a dataset with RANK and without Category: fit raises
    [UnboundLocalError] instead of completing without enrichment. *)
Theorem fit_raises_on_rank_without_category :
  clean_and_impute no_float rank_only
  = ([DroppedRows 0; SentinelApplied], Raise (UnboundLocalError "cat_stats")).
Proof. vm_compute. reflexivity. Qed.

(** C3, at a dataset with Category and without RANK: fit returns, and its
    feature matrix carries no category aggregate; nothing was joined. *)
Theorem category_without_rank_is_not_enriched :
  option_map (fun r => (labels (fit_X r), sentinel_cols (fit_info r)))
             (ok (clean_and_impute no_float category_only))
  = Some (["x"], []) /\
  printed (clean_and_impute no_float category_only)
  = [DroppedRows 0; FilledMedian "x" (Some (2 # 1)%Q); FeatureShape 3 1;
     TargetShape 3; UniformBaseWeights; InternalFlagNotFound].
Proof. split; vm_compute; reflexivity. Qed.

(** C9, at a dataset with RANK and without Category: fit returns no plan at
    all, so no sentinel is recorded for RANK. *)
Theorem rank_sentinel_lost_without_category :
  option_map (fun r => (labels (fit_X r), sentinel_cols (fit_info r)))
             (ok (clean_and_impute no_float rank_only))
  = None.
Proof.
  unfold ok.
  rewrite (@rank_without_category_raises no_float rank_only).
  - reflexivity.
  - simpl. tauto.
  - simpl. tauto.
  - simpl. intuition discriminate.
Qed.

(** ** The final safety check *)

Lemma printed_safety_check (X : DataFrame) :
  printed (safety_check X) =
  if frame_has_null X then [WarnNaNRows (count_null_rows X)] else [].
Proof. unfold safety_check. now destruct (frame_has_null X). Qed.

(** C1, as stated, fails: fit accepts this dataset, prints its warning and
    returns a feature matrix that still has a missing value. *)
Lemma incomplete_matrix_is_returned :
  option_map (fun r => (fit_X r, frame_has_null (fit_X r)))
             (ok (clean_and_impute no_float stray_indicator))
  = Some (mkFrame 2 [("RANK_missing", NumCol [None; num 1])], true) /\
  In (WarnNaNRows 1) (printed (clean_and_impute no_float stray_indicator)).
Proof.
  split.
  - vm_compute. reflexivity.
  - vm_compute. tauto.
Qed.

(** The check itself never raises. *)
Lemma outcome_safety_check (X : DataFrame) : outcome (safety_check X) = Ok tt.
Proof. unfold safety_check. now destruct (frame_has_null X). Qed.

(** Fit returns as soon as the steps before the check and the weights after
    it do: the check is no condition of it. *)
Lemma fit_from_stages (f : string -> option (option Q)) (raw : DataFrame)
  (df1 df2 : DataFrame) (sc : list (string * Q)) (t : series)
  (y : list (option Q)) (X : DataFrame) (info : imputation_info)
  (w : list (option R)) :
  outcome (drop_missing_target raw) = Ok df1 ->
  outcome (handle_rank df1) = Ok (df2, sc) ->
  get (drop df2 (cols_to_drop df2)) TARGET_COL = Some t ->
  outcome (astype_float f t) = Ok y ->
  outcome (foldM impute_col (num_cols_of (drop df2 (cols_to_drop df2)))
             (features_of (drop df2 (cols_to_drop df2)),
              mkInfo [] [] (cols_to_drop df2) sc)) = Ok (X, info) ->
  outcome (sample_weights f (drop df2 (cols_to_drop df2)) X) = Ok w ->
  outcome (clean_and_impute f raw) = Ok (mkFit X y info w).
Proof.
  intros H1 H2 Ht Hy Hloop Hw. unfold clean_and_impute.
  rewrite outcome_bind, H1, outcome_bind, H2. cbv iota beta.
  rewrite outcome_bind, outcome_prune. cbv iota beta.
  rewrite outcome_bind, Ht, Hy.
  fold (feature_frame (drop df2 (cols_to_drop df2))).
  fold (num_cols_of (drop df2 (cols_to_drop df2))).
  fold (features_of (drop df2 (cols_to_drop df2))).
  rewrite outcome_bind, Hloop. cbv iota beta.
  rewrite outcome_bind, outcome_safety_check.
  rewrite outcome_bind, outcome_print, outcome_bind, outcome_print.
  rewrite outcome_bind, Hw. reflexivity.
Qed.

(** C1, amended: fit never fails on remaining missing values.  Whenever the
    steps before the final check and the weights after it succeed, fit
    returns, whatever the matrix holds: when missing values remain it prints
    a warning with the number of offending rows and returns the matrix all
    the same.  On a dataset with distinct labels that has a RANK column or
    has no RANK_missing column, the matrix that fit returns has no missing
    value. *)
Theorem fit_warns_on_incomplete_matrix (f : string -> option (option Q))
  (raw : DataFrame) :
  (forall df1 df2 sc t y X info w,
      outcome (drop_missing_target raw) = Ok df1 ->
      outcome (handle_rank df1) = Ok (df2, sc) ->
      get (drop df2 (cols_to_drop df2)) TARGET_COL = Some t ->
      outcome (astype_float f t) = Ok y ->
      outcome (foldM impute_col (num_cols_of (drop df2 (cols_to_drop df2)))
                 (features_of (drop df2 (cols_to_drop df2)),
                  mkInfo [] [] (cols_to_drop df2) sc)) = Ok (X, info) ->
      outcome (sample_weights f (drop df2 (cols_to_drop df2)) X) = Ok w ->
      outcome (clean_and_impute f raw) = Ok (mkFit X y info w) /\
      (frame_has_null X = true ->
       In (WarnNaNRows (count_null_rows X))
          (printed (clean_and_impute f raw)))) /\
  (forall r,
      outcome (clean_and_impute f raw) = Ok r ->
      NoDup (labels raw) ->
      In "RANK" (labels raw) \/ ~ In "RANK_missing" (labels raw) ->
      frame_has_null (fit_X r) = false).
Proof.
  split.
  - intros df1 df2 sc t y X info w H1 H2 Ht Hy Hloop Hw.
    pose proof (fit_from_stages f raw H1 H2 Ht Hy Hloop Hw) as Hfit.
    split; [exact Hfit |]. intro Hnull.
    apply fit_stages in Hfit.
    destruct Hfit as (_ & _ & _ & _ & _ & _ & _ & _ & _ & _ & Hprint).
    apply Hprint. cbn [fit_X]. rewrite printed_safety_check, Hnull. now left.
  - intros r H Hnd Hrank. apply fit_stages in H.
    destruct H as (df1 & df2 & sc & t & H1 & H2 & Hloop & _).
    assert (Hlab1 : labels df1 = labels raw).
    { unfold drop_missing_target in H1.
      destruct (get raw TARGET_COL) as [t0 |]; [| discriminate].
      rewrite outcome_bind, outcome_print in H1. injection H1 as <-.
      apply labels_select_rows. }
    rewrite <- Hlab1 in Hnd, Hrank.
    destruct (@rank_block_frame df1 df2 sc Hnd Hrank H2) as [Hnd2 Hsp].
    set (df3 := drop df2 (cols_to_drop df2)) in *.
    assert (Hnd3 : NoDup (labels df3)) by now apply NoDup_labels_drop.
    pose proof (@foldM_impute_run _ _ _ Hloop) as Hrun.
    pose proof (run_labels Hrun) as Hlab. simpl in Hlab.
    assert (Hndf : NoDup (labels (features_of df3))).
    { rewrite features_of_numeric by assumption.
      unfold select_dtypes_number, labels. cbn [columns].
      apply NoDup_labels_filter.
      exact (@NoDup_labels_drop df3 _ Hnd3). }
    assert (Hndn : NoDup (num_cols_of df3))
      by now rewrite <- labels_num_cols.
    pose proof (@foldM_impute_get _ _ _ Hndn Hloop) as Hget. simpl in Hget.
    apply series_null_free_frame. intros c s' Hin.
    assert (HinX : In c (labels (fit_X r)))
      by (apply (in_map fst) in Hin; exact Hin).
    apply lookup_NoDup in Hin;
      [| change (NoDup (labels (fit_X r))); now rewrite Hlab].
    fold (get (fit_X r) c) in Hin. rewrite Hget in Hin.
    rewrite Hlab, labels_num_cols in HinX by assumption.
    apply mem_In in HinX. rewrite HinX in Hin.
    destruct (get (features_of df3) c) as [s |] eqn:Es; [| discriminate].
    simpl in Hin. injection Hin as <-.
    apply lookup_Some_In in Es.
    apply features_of_column in Es; [| assumption].
    destruct Es as (Hin3 & Hnum & Htarget).
    unfold df3, drop in Hin3. simpl in Hin3.
    apply filter_In in Hin3. destruct Hin3 as [Hin2 Hkeep]. simpl in Hkeep.
    destruct s as [l | l]; [| discriminate].
    apply impute_series_no_null.
    + intro Hc. now apply (Hsp c).
    + intro Hc. apply negb_true_iff, mem_not_In in Hkeep.
      destruct (exceeds (isnull_mean (NumCol l)) drop_threshold) eqn:Ee;
        [| reflexivity].
      exfalso. apply Hkeep. unfold cols_to_drop. apply filter_In. split.
      * apply (in_map fst) in Hin2. exact Hin2.
      * assert (Hprot : mem c [TARGET_COL; "RANK"; "RANK_missing"] = false).
        { apply mem_not_In. intro Hp. simpl in Hp.
          destruct Hp as [Hp | Hp]; [congruence |].
          apply mem_not_In in Hc. apply Hc. simpl. tauto. }
        rewrite Hprot. unfold missing_ratio, get.
        now rewrite (lookup_NoDup _ _ _ Hnd2 Hin2).
Qed.

(** A fit with RANK, Category and gaps returns a complete matrix, and so
    does the fit on data that has a column named as an aggregate; the fit on
    the stray indicator returns its matrix and prints the warning. *)
Lemma fit_warns_on_incomplete_matrix_witness :
  (exists r, outcome (clean_and_impute no_float full_sample) = Ok r /\
             frame_has_null (fit_X r) = false) /\
  (exists r, outcome (clean_and_impute no_float own_count_sample) = Ok r /\
             labels (fit_X r)
             = ["RANK"; "cat_count_x"; "RANK_missing"; "cat_mean_vcvr";
                "cat_median_vcvr"; "cat_count_y"] /\
             frame_has_null (fit_X r) = false) /\
  outcome (clean_and_impute no_float stray_indicator)
  = Ok (mkFit (mkFrame 2 [("RANK_missing", NumCol [None; num 1])])
              [Some (1 # 10)%Q; Some (2 # 10)%Q]
              (mkInfo [] [] [] [])
              [Some 1%R; Some 1%R]) /\
  In (WarnNaNRows 1) (printed (clean_and_impute no_float stray_indicator)).
Proof.
  split.
  - destruct (outcome (clean_and_impute no_float full_sample)) as [r | e] eqn:E.
    + exists r. split; [reflexivity |].
      apply (proj2 (fit_warns_on_incomplete_matrix no_float full_sample) r E).
      * vm_compute. repeat constructor; simpl; intuition discriminate.
      * left. simpl. tauto.
    + vm_compute in E. discriminate.
  - split.
    {
      destruct (outcome (clean_and_impute no_float own_count_sample))
        as [r | e] eqn:E; [| vm_compute in E; discriminate].
      exists r. split; [reflexivity |]. split.
      - vm_compute in E. injection E as <-. reflexivity.
      - apply (proj2 (fit_warns_on_incomplete_matrix no_float
                        own_count_sample) r E).
        + vm_compute. repeat constructor; simpl; intuition discriminate.
        + left. simpl. tauto.
    }
    destruct (proj1 (fit_warns_on_incomplete_matrix no_float stray_indicator)
                stray_indicator stray_indicator []
                (NumCol [Some (1 # 10)%Q; Some (2 # 10)%Q])
                [Some (1 # 10)%Q; Some (2 # 10)%Q]
                (mkFrame 2 [("RANK_missing", NumCol [None; num 1])])
                (mkInfo [] [] [] [])
                [Some 1%R; Some 1%R]) as [Hfit Hwarn];
      try (vm_compute; reflexivity).
    split; [exact Hfit |]. apply (Hwarn eq_refl).
Defined.

(** Labels that collide after the renaming of the merge are fatal. *)
Lemma colliding_labels_raise :
  outcome (clean_and_impute no_float colliding_sample) = Raise MergeError.
Proof. vm_compute. reflexivity. Qed.

(** [main] hands the matrix with its missing value to [train_model]. *)
Lemma main_trains_on_incomplete_matrix
  (train : DataFrame -> list (option Q) -> list (option R) -> M regressor) :
  outcome (main no_float train stray_indicator)
  = outcome (m <- train (mkFrame 2 [("RANK_missing", NumCol [None; num 1])])
                        [Some (1 # 10)%Q; Some (2 # 10)%Q]
                        [Some 1%R; Some 1%R] ;;
             save_model m ["RANK_missing"] (mkInfo [] [] [] [])).
Proof.
  unfold main. rewrite (outcome_bind (load_data stray_indicator)).
  change (outcome (load_data stray_indicator)) with (Ok stray_indicator).
  cbv iota beta.
  rewrite (outcome_bind (clean_and_impute no_float stray_indicator)).
  replace (outcome (clean_and_impute no_float stray_indicator))
    with (Ok (mkFit (mkFrame 2 [("RANK_missing", NumCol [None; num 1])])
                    [Some (1 # 10)%Q; Some (2 # 10)%Q]
                    (mkInfo [] [] [] [])
                    [Some 1%R; Some 1%R]))
    by (vm_compute; reflexivity).
  reflexivity.
Qed.

(** ** The plan that fit records *)

(** Fit zero-fills only count-like columns, median-fills only the others, and
    never lists RANK or RANK_missing: the two fill lists are disjoint. *)
Lemma fit_plan_shape (f : string -> option (option Q)) (raw : DataFrame)
  (r : fit_result) :
  outcome (clean_and_impute f raw) = Ok r ->
  (forall c, In c (zero_cols (fit_info r)) ->
             mem c special_impute_cols = false /\ count_like c = true) /\
  (forall c, In c (map fst (median_cols (fit_info r))) ->
             mem c special_impute_cols = false /\ count_like c = false).
Proof.
  intro H. apply fit_stages in H.
  destruct H as (df1 & df2 & sc & t & _ & _ & Hloop & _).
  apply foldM_impute_run in Hloop. split; intros c Hc.
  - destruct (run_zero Hloop c Hc) as [[] | (_ & ? & ?)]. auto.
  - destruct (run_median Hloop c Hc) as [[] | (_ & ? & ?)]. auto.
Qed.

Lemma fit_plan_disjoint (f : string -> option (option Q)) (raw : DataFrame)
  (r : fit_result) (c : string) :
  outcome (clean_and_impute f raw) = Ok r ->
  In c (zero_cols (fit_info r)) ->
  ~ In c (map fst (median_cols (fit_info r))).
Proof.
  intros H Hz Hm. apply fit_plan_shape in H. destruct H as [Hzero Hmed].
  destruct (Hzero c Hz) as [_ E1]. destruct (Hmed c Hm) as [_ E2]. congruence.
Qed.

Lemma fit_plan_skips_rank (f : string -> option (option Q)) (raw : DataFrame)
  (r : fit_result) (c : string) :
  outcome (clean_and_impute f raw) = Ok r ->
  c = "RANK" \/ c = "RANK_missing" ->
  ~ In c (zero_cols (fit_info r)) /\
  ~ In c (map fst (median_cols (fit_info r))).
Proof.
  intros H Hc. apply fit_plan_shape in H. destruct H as [Hzero Hmed].
  apply In_special in Hc. split; intro Hin.
  - destruct (Hzero c Hin). congruence.
  - destruct (Hmed c Hin). congruence.
Qed.

(** When fit returns on a dataset with RANK, the plan records the sentinel,
    the matrix holds the indicator of the originally missing RANK values, and
    a numeric RANK comes out with -1 in their place. *)
Lemma rank_sentinel_recorded (f : string -> option (option Q))
  (raw : DataFrame) (r : fit_result) :
  NoDup (labels raw) ->
  In "RANK" (labels raw) ->
  outcome (clean_and_impute f raw) = Ok r ->
  sentinel_cols (fit_info r) = [("RANK", sentinel_value)] /\
  exists t rank,
    get raw TARGET_COL = Some t /\ get raw "RANK" = Some rank /\
    get (fit_X r) "RANK_missing"
    = Some (isnull_astype_int (select_series (notnull t) rank)) /\
    (is_numeric rank = true ->
     get (fit_X r) "RANK"
     = Some (fillna sentinel_value (select_series (notnull t) rank))).
Proof.
  intros Hnd Hrank H. apply fit_stages in H.
  destruct H as (df1 & df2 & sc & t' & H1 & H2 & Hloop & _).
  unfold drop_missing_target in H1.
  destruct (get raw TARGET_COL) as [t |] eqn:Et; [| discriminate].
  rewrite outcome_bind, outcome_print in H1. injection H1 as <-.
  set (df1 := select_rows (notnull t) raw) in *.
  apply lookup_In_label in Hrank. destruct Hrank as [rank0 Hrank0].
  fold (get raw "RANK") in Hrank0.
  assert (Hr1 : get df1 "RANK" = Some (select_series (notnull t) rank0))
    by (unfold df1; now rewrite get_select_rows, Hrank0).
  assert (Hnd1 : NoDup (labels df1))
    by (unfold df1; now rewrite labels_select_rows).
  assert (Hin1 : In "RANK" (labels df1) \/ ~ In "RANK_missing" (labels df1)).
  { left. now apply lookup_label with (v := select_series (notnull t) rank0). }
  destruct (@rank_block_frame df1 df2 sc Hnd1 Hin1 H2) as [Hnd2 _].
  apply handle_rank_ok in H2.
  destruct H2 as [(Hno & _) | (rank & stats & Hr & -> & Hm)]; [congruence |].
  rewrite Hr1 in Hr. injection Hr as <-.
  set (kept := select_series (notnull t) rank0) in *.
  apply merge_left_ok in Hm. destruct Hm as (cat & _ & Hdf2).
  set (df3 := drop df2 (cols_to_drop df2)) in *.
  assert (Hnd3 : NoDup (labels df3)) by now apply NoDup_labels_drop.
  pose proof (@foldM_impute_run _ _ _ Hloop) as Hrun.
  split; [exact (run_sentinel Hrun) |].
  exists t, rank0. split; [reflexivity | split; [exact Hrank0 |]].
  assert (Hndn : NoDup (num_cols_of df3)).
  { rewrite <- labels_num_cols by assumption.
    rewrite features_of_numeric by assumption.
    unfold select_dtypes_number, labels. cbn [columns].
    apply NoDup_labels_filter. exact (@NoDup_labels_drop df3 _ Hnd3). }
  pose proof (@foldM_impute_get _ _ _ Hndn Hloop) as Hget. simpl in Hget.
  assert (Hspecial : forall c s,
             c = "RANK" \/ c = "RANK_missing" ->
             get (with_rank_sentinel df1 kept) c = Some s ->
             is_numeric s = true ->
             get (fit_X r) c = Some s).
  { intros c s Hc Hs Hnum.
    assert (Hg2 : get df2 c = Some s).
    { rewrite Hdf2. unfold get. cbn [columns].
      rewrite lookup_app, lookup_with_suffix.
      - unfold get in Hs. now rewrite Hs.
      - intros k Hk. apply filter_In in Hk. destruct Hk as [Hk _]. split.
        + intros ->. simpl in Hk.
          destruct Hc as [-> | ->]; intuition discriminate.
        + intro E. symmetry in E. revert E.
          apply suffixed_stat_label; [exact Hk | now left |].
          destruct Hc; auto. }
    assert (Hg3 : get df3 c = Some s).
    { unfold df3. rewrite get_drop.
      destruct (mem c (cols_to_drop df2)) eqn:Em; [| exact Hg2].
      apply mem_In, cols_to_drop_iff in Em. intuition congruence. }
    assert (Hgf : get (features_of df3) c = Some s).
    { rewrite features_of_numeric by assumption.
      apply lookup_filter_kept; [| exact Hnum].
      fold (get (feature_frame df3) c). rewrite get_feature_frame;
        [exact Hg3 | |]; destruct Hc as [-> | ->]; discriminate. }
    rewrite Hget, Hgf. apply In_special in Hc.
    destruct (mem c (num_cols_of df3)); simpl;
      [now rewrite impute_series_special | reflexivity]. }
  split.
  - apply Hspecial; [now right | | reflexivity].
    unfold with_rank_sentinel. now rewrite !get_set_col.
  - intro Hnum. apply Hspecial; [now left | |].
    + unfold with_rank_sentinel. now rewrite get_set_col.
    + unfold kept. now destruct rank0.
Qed.

(** ** Sample weights *)

Lemma clip_is_clamp (q : Q) :
  clip_upper (1000 # 1) (clip_lower 1 (Some q)) = Some (clamp q).
Proof.
  unfold clip_upper, clip_lower, clamp. simpl.
  destruct (Qlt_bool q 1); reflexivity.
Qed.

Lemma base_weights_absent (f : string -> option (option Q))
  (df X : DataFrame) :
  get df "Clicks" = None ->
  outcome (base_weights f df X) = Ok (repeat (Some 1%R) (nrows X)).
Proof. intro H. unfold base_weights. now rewrite H. Qed.

Lemma base_weights_numeric (f : string -> option (option Q))
  (df X : DataFrame) (l : list (option Q)) :
  get df "Clicks" = Some (NumCol l) ->
  outcome (base_weights f df X)
  = Ok (map (fun c => np_sqrt (clip_upper (1000 # 1) (clip_lower 1 c))) l).
Proof.
  intro H. unfold base_weights. rewrite H. simpl. now rewrite !map_map.
Qed.

(** A missing volume stays missing through the clip and the square root. *)
Lemma missing_volume_has_missing_weight :
  np_sqrt (clip_upper (1000 # 1) (clip_lower 1 None)) = None.
Proof. reflexivity. Qed.

Lemma present_volume_weight (q : Q) :
  np_sqrt (clip_upper (1000 # 1) (clip_lower 1 (Some q)))
  = Some (sqrt (Q2R (clamp q))).
Proof. now rewrite clip_is_clamp. Qed.

Lemma sample_weights_without_flag (f : string -> option (option Q))
  (df X : DataFrame) :
  get df INTERNAL_FLAG_COL = None ->
  outcome (sample_weights f df X) = outcome (base_weights f df X).
Proof.
  intro H. unfold sample_weights. rewrite outcome_bind, H.
  destruct (outcome (base_weights f df X)); reflexivity.
Qed.

Lemma sample_weights_with_flag (f : string -> option (option Q))
  (df X : DataFrame) (s : series) (base : list (option R)) :
  get df INTERNAL_FLAG_COL = Some s ->
  outcome (base_weights f df X) = Ok base ->
  outcome (sample_weights f df X)
  = Ok (times base (internal_multiplier (ne_zero (fillna 0 s)))).
Proof.
  intros H Hb. unfold sample_weights. rewrite outcome_bind, H, Hb.
  reflexivity.
Qed.

(** One row of the weight vector, for numeric volume and flag columns: the
    square root of the clamped volume times 2 on an internal page, and a
    missing weight where the volume is missing. *)
Lemma sample_weight_row (f : string -> option (option Q)) (df X : DataFrame)
  (clicks flag : list (option Q)) (i : nat) (c fl : option Q) :
  get df "Clicks" = Some (NumCol clicks) ->
  get df INTERNAL_FLAG_COL = Some (NumCol flag) ->
  nth_error clicks i = Some c ->
  nth_error flag i = Some fl ->
  exists ws,
    outcome (sample_weights f df X) = Ok ws /\
    nth_error ws i
    = Some (option_map
              (fun q => (sqrt (Q2R (clamp q))
                         * (if is_internal fl then 2 else 1))%R) c).
Proof.
  intros Hc Hf Hi Hj. eexists. split.
  - apply sample_weights_with_flag with (s := NumCol flag);
      [exact Hf | exact (@base_weights_numeric f df X clicks Hc)].
  - unfold times, internal_multiplier, ne_zero. cbn [fillna].
    rewrite !map_map.
    assert (Hcomb : nth_error
                      (combine
                         (map (fun c0 => np_sqrt (clip_upper (1000 # 1)
                                                    (clip_lower 1 c0))) clicks)
                         (map (fun x => if match fill 0%Q x with
                                           | Some q => negb (Qeq_bool q 0)
                                           | None => true
                                           end then 2%R else 1%R) flag)) i
                    = Some (np_sqrt (clip_upper (1000 # 1) (clip_lower 1 c)),
                            if is_internal fl then 2%R else 1%R)).
    { clear - Hi Hj. revert i flag Hi Hj.
      induction clicks as [| a clicks IH]; intros [| i] [| b flag] Hi Hj;
        simpl in *; try discriminate.
      - injection Hi as ->. injection Hj as ->. now destruct fl.
      - now apply IH. }
    rewrite (map_nth_error _ _ _ Hcomb). cbn [fst snd]. f_equal.
    destruct c as [q |]; [| reflexivity].
    now rewrite present_volume_weight.
Qed.

(** C5, at a dataset whose volume column has a gap: the row with the missing
    volume gets a missing weight (the other rows get sqrt(1000) * 2 for
    volume 2000 on an internal page and sqrt(1) * 1 for volume 0). *)
Theorem weight_missing_where_volume_missing :
  option_map fit_weight (ok (clean_and_impute no_float full_sample))
  = Some [Some (sqrt (Q2R (1000 # 1)) * 2)%R; None;
          Some (sqrt (Q2R 1) * 1)%R].
Proof. vm_compute. reflexivity. Qed.

(** The pruned frame, not the dataset, decides whether there is a volume
    column: a Clicks column with more than 40% of gaps is dropped first, and
    the weights are then uniform. *)
Lemma pruned_volume_gives_uniform_weights :
  option_map fit_weight (ok (clean_and_impute no_float sparse_volume))
  = Some [Some 1%R; Some 1%R].
Proof. vm_compute. reflexivity. Qed.

(** ** Length and sign of the weight vector *)

Lemma length_isnull (s : series) : List.length (isnull s) = series_length s.
Proof. destruct s; simpl; apply length_map. Qed.

Lemma length_select {A : Type} (mask : list bool) (l : list A) :
  List.length mask = List.length l ->
  List.length (select mask l) = count_true mask.
Proof.
  unfold count_true. revert l.
  induction mask as [| b mask IH]; intros [| x l] H; simpl in *;
    try discriminate; [reflexivity |].
  destruct b; simpl; rewrite IH; auto.
Qed.

Lemma well_formed_select_rows (df : DataFrame) (t : series) :
  well_formed df -> series_length t = nrows df ->
  well_formed (select_rows (notnull t) df).
Proof.
  intros Hwf Ht c s Hin. unfold select_rows in *. simpl in *.
  apply in_map_iff in Hin. destruct Hin as [[k s0] [[= <- <-] Hin]].
  apply Hwf in Hin.
  assert (Hm : List.length (notnull t) = nrows df).
  { unfold notnull. now rewrite length_map, length_isnull. }
  destruct s0 as [l | l]; simpl in *; apply length_select; congruence.
Qed.

Lemma In_assign {A : Type} (c k : string) (v w : A) (l : list (string * A)) :
  In (k, w) (assign c v l) -> (k, w) = (c, v) \/ In (k, w) l.
Proof.
  induction l as [| [k' w'] l IH]; simpl.
  - intros [E | []]. left. now symmetry.
  - destruct (String.eqb_spec c k') as [-> | Hne]; simpl.
    + intros [E | H]; [left; now symmetry | right; now right].
    + intros [E | H]; [right; now left |].
      destruct (IH H); [now left | right; now right].
Qed.

Lemma well_formed_set_col (df : DataFrame) (c : string) (s : series) :
  well_formed df -> series_length s = nrows df ->
  well_formed (set_col df c s).
Proof.
  intros Hwf Hs k w Hin. unfold set_col in Hin. simpl in *.
  apply In_assign in Hin. destruct Hin as [[= -> ->] | Hin];
    [exact Hs | now apply (Hwf k)].
Qed.

Lemma well_formed_drop (df : DataFrame) (names : list string) :
  well_formed df -> well_formed (drop df names).
Proof.
  intros Hwf c s Hin. unfold drop in Hin. simpl in *.
  apply filter_In in Hin. now apply (Hwf c).
Qed.

Lemma length_keys_of (s : series) :
  List.length (keys_of s) = series_length s.
Proof. destruct s; simpl; [apply length_map | reflexivity]. Qed.

Lemma get_well_formed (df : DataFrame) (c : string) (s : series) :
  well_formed df -> get df c = Some s -> series_length s = nrows df.
Proof. intros Hwf H. apply lookup_Some_In in H. now apply (Hwf c). Qed.

Lemma well_formed_rank_block (df out : DataFrame) (sc : list (string * Q)) :
  well_formed df ->
  outcome (handle_rank df) = Ok (out, sc) ->
  well_formed out /\ nrows out = nrows df.
Proof.
  intros Hwf H. apply handle_rank_ok in H.
  destruct H as [(_ & -> & _) | (rank & stats & Hr & _ & Hm)]; [auto |].
  pose proof (@get_well_formed df "RANK" rank Hwf Hr) as Hlen.
  assert (Hwf' : well_formed (with_rank_sentinel df rank)).
  { unfold with_rank_sentinel. apply well_formed_set_col.
    - apply well_formed_set_col; [exact Hwf |].
      unfold isnull_astype_int. simpl.
      now rewrite length_map, length_isnull.
    - unfold set_col at 1. cbn [nrows]. rewrite <- Hlen.
      destruct rank; simpl; apply length_map. }
  apply merge_left_ok in Hm. destruct Hm as (cat & Hcat & ->).
  split; [| reflexivity].
  pose proof (@get_well_formed _ "Category" cat Hwf' Hcat) as Hc.
  intros c s Hin. cbn [columns nrows] in *. apply in_app_or in Hin.
  destruct Hin as [Hin | Hin]; apply in_map_iff in Hin;
    destruct Hin as [[k s0] [E Hin]]; unfold with_suffix in E; simpl in E;
    injection E as _ <-.
  - now apply (Hwf' k).
  - unfold stat_columns in Hin. simpl in Hin.
    destruct Hin as [E | [E | [E | []]]]; injection E as _ <-; simpl;
      now rewrite !length_map, length_keys_of.
Qed.

Lemma length_all_to_float (f : string -> option (option Q))
  (l : list (option value)) (xs : list (option Q)) :
  all_to_float f l = Ok xs -> List.length xs = List.length l.
Proof.
  revert xs. induction l as [| c l IH]; intros xs; simpl.
  - now intros [= <-].
  - destruct (to_float f c); [| discriminate].
    destruct (all_to_float f l) as [ys |]; [| discriminate].
    intros [= <-]. simpl. f_equal. now apply IH.
Qed.

Lemma length_base_weights (f : string -> option (option Q))
  (df X : DataFrame) (base : list (option R)) :
  well_formed df -> nrows X = nrows df ->
  outcome (base_weights f df X) = Ok base ->
  List.length base = nrows X.
Proof.
  intros Hwf Hn. unfold base_weights.
  destruct (get df "Clicks") as [s |] eqn:Es.
  - pose proof (@get_well_formed df "Clicks" s Hwf Es) as Hlen.
    intro H. apply bind_ok in H. destruct H as (clicks & Hc & H).
    injection H as <-. rewrite !length_map, Hn, <- Hlen.
    destruct s as [l | l]; simpl in *.
    + now injection Hc as <-.
    + now apply length_all_to_float with (f := f).
  - rewrite outcome_bind, outcome_print. intros [= <-]. apply repeat_length.
Qed.

(** The weight vector has one entry per row of the prepared matrix, on any
    dataset whose columns all have one cell per row. *)
Lemma weights_aligned_with_matrix (f : string -> option (option Q))
  (raw : DataFrame) (r : fit_result) :
  well_formed raw ->
  outcome (clean_and_impute f raw) = Ok r ->
  List.length (fit_weight r) = nrows (fit_X r).
Proof.
  intros Hwf H. apply fit_stages in H.
  destruct H as (df1 & df2 & sc & t & H1 & H2 & Hloop & _ & _ & Hw & _).
  unfold drop_missing_target in H1.
  destruct (get raw TARGET_COL) as [t0 |] eqn:Et; [| discriminate].
  rewrite outcome_bind, outcome_print in H1. injection H1 as <-.
  pose proof (@well_formed_select_rows raw t0 Hwf
                (@get_well_formed raw TARGET_COL t0 Hwf Et)) as Hwf1.
  destruct (@well_formed_rank_block _ df2 sc Hwf1 H2) as [Hwf2 Hn2].
  set (df3 := drop df2 (cols_to_drop df2)) in *.
  assert (Hwf3 : well_formed df3) by now apply well_formed_drop.
  apply foldM_impute_run in Hloop.
  pose proof (run_nrows Hloop) as HnX. simpl in HnX.
  assert (Hn : nrows (fit_X r) = nrows df3) by exact HnX.
  unfold sample_weights in Hw. apply bind_ok in Hw.
  destruct Hw as (base & Hb & Hw).
  pose proof (@length_base_weights f df3 (fit_X r) base Hwf3 Hn Hb) as Hlen.
  destruct (get df3 INTERNAL_FLAG_COL) as [s |] eqn:Es.
  - rewrite outcome_bind, outcome_print in Hw. injection Hw as <-.
    unfold times, internal_multiplier, ne_zero.
    rewrite length_map, length_combine, Hlen.
    pose proof (@get_well_formed df3 INTERNAL_FLAG_COL s Hwf3 Es) as Hs.
    destruct s as [l | l]; simpl in *; rewrite !length_map, Hs, Hn;
      apply Nat.min_id.
  - rewrite outcome_bind, outcome_print in Hw. now injection Hw as <-.
Qed.

Lemma base_weights_nonnegative (f : string -> option (option Q))
  (df X : DataFrame) (base : list (option R)) (w : R) :
  outcome (base_weights f df X) = Ok base ->
  In (Some w) base -> (0 <= w)%R.
Proof.
  unfold base_weights. destruct (get df "Clicks") as [s |].
  - intro H. apply bind_ok in H. destruct H as (clicks & _ & H).
    injection H as <-. intro Hin.
    apply in_map_iff in Hin. destruct Hin as [x [Hx _]].
    destruct x as [q |]; [| discriminate]. injection Hx as <-.
    apply sqrt_pos.
  - rewrite outcome_bind, outcome_print. intros [= <-] Hin.
    apply repeat_spec in Hin. injection Hin as ->.
    apply Rle_0_1.
Qed.

(** A weight that is not missing is not negative. *)
Lemma weights_nonnegative (f : string -> option (option Q))
  (raw : DataFrame) (r : fit_result) (w : R) :
  outcome (clean_and_impute f raw) = Ok r ->
  In (Some w) (fit_weight r) -> (0 <= w)%R.
Proof.
  intros H Hin. apply fit_stages in H.
  destruct H as (df1 & df2 & sc & t & _ & _ & _ & _ & _ & Hw & _).
  set (df3 := drop df2 (cols_to_drop df2)) in *.
  unfold sample_weights in Hw. apply bind_ok in Hw.
  destruct Hw as (base & Hb & Hw).
  destruct (get df3 INTERNAL_FLAG_COL) as [s |].
  - rewrite outcome_bind, outcome_print in Hw. injection Hw as Hw.
    rewrite <- Hw in Hin.
    unfold times in Hin. apply in_map_iff in Hin.
    destruct Hin as [[b m] [E Hin]]. simpl in E.
    destruct b as [x |]; [| discriminate]. injection E as <-.
    pose proof (in_combine_l _ _ _ _ Hin) as Hx.
    pose proof (in_combine_r _ _ _ _ Hin) as Hm.
    apply (@base_weights_nonnegative f df3 (fit_X r) base x Hb) in Hx.
    unfold internal_multiplier in Hm. apply in_map_iff in Hm.
    destruct Hm as [b [<- _]].
    apply Rmult_le_pos; [exact Hx |].
    destruct b; [apply Rlt_le, Rlt_0_2 | apply Rle_0_1].
  - rewrite outcome_bind, outcome_print in Hw. injection Hw as Hw.
    rewrite <- Hw in Hin.
    now apply (@base_weights_nonnegative f df3 (fit_X r) base w Hb).
Qed.

(** ** Plan replay at inference *)

Lemma get_apply_plan (df : DataFrame) (info : imputation_info) (c : string) :
  get (apply_basic_imputation_for_inference df (Some info)) c =
  option_map (fun s => fillna 0 (replay c (median_cols info)
                                   (replay c (zero_items (zero_cols info)) s)))
             (get df c).
Proof.
  rewrite apply_plan_unfold, get_fillna_frame, !get_fill_items.
  now destruct (get df c).
Qed.

(** C7: replaying a plan fills the missing values of a zero-fill column
    with 0 and those of a median-fill column with the stored median, leaves
    out plan columns the frame does not have, fills whatever is still
    missing with 0, and so returns a frame of the same columns without any
    missing value. *)
Theorem replay_fills_by_plan (df : DataFrame) (info : imputation_info) :
  NoDup (labels df) ->
  let out := apply_basic_imputation_for_inference df (Some info) in
  labels out = labels df /\
  nrows out = nrows df /\
  frame_has_null out = false /\
  (forall c s, get df c = Some s -> In c (zero_cols info) ->
               get out c = Some (fillna 0 s)) /\
  (forall c s m, get df c = Some s -> ~ In c (zero_cols info) ->
                 lookup c (median_cols info) = Some (Some m) ->
                 get out c = Some (fillna m s)) /\
  (forall c s, get df c = Some s -> ~ In c (zero_cols info) ->
               ~ In c (map fst (median_cols info)) ->
               get out c = Some (fillna 0 s)) /\
  (forall c, get df c = None -> get out c = None).
Proof.
  intros _ out. subst out. repeat split.
  - now rewrite apply_plan_unfold, labels_fillna_frame, !labels_fill_items.
  - rewrite apply_plan_unfold. simpl. now rewrite !nrows_fill_items.
  - rewrite apply_plan_unfold. apply fillna_frame_no_null.
  - intros c s Hs Hz. rewrite get_apply_plan, Hs. simpl. f_equal.
    rewrite (replay_first _ _ s (lookup_zero_items _ _ Hz)).
    rewrite replay_filled. apply (fillna_absorbs (Some 0%Q)).
  - intros c s m Hs Hz Hm. rewrite get_apply_plan, Hs. simpl. f_equal.
    rewrite (replay_absent c (zero_items (zero_cols info))).
    + rewrite (replay_first _ _ s Hm). apply (fillna_absorbs (Some 0%Q)).
    + now rewrite labels_zero_items.
  - intros c s Hs Hz Hm. rewrite get_apply_plan, Hs. simpl. f_equal.
    rewrite (replay_absent c (zero_items (zero_cols info)))
      by now rewrite labels_zero_items.
    now rewrite replay_absent.
  - intros c Hc. now rewrite get_apply_plan, Hc.
Qed.

(** The replay example: gaps of clicks_count become 0, gaps of x become 5. *)
Lemma replay_fills_by_plan_witness :
  let out := apply_basic_imputation_for_inference
               (select_dtypes_number sample_features) (Some sample_plan) in
  get out "clicks_count" = Some (NumCol [num 4; Some 0%Q]) /\
  get out "x" = Some (NumCol [Some (5 # 1)%Q; num 2]) /\
  frame_has_null out = false.
Proof.
  assert (Hnd : NoDup (labels (select_dtypes_number sample_features))).
  { vm_compute. repeat constructor; simpl; intuition discriminate. }
  destruct (@replay_fills_by_plan _ sample_plan Hnd)
    as (_ & _ & Hnull & Hzero & Hmed & _).
  split; [| split].
  - apply (Hzero "clicks_count" (NumCol [num 4; None])).
    + reflexivity.
    + simpl. now left.
  - apply (Hmed "x" (NumCol [None; num 2]) (5 # 1)%Q).
    + reflexivity.
    + simpl. intuition discriminate.
    + reflexivity.
  - exact Hnull.
Defined.

(** ** Prediction *)

Lemma get_reindex (df : DataFrame) (cols : list string) (v : Q) (c : string) :
  get (reindex df cols v) c =
  if mem c cols
  then Some (match get df c with
             | Some s => s
             | None => NumCol (repeat (Some v) (nrows df))
             end)
  else None.
Proof.
  unfold get at 1, reindex. simpl.
  induction cols as [| k cols IH]; simpl; [reflexivity |].
  destruct (String.eqb_spec c k) as [-> | Hne]; [reflexivity | exact IH].
Qed.

Lemma labels_reindex (df : DataFrame) (cols : list string) (v : Q) :
  labels (reindex df cols v) = cols.
Proof.
  unfold labels, reindex. simpl. rewrite map_map. simpl. apply map_id.
Qed.

Lemma nrows_apply (df : DataFrame) (info : option imputation_info) :
  nrows (apply_basic_imputation_for_inference df info) = nrows df.
Proof.
  destruct info as [info |]; [| reflexivity].
  rewrite apply_plan_unfold. simpl. now rewrite !nrows_fill_items.
Qed.

Lemma labels_apply (df : DataFrame) (info : option imputation_info) :
  labels (apply_basic_imputation_for_inference df info) = labels df.
Proof.
  destruct info as [info |]; [| apply labels_fillna_frame].
  now rewrite apply_plan_unfold, labels_fillna_frame, !labels_fill_items.
Qed.

Lemma length_rows_of (df : DataFrame) : List.length (rows_of df) = nrows df.
Proof. unfold rows_of. now rewrite length_map, length_seq. Qed.

Lemma outcome_predict (p : payload) (features : DataFrame) :
  outcome (predict_vcvr_from_features p features) =
  Ok (map (model p) (rows_of (inference_matrix p features))).
Proof.
  unfold predict_vcvr_from_features, inference_matrix, load_trained_model.
  rewrite outcome_bind.
  match goal with |- context [match ?l with [] => _ | _ :: _ => _ end] =>
    destruct l end; reflexivity.
Qed.

Lemma printed_predict (p : payload) (features : DataFrame) :
  printed (predict_vcvr_from_features p features) =
  match missing_feature_columns p features with
  | [] => []
  | l => [WarnMissingFeatureColumns (List.length l)]
  end.
Proof.
  unfold predict_vcvr_from_features, missing_feature_columns,
    load_trained_model.
  rewrite printed_bind, labels_apply.
  match goal with |- context [match ?l with [] => _ | _ :: _ => _ end] =>
    destruct l end; reflexivity.
Qed.

(** C4, as stated, fails: a bundle without plan predicts on a frame with
    gaps and prints nothing at all. *)
Lemma missing_plan_prints_no_warning :
  payload_info bare_payload = None /\
  frame_has_null (select_dtypes_number sample_features) = true /\
  printed (predict_vcvr_from_features bare_payload sample_features) = [].
Proof. repeat split; reflexivity. Qed.

(** C4, amended: without a plan prediction still returns; the replay is
    [fillna(0)] on the frame it is given (the numeric columns of the input),
    so no missing value is left; no message tells of the degraded mode: the
    only message [predict] ever prints is the count of expected feature
    columns that the numeric input lacks. *)
Theorem missing_plan_fills_zero_silently (p : payload) (features : DataFrame) :
  NoDup (labels features) ->
  payload_info p = None ->
  let numeric := select_dtypes_number features in
  let filled := apply_basic_imputation_for_inference numeric (payload_info p) in
  filled = fillna_frame 0 numeric /\
  (forall c, get filled c = option_map (fillna 0) (get numeric c)) /\
  frame_has_null filled = false /\
  outcome (predict_vcvr_from_features p features)
  = Ok (map (model p) (rows_of (inference_matrix p features))) /\
  printed (predict_vcvr_from_features p features)
  = match missing_feature_columns p features with
    | [] => []
    | l => [WarnMissingFeatureColumns (List.length l)]
    end.
Proof.
  intros _ Hnone numeric filled. subst filled. rewrite Hnone. simpl.
  repeat split.
  - intro c. apply get_fillna_frame.
  - apply fillna_frame_no_null.
  - apply outcome_predict.
  - apply printed_predict.
Qed.

(** The sample frame against the bundle without plan. *)
Lemma missing_plan_fills_zero_silently_witness :
  apply_basic_imputation_for_inference (select_dtypes_number sample_features)
                                       None
  = mkFrame 2 [("x", NumCol [Some 0%Q; num 2]);
               ("extra", NumCol [Some 0%Q; num 8]);
               ("RANK", NumCol [Some 0%Q; num 2]);
               ("clicks_count", NumCol [num 4; Some 0%Q])] /\
  printed (predict_vcvr_from_features bare_payload sample_features) = [].
Proof.
  assert (Hnd : NoDup (labels sample_features)).
  { vm_compute. repeat constructor; simpl; intuition discriminate. }
  destruct (@missing_plan_fills_zero_silently bare_payload sample_features
              Hnd eq_refl) as (Hfill & _ & _ & _ & Hprint).
  split.
  - exact Hfill.
  - exact Hprint.
Defined.

(** C10: prediction never reads [sentinel_cols]: whatever sentinels the plan
    stores, the matrix and the predictions are the same.  With RANK in neither
    fill list (where fit never puts it), a missing RANK of the input becomes
    0, not the sentinel -1, and an indicator column RANK_missing that the
    input lacks is created as a column of zeros. *)
Theorem sentinel_not_replayed (m : regressor) (cols : list string)
  (info : imputation_info) (features : DataFrame) :
  NoDup (labels features) ->
  ~ In "RANK" (zero_cols info) ->
  ~ In "RANK" (map fst (median_cols info)) ->
  let X := inference_matrix (mkPayload m cols (Some info)) features in
  (forall sc,
     inference_matrix (mkPayload m cols (Some (with_sentinels info sc)))
                      features = X /\
     predict_vcvr_from_features
       (mkPayload m cols (Some (with_sentinels info sc))) features
     = predict_vcvr_from_features (mkPayload m cols (Some info)) features) /\
  (forall cells, In "RANK" cols ->
                 get features "RANK" = Some (NumCol cells) ->
                 get X "RANK" = Some (NumCol (map (fill 0%Q) cells))) /\
  (In "RANK_missing" cols ->
   get features "RANK_missing" = None ->
   get X "RANK_missing" = Some (NumCol (repeat (Some 0%Q) (nrows features)))).
Proof.
  intros _ Hz Hm X. subst X. split; [| split].
  - intro sc. split; reflexivity.
  - intros cells Hin Hget.
    unfold inference_matrix, load_trained_model. simpl payload_info.
    rewrite get_reindex. apply mem_In in Hin. simpl feature_columns.
    rewrite Hin.
    rewrite get_apply_plan.
    assert (Hnum : get (select_dtypes_number features) "RANK"
                   = Some (NumCol cells)).
    { apply lookup_filter_kept; [exact Hget | reflexivity]. }
    rewrite Hnum. simpl. f_equal.
    rewrite (replay_absent "RANK" (zero_items (zero_cols info)))
      by now rewrite labels_zero_items.
    now rewrite replay_absent.
  - intros Hin Hget.
    unfold inference_matrix, load_trained_model. simpl payload_info.
    rewrite get_reindex. apply mem_In in Hin. simpl feature_columns.
    rewrite Hin.
    rewrite get_apply_plan, nrows_apply.
    assert (Hnum : get (select_dtypes_number features) "RANK_missing" = None).
    { now apply lookup_filter_None. }
    now rewrite Hnum.
Qed.

(** The sample frame: its missing RANK becomes 0 and RANK_missing is all 0. *)
Lemma sentinel_not_replayed_witness :
  get (inference_matrix sample_payload sample_features) "RANK"
  = Some (NumCol [Some 0%Q; num 2]) /\
  get (inference_matrix sample_payload sample_features) "RANK_missing"
  = Some (NumCol [Some 0%Q; Some 0%Q]).
Proof.
  assert (Hnd : NoDup (labels sample_features)).
  { vm_compute. repeat constructor; simpl; intuition discriminate. }
  assert (Hz : ~ In "RANK" (zero_cols sample_plan)).
  { simpl. intuition discriminate. }
  assert (Hm : ~ In "RANK" (map fst (median_cols sample_plan))).
  { simpl. intuition discriminate. }
  destruct (@sentinel_not_replayed (fun _ => 0%Q)
              ["clicks_count"; "x"; "RANK"; "RANK_missing"]
              sample_plan sample_features Hnd Hz Hm) as (_ & Hrank & Hind).
  split.
  - apply (Hrank [None; num 2]).
    + simpl. tauto.
    + reflexivity.
  - apply Hind.
    + simpl. tauto.
    + reflexivity.
Defined.

(** * Further properties of the code *)

Unset Implicit Arguments.

(** ** The plan records exactly the fills of the loop *)

Lemma impute_col_plan (st st' : DataFrame * imputation_info) (col : string) :
  outcome (impute_col st col) = Ok st' ->
  zero_cols (snd st')
  = zero_cols (snd st) ++ (if zero_filled (fst st) col then [col] else []) /\
  forall c,
    lookup c (median_cols (snd st'))
    = if String.eqb c col && median_filled (fst st) col
      then Some (column_median (fst st) col)
      else lookup c (median_cols (snd st)).
Proof.
  destruct st as [fdf info]. unfold impute_col.
  unfold zero_filled, median_filled, needs_fill, column_median. cbn [fst snd].
  destruct (mem col special_impute_cols) eqn:Esp.
  - intros [= <-]. cbn [fst snd negb andb]. split.
    + now rewrite app_nil_r.
    + intro c. now rewrite andb_false_r.
  - destruct (get fdf col) as [s |] eqn:Eg; [| discriminate].
    destruct (is_zero (isnull_mean s)) eqn:Ez.
    + intros [= <-]. cbn [fst snd negb andb]. split.
      * now rewrite app_nil_r.
      * intro c. now rewrite andb_false_r.
    + destruct (count_like col) eqn:Ec.
      * rewrite outcome_bind, outcome_print. intros [= <-].
        cbn [fst snd negb andb zero_cols median_cols]. split; [reflexivity |].
        intro c. now rewrite andb_false_r.
      * rewrite outcome_bind. destruct s as [l | l]; [| discriminate].
        simpl outcome at 1. cbv iota.
        rewrite outcome_bind, outcome_print. intros [= <-].
        cbn [fst snd negb andb zero_cols median_cols]. split.
        -- now rewrite app_nil_r.
        -- intro c. rewrite andb_true_r.
           destruct (String.eqb_spec c col) as [-> | Hne].
           ++ apply lookup_assign_eq.
           ++ apply lookup_assign_neq. congruence.
Qed.

Lemma foldM_impute_plan (names : list string) :
  forall st st',
    NoDup names ->
    outcome (foldM impute_col names st) = Ok st' ->
    zero_cols (snd st')
    = zero_cols (snd st) ++ filter (zero_filled (fst st)) names /\
    forall c,
      lookup c (median_cols (snd st'))
      = if mem c names && median_filled (fst st) c
        then Some (column_median (fst st) c)
        else lookup c (median_cols (snd st)).
Proof.
  induction names as [| col names IH]; intros st st' Hnd H.
  - injection H as <-. split; [now rewrite app_nil_r | reflexivity].
  - cbn [foldM] in H. apply bind_ok in H. destruct H as (st1 & H1 & H).
    inversion Hnd as [| ? ? Hcol Hnd']; subst.
    pose proof (@impute_col_step _ _ _ H1) as Hstep.
    apply impute_col_plan in H1. destruct H1 as [Hz1 Hm1].
    destruct (IH _ _ Hnd' H) as [Hz Hm].
    assert (Hsame : forall c, In c names -> get (fst st1) c = get (fst st) c).
    { intros c Hc. rewrite (step_get Hstep).
      destruct (String.eqb_spec c col) as [-> | Hne]; [contradiction |].
      reflexivity. }
    split.
    + rewrite Hz, Hz1, <- app_assoc. f_equal. cbn [filter].
      assert (Hf : filter (zero_filled (fst st1)) names
                   = filter (zero_filled (fst st)) names).
      { apply filter_ext_in. intros c Hc.
        unfold zero_filled, needs_fill. now rewrite Hsame. }
      rewrite Hf. now destruct (zero_filled (fst st) col).
    + intro c. rewrite Hm, Hm1.
      unfold mem at 2. cbn [existsb]. fold (mem c names).
      destruct (mem c names) eqn:Ec.
      * apply mem_In in Ec.
        destruct (String.eqb_spec c col) as [-> | Hne]; [contradiction |].
        unfold median_filled, needs_fill, column_median.
        rewrite (Hsame c Ec). reflexivity.
      * rewrite orb_false_r. cbn [andb].
        destruct (String.eqb_spec c col) as [-> | Hne]; reflexivity.
Qed.

(** ** The frame that leaves the RANK block, in full *)

Lemma stat_free_with_rank_sentinel (df : DataFrame) (rank : series) :
  (forall c, In c stat_labels -> ~ In c (labels df)) ->
  forall c, In c stat_labels -> ~ In c (labels (with_rank_sentinel df rank)).
Proof.
  intros Hstat c Hc Hin. unfold with_rank_sentinel in Hin.
  apply In_labels_set_col in Hin. destruct Hin as [-> | Hin].
  - simpl in Hc. intuition discriminate.
  - apply In_labels_set_col in Hin. destruct Hin as [-> | Hin].
    + simpl in Hc. intuition discriminate.
    + now apply (Hstat c).
Qed.

Lemma rank_block_columns (df out : DataFrame) (sc : list (string * Q)) :
  (forall c, In c stat_labels -> ~ In c (labels df)) ->
  outcome (handle_rank df) = Ok (out, sc) ->
  (get df "RANK" = None /\ out = df /\ sc = [])
  \/ exists rank cat t,
       get df "RANK" = Some rank /\
       sc = [("RANK", sentinel_value)] /\
       get (with_rank_sentinel df rank) "Category" = Some cat /\
       get (with_rank_sentinel df rank) TARGET_COL = Some (NumCol t) /\
       out = mkFrame (nrows df)
               (columns (with_rank_sentinel df rank)
                ++ stat_columns (groupby_agg (keys_of cat) t) (keys_of cat)).
Proof.
  intros Hstat H. unfold handle_rank in H.
  destruct (get df "RANK") as [rank |] eqn:Er.
  - right. fold (with_rank_sentinel df rank) in H.
    set (df' := with_rank_sentinel df rank) in *.
    rewrite outcome_bind, outcome_print in H.
    apply bind_ok in H. destruct H as (cs & Hcs & H).
    apply bind_ok in H. destruct H as (stats & Hst & H).
    apply bind_ok in H. destruct H as (df2 & Hm & H).
    rewrite outcome_bind, outcome_print in H. injection H as <- <-.
    destruct cs as [s |]; [| discriminate]. injection Hst as ->.
    destruct (mem "Category" (labels df')); [| discriminate].
    apply bind_ok in Hcs. destruct Hcs as (s & Hs & Hcs).
    injection Hcs as ->.
    unfold category_stats in Hs.
    destruct (get df' "Category") as [cat |] eqn:Ec; [| discriminate].
    destruct (get df' TARGET_COL) as [[t | t] |] eqn:Et; try discriminate.
    injection Hs as <-.
    apply merge_left_ok in Hm. destruct Hm as (cat' & Hcat' & ->).
    fold df' in Hcat'. rewrite Ec in Hcat'. injection Hcat' as <-.
    exists rank, cat, t.
    split; [reflexivity |]. split; [reflexivity |].
    split; [exact Ec |]. split; [exact Et |].
    rewrite (@no_overlap df' (stat_free_with_rank_sentinel df rank Hstat)).
    now rewrite !with_suffix_nil.
  - left. now injection H as <- <-.
Qed.

Lemma rank_block_NoDup (df out : DataFrame) (sc : list (string * Q)) :
  NoDup (labels df) ->
  (forall c, In c stat_labels -> ~ In c (labels df)) ->
  outcome (handle_rank df) = Ok (out, sc) ->
  NoDup (labels out).
Proof.
  intros Hnd Hstat H. apply rank_block_columns in H; [| exact Hstat].
  destruct H as [(_ & -> & _) | (rank & cat & t & _ & _ & _ & _ & ->)];
    [exact Hnd |].
  unfold labels. cbn [columns]. rewrite map_app, labels_stat_columns.
  apply NoDup_app.
  - unfold with_rank_sentinel. now do 2 apply NoDup_labels_set_col.
  - repeat constructor; simpl; intuition discriminate.
  - intros a Ha Hs.
    now apply (stat_free_with_rank_sentinel df rank Hstat a Hs).
Qed.

(** *** The RANK block on data that has aggregate labels of its own *)

(** A column whose name is no aggregate label, suffixed or not, nor RANK or
    its indicator, goes through the RANK block as it is. *)
Lemma get_rank_block_plain (df out : DataFrame) (sc : list (string * Q))
  (c : string) :
  outcome (handle_rank df) = Ok (out, sc) ->
  c <> "RANK" -> c <> "RANK_missing" ->
  (forall k, In k stat_labels ->
             c <> k /\ c <> String.append k "_x"
             /\ c <> String.append k "_y") ->
  get out c = get df c.
Proof.
  intros H Hr Hm Hs. apply handle_rank_ok in H.
  destruct H as [(_ & -> & _) | (rank & stats & _ & _ & H)]; [reflexivity |].
  apply merge_left_ok in H. destruct H as (cat & _ & ->).
  set (df' := with_rank_sentinel df rank).
  set (overlap := filter (fun l => mem l (labels df')) stat_labels).
  assert (Hov : forall k, In k overlap -> In k stat_labels).
  { intros k Hk. unfold overlap in Hk. now apply filter_In in Hk. }
  unfold get at 1. cbn [columns]. rewrite lookup_app, lookup_with_suffix.
  - assert (Hnone : lookup c (map (with_suffix overlap "_y")
                                  (stat_columns stats (keys_of cat))) = None).
    { apply lookup_None. intro Hin. apply in_map_iff in Hin.
      destruct Hin as ([c' s'] & E & Hin). cbn [fst] in E.
      apply In_with_suffix in Hin. destruct Hin as (k & Hk & E').
      apply (in_map fst) in Hk. rewrite labels_stat_columns in Hk.
      cbn [fst] in Hk. destruct (Hs k Hk) as (H1 & _ & H3).
      subst. destruct (mem k overlap); contradiction. }
    rewrite Hnone. fold (get df' c). unfold df', with_rank_sentinel.
    rewrite !get_set_col.
    destruct (String.eqb_spec c "RANK"); [contradiction |].
    destruct (String.eqb_spec c "RANK_missing"); [contradiction |].
    now destruct (get df c).
  - intros k Hk. destruct (Hs k (Hov k Hk)) as (H1 & H2 & _). now split.
Qed.

Lemma NoDup_map_injective {A B : Type} (g : A -> B) (l : list A) (a b : A) :
  NoDup (map g l) -> In a l -> In b l -> g a = g b -> a = b.
Proof.
  induction l as [| x l IH]; [intros _ [] |].
  cbn [map]. intros Hnd Ha Hb E. inversion Hnd as [| ? ? Hx Hnd']; subst.
  destruct Ha as [-> | Ha], Hb as [-> | Hb]; [reflexivity | | |].
  - exfalso. apply Hx. rewrite E. now apply in_map.
  - exfalso. apply Hx. rewrite <- E. now apply in_map.
  - now apply IH.
Qed.

Lemma NoDup_app_disjoint {A : Type} (l1 l2 : list A) (a : A) :
  NoDup (l1 ++ l2) -> In a l1 -> In a l2 -> False.
Proof.
  induction l1 as [| x l1 IH]; [intros _ [] |].
  cbn [app]. intros Hnd Ha Hb. inversion Hnd as [| ? ? Hx Hnd']; subst.
  destruct Ha as [-> | Ha].
  - apply Hx. apply in_or_app. now right.
  - now apply IH.
Qed.

Lemma NoDup_app_left {A : Type} (l1 l2 : list A) :
  NoDup (l1 ++ l2) -> NoDup l1.
Proof.
  induction l1 as [| x l1 IH]; [constructor |].
  cbn [app]. intro Hnd. inversion Hnd as [| ? ? Hx Hnd']; subst.
  constructor; [| now apply IH].
  intro Hin. apply Hx. apply in_or_app. now left.
Qed.

(** A data column found after the RANK block under its own name is the data
    column, RANK with its gaps filled by the sentinel. *)
Lemma rank_block_data_column (df out : DataFrame) (sc : list (string * Q))
  (c : string) (s : series) :
  NoDup (labels df) ->
  outcome (handle_rank df) = Ok (out, sc) ->
  In c (labels df) ->
  c <> "RANK_missing" \/ ~ In "RANK" (labels df) ->
  get out c = Some s ->
  exists s0, get df c = Some s0 /\
             ((c = "RANK" /\ s = fillna sentinel_value s0) \/ s = s0).
Proof.
  intros Hnd H Hc Hind Hs. pose proof H as H'. apply handle_rank_ok in H'.
  destruct H' as [(_ & -> & _) | (rank & stats & Hr & _ & Hm)].
  { exists s. split; [exact Hs | now right]. }
  pose proof (@merge_left_NoDup _ _ _ Hm) as Hndo.
  apply merge_left_ok in Hm. destruct Hm as (cat & _ & ->).
  set (df' := with_rank_sentinel df rank) in *.
  set (overlap := filter (fun l => mem l (labels df')) stat_labels) in *.
  assert (Hnd' : NoDup (labels df'))
    by (unfold df', with_rank_sentinel; now do 2 apply NoDup_labels_set_col).
  assert (Hov : forall k, mem k overlap = true ->
                          In k stat_labels /\ In k (labels df')).
  { intros k Hk. apply mem_In in Hk. unfold overlap in Hk.
    apply filter_In in Hk. destruct Hk as [H1 H2].
    split; [exact H1 | now apply mem_In]. }
  assert (Hc' : In c (labels df')).
  { unfold df', with_rank_sentinel.
    apply In_labels_set_col. right. apply In_labels_set_col. now right. }
  assert (Hrank : In "RANK" (labels df))
    by exact (@lookup_label _ "RANK" _ rank Hr).
  assert (Hcm : c <> "RANK_missing") by (destruct Hind; tauto).
  unfold labels in Hndo. cbn [columns] in Hndo. rewrite map_app in Hndo.
  (* the column under the name [c] in the frame before the merge *)
  destruct (proj1 (in_map_iff fst (columns df') c) Hc') as ([c0 s1] & E & Hs1).
  cbn [fst] in E. subst c0.
  apply lookup_Some_In in Hs. cbn [columns] in Hs. apply in_app_or in Hs.
  destruct Hs as [Hs | Hs]; apply In_with_suffix in Hs;
    destruct Hs as (k & Hk & E).
  - destruct (mem k overlap) eqn:Ek.
    + (* a renamed aggregate label of the data would meet [c] *)
      exfalso. destruct (Hov k Ek) as [Hks _].
      assert (Hco : mem c overlap = false).
      { destruct (mem c overlap) eqn:Eco; [| reflexivity].
        destruct (Hov c Eco) as [Hcs _]. exfalso. symmetry in E. revert E.
        apply suffixed_stat_label; [exact Hks | now left | now left]. }
      assert (Heq : (k, s) = (c, s1)).
      { apply (NoDup_map_injective
                 (fun p => fst (with_suffix overlap "_x" p)) (columns df')).
        - rewrite <- map_map. now apply NoDup_app_left in Hndo.
        - exact Hk.
        - exact Hs1.
        - unfold with_suffix. cbn [fst]. now rewrite Ek, Hco. }
      injection Heq as -> _. rewrite Ek in Hco. discriminate.
    + subst k. apply (lookup_NoDup _ _ _ Hnd') in Hk.
      fold (get df' c) in Hk. unfold df', with_rank_sentinel in Hk.
      rewrite !get_set_col in Hk.
      destruct (String.eqb_spec c "RANK") as [-> | Hne].
      * injection Hk as <-. exists rank. split; [exact Hr | left; now split].
      * destruct (String.eqb_spec c "RANK_missing"); [contradiction |].
        exists s. split; [exact Hk | now right].
  - exfalso. apply (in_map fst) in Hk. rewrite labels_stat_columns in Hk.
    cbn [fst] in Hk. destruct (mem k overlap) eqn:Ek.
    + (* the suffixed aggregate would meet the data column [c] *)
      assert (Hco : mem c overlap = false).
      { destruct (mem c overlap) eqn:Eco; [| reflexivity].
        destruct (Hov c Eco) as [Hcs _]. exfalso. symmetry in E. revert E.
        apply suffixed_stat_label; [exact Hk | now right | now left]. }
      apply (NoDup_app_disjoint _ _ c Hndo).
      * apply in_map_iff. exists (with_suffix overlap "_x" (c, s1)).
        split; [unfold with_suffix; cbn [fst]; now rewrite Hco |].
        now apply in_map.
      * rewrite map_map. apply in_map_iff.
        destruct (proj1 (in_map_iff fst
                           (stat_columns stats (keys_of cat)) k))
          as ([k0 s2] & Ek0 & Hin2); [now rewrite labels_stat_columns |].
        cbn [fst] in Ek0. subst k0. exists (k, s2).
        split; [unfold with_suffix; cbn [fst]; now rewrite Ek | exact Hin2].
    + subst k.
      assert (Hco : mem c overlap = true).
      { apply mem_In. unfold overlap. apply filter_In.
        split; [exact Hk | now apply mem_In]. }
      rewrite Ek in Hco. discriminate.
Qed.

Lemma drop_missing_target_inv (raw df1 : DataFrame) :
  outcome (drop_missing_target raw) = Ok df1 ->
  exists t, get raw TARGET_COL = Some t /\ df1 = select_rows (notnull t) raw.
Proof.
  unfold drop_missing_target.
  destruct (get raw TARGET_COL) as [t |]; [| discriminate].
  rewrite outcome_bind, outcome_print. intros [= <-]. eauto.
Qed.

Lemma fit_has_trace (f : string -> option (option Q)) (raw : DataFrame)
  (r : fit_result) :
  NoDup (labels raw) ->
  outcome (clean_and_impute f raw) = Ok r ->
  fit_trace f raw r.
Proof.
  intros Hnd H. apply fit_stages in H.
  destruct H as (df1 & df2 & sc & t & H1 & H2 & Hloop & Ht & Hy & Hw & _).
  apply drop_missing_target_inv in H1. destruct H1 as (target & Hg & ->).
  exists target, df2, sc. cbv zeta.
  assert (Hnd2 : NoDup (labels df2)).
  { apply (@handle_rank_NoDup (select_rows (notnull target) raw) df2 sc).
    - now rewrite labels_select_rows.
    - exact H2. }
  set (df3 := drop df2 (cols_to_drop df2)) in *.
  assert (Hnd3 : NoDup (labels df3)) by now apply NoDup_labels_drop.
  assert (Hlab : labels (features_of df3) = num_cols_of df3)
    by now apply labels_num_cols.
  assert (Hndn : NoDup (num_cols_of df3)).
  { rewrite <- Hlab, features_of_numeric by assumption.
    unfold select_dtypes_number, labels. cbn [columns].
    apply NoDup_labels_filter. exact (@NoDup_labels_drop df3 _ Hnd3). }
  repeat split; try assumption. exists t. now split.
Qed.

Lemma outcome_features_before_imputation (raw : DataFrame) (t : series)
  (df2 : DataFrame) (sc : list (string * Q)) :
  get raw TARGET_COL = Some t ->
  outcome (handle_rank (select_rows (notnull t) raw)) = Ok (df2, sc) ->
  outcome (features_before_imputation raw)
  = Ok (features_of (drop df2 (cols_to_drop df2))).
Proof.
  intros Hg H2. unfold features_before_imputation, before_pruning.
  rewrite !outcome_bind, (@drop_missing_target_ok raw t Hg), outcome_bind, H2.
  reflexivity.
Qed.

(** ** Frames with distinct labels are determined by their columns' lookup *)

Lemma columns_ext {A : Type} (l1 l2 : list (string * A)) :
  map fst l1 = map fst l2 ->
  NoDup (map fst l1) ->
  (forall c, In c (map fst l1) -> lookup c l1 = lookup c l2) ->
  l1 = l2.
Proof.
  revert l2. induction l1 as [| [k v] l1 IH]; intros [| [k' v'] l2] Hl Hnd Hg;
    simpl in Hl; try discriminate; [reflexivity |].
  injection Hl as <- Hl. inversion Hnd as [| ? ? Hk Hnd']; subst.
  pose proof (Hg k (or_introl eq_refl)) as Hhead. simpl in Hhead.
  rewrite String.eqb_refl in Hhead. injection Hhead as <-.
  f_equal. apply IH; [exact Hl | exact Hnd' |].
  intros c Hc. pose proof (Hg c (or_intror Hc)) as Hc'. simpl in Hc'.
  destruct (String.eqb_spec c k) as [-> | Hne]; [contradiction | exact Hc'].
Qed.

Lemma lookup_map_key {A B : Type} (g : string -> A -> B) (c : string)
  (l : list (string * A)) :
  lookup c (map (fun p => (fst p, g (fst p) (snd p))) l)
  = option_map (g c) (lookup c l).
Proof.
  induction l as [| [k v] l IH]; simpl; [reflexivity |].
  destruct (String.eqb_spec c k) as [-> | Hne]; [reflexivity | exact IH].
Qed.

Lemma fit_columns (f : string -> option (option Q)) (raw : DataFrame)
  (r : fit_result) (fdf : DataFrame) (names : list string)
  (info : imputation_info) :
  NoDup names -> labels fdf = names ->
  outcome (foldM impute_col names (fdf, info)) = Ok (fit_X r, fit_info r) ->
  columns (fit_X r)
  = map (fun p => (fst p, impute_series (fst p) (snd p))) (columns fdf).
Proof.
  intros Hnd Hlab Hloop.
  pose proof (@foldM_impute_run _ _ _ Hloop) as Hrun.
  pose proof (run_labels Hrun) as HlX. cbn [fst] in HlX.
  pose proof (@foldM_impute_get _ _ _ Hnd Hloop) as Hget. cbn [fst] in Hget.
  apply columns_ext.
  - rewrite map_map. cbn [fst]. exact HlX.
  - change (NoDup (labels (fit_X r))). now rewrite HlX, Hlab.
  - intros c Hc. rewrite lookup_map_key.
    change (get (fit_X r) c = option_map (impute_series c) (get fdf c)).
    rewrite Hget.
    change (In c (labels (fit_X r))) in Hc. rewrite HlX, Hlab in Hc.
    apply mem_In in Hc. now rewrite Hc.
Qed.

Lemma mem_filter (test : string -> bool) (c : string) (l : list string) :
  mem c (filter test l) = mem c l && test c.
Proof.
  unfold mem. induction l as [| x l IH]; [reflexivity |].
  cbn [filter existsb]. destruct (test x) eqn:Ex; cbn [existsb]; rewrite IH.
  - destruct (String.eqb_spec c x) as [-> | Hne]; [| reflexivity].
    now rewrite Ex.
  - destruct (String.eqb_spec c x) as [-> | Hne]; [| reflexivity].
    rewrite Ex, andb_false_r. cbn [orb]. now rewrite andb_false_r.
Qed.

(** X1: on a dataset with distinct ASCII labels, the imputation loop treats
    every column on its own, and the plan is its exact record.  [zero_cols]
    lists, in column order, exactly the columns with gaps whose name is
    count-like; [median_cols] has an entry for exactly the other columns with
    gaps; RANK and its indicator are in neither; and each column of the
    matrix is the column that entered the loop, filled with 0 when
    [zero_cols] lists it, with its [median_cols] entry when it has one, and
    left as it was otherwise. *)
Theorem plan_records_the_fills (f : string -> option (option Q))
  (raw : DataFrame) (r : fit_result) :
  NoDup (labels raw) ->
  (forall c, In c (labels raw) -> is_ascii c = true) ->
  outcome (clean_and_impute f raw) = Ok r ->
  exists fdf,
    outcome (features_before_imputation raw) = Ok fdf /\
    nrows (fit_X r) = nrows fdf /\
    zero_cols (fit_info r) = filter (zero_filled fdf) (labels fdf) /\
    (forall c, lookup c (median_cols (fit_info r)) <> None
               <-> In c (labels fdf) /\ median_filled fdf c = true) /\
    columns (fit_X r)
    = map (fun p => (fst p, recorded_fill (fit_info r) (fst p) (snd p)))
          (columns fdf).
Proof.
  intros Hnd _ H.
  destruct (fit_has_trace f raw r Hnd H)
    as (t & df2 & sc & Hg & H2 & Hnd2 & Hndn & Hlab & Hloop & _).
  cbv zeta in *. set (df3 := drop df2 (cols_to_drop df2)) in *.
  assert (Hnd3 : NoDup (labels df3)) by now apply NoDup_labels_drop.
  exists (features_of df3).
  split; [exact (outcome_features_before_imputation raw t df2 sc Hg H2) |].
  pose proof (@foldM_impute_run _ _ _ Hloop) as Hrun.
  destruct (foldM_impute_plan _ _ _ Hndn Hloop) as [Hz Hm].
  cbn [fst snd zero_cols median_cols app lookup] in Hz, Hm.
  split; [exact (run_nrows Hrun) |].
  split; [now rewrite Hlab |].
  split.
  - intro c. rewrite Hm, Hlab.
    destruct (mem c (num_cols_of df3)) eqn:Ec.
    + apply mem_In in Ec. cbn [andb].
      destruct (median_filled (features_of df3) c); split;
        try discriminate; intuition congruence.
    + apply mem_not_In in Ec. cbn [andb]. split; [congruence | tauto].
  - rewrite (fit_columns f raw r _ _ _ Hndn Hlab Hloop).
    apply map_ext_in. intros [c s] Hin. cbn [fst snd]. f_equal.
    assert (Hc : In c (num_cols_of df3)).
    { rewrite <- Hlab. unfold labels. apply in_map_iff. now exists (c, s). }
    assert (Hget : get (features_of df3) c = Some s).
    { apply lookup_NoDup; [| exact Hin].
      change (NoDup (labels (features_of df3))). now rewrite Hlab. }
    apply features_of_column in Hin; [| exact Hnd3].
    destruct Hin as (_ & Hnum & _). destruct s as [l | l]; [| discriminate].
    unfold recorded_fill.
    rewrite Hz, mem_filter, Hm, (proj2 (mem_In c _) Hc). cbn [andb].
    unfold impute_series, zero_filled, median_filled, needs_fill,
      column_median.
    rewrite Hget.
    destruct (mem c special_impute_cols),
      (is_zero (isnull_mean (NumCol l))), (count_like c); reflexivity.
Qed.

(** The sample with RANK and Category: x has an entry in [median_cols],
    nothing is zero-filled. *)
Lemma plan_records_the_fills_witness :
  exists r, outcome (clean_and_impute no_float full_sample) = Ok r /\
            zero_cols (fit_info r) = [] /\
            lookup "x" (median_cols (fit_info r)) <> None.
Proof.
  destruct (outcome (clean_and_impute no_float full_sample)) as [r | e] eqn:E;
    [| vm_compute in E; discriminate].
  exists r. split; [reflexivity |].
  destruct (plan_records_the_fills no_float full_sample r) as
    (fdf & Hf & _ & Hz & Hm & _).
  - vm_compute. repeat constructor; simpl; intuition discriminate.
  - intros c Hc. simpl in Hc. intuition (subst; reflexivity).
  - exact E.
  - vm_compute in Hf. injection Hf as <-. split.
    + rewrite Hz. reflexivity.
    + apply (proj2 (Hm "x")). split; [simpl; tauto | reflexivity].
Defined.

(** ** When fit returns *)

Lemma get_rank_block (df out : DataFrame) (sc : list (string * Q))
  (c : string) :
  (forall c, In c stat_labels -> ~ In c (labels df)) ->
  outcome (handle_rank df) = Ok (out, sc) ->
  c <> "RANK" -> c <> "RANK_missing" -> ~ In c stat_labels ->
  get out c = get df c.
Proof.
  intros Hstat H Hr Hm Hs. apply rank_block_columns in H; [| exact Hstat].
  destruct H as [(_ & -> & _) | (rank & cat & t & _ & _ & _ & _ & ->)];
    [reflexivity |].
  unfold get at 1. cbn [columns]. rewrite lookup_app.
  fold (get (with_rank_sentinel df rank) c).
  assert (Hnone : lookup c (stat_columns (groupby_agg (keys_of cat) t)
                                         (keys_of cat)) = None).
  { apply lookup_None. now rewrite labels_stat_columns. }
  rewrite Hnone. unfold with_rank_sentinel. rewrite !get_set_col.
  destruct (String.eqb_spec c "RANK"); [contradiction |].
  destruct (String.eqb_spec c "RANK_missing"); [contradiction |].
  now destruct (get df c).
Qed.

Lemma handle_rank_returns (df : DataFrame) (t : list (option Q)) :
  NoDup (labels df) ->
  (forall c, In c stat_labels -> ~ In c (labels df)) ->
  get df TARGET_COL = Some (NumCol t) ->
  ~ In "RANK" (labels df) \/ In "Category" (labels df) ->
  exists out sc, outcome (handle_rank df) = Ok (out, sc).
Proof.
  intros Hnd Hstat Ht Hcat. unfold handle_rank.
  destruct (get df "RANK") as [rank |] eqn:Er; [| eexists; eexists; reflexivity].
  destruct Hcat as [Hno | Hcat].
  { exfalso. apply Hno. now apply lookup_label with (v := rank). }
  fold (with_rank_sentinel df rank). set (df' := with_rank_sentinel df rank).
  assert (Hin : In "Category" (labels df')).
  { unfold df', with_rank_sentinel.
    apply In_labels_set_col. right. apply In_labels_set_col. now right. }
  assert (Ht' : get df' TARGET_COL = Some (NumCol t)).
  { unfold df', with_rank_sentinel. rewrite !get_set_col. exact Ht. }
  pose proof Hin as Hmem. apply mem_In in Hmem.
  apply lookup_In_label in Hin. destruct Hin as [cat Hc].
  fold (get df' "Category") in Hc.
  rewrite outcome_bind, outcome_print, outcome_bind, Hmem.
  rewrite outcome_bind. unfold category_stats at 1. rewrite Hc, Ht'.
  rewrite outcome_ret, outcome_ret, outcome_bind, outcome_ret, outcome_bind.
  unfold merge_left. rewrite Hc. cbv zeta.
  rewrite (@no_overlap df' (stat_free_with_rank_sentinel df rank Hstat)).
  rewrite !with_suffix_nil.
  assert (Hd : distinct (map fst (columns df'
                 ++ stat_columns (groupby_agg (keys_of cat) t) (keys_of cat)))
               = true).
  { apply distinct_NoDup. rewrite map_app, labels_stat_columns.
    apply NoDup_app.
    - unfold df', with_rank_sentinel. now do 2 apply NoDup_labels_set_col.
    - repeat constructor; simpl; intuition discriminate.
    - intros a Ha Hs.
      now apply (stat_free_with_rank_sentinel df rank Hstat a Hs). }
  rewrite Hd, outcome_ret.
  rewrite outcome_bind, outcome_print.
  eexists. eexists. reflexivity.
Qed.

Lemma impute_series_numeric (c : string) (l : list (option Q)) :
  exists l', impute_series c (NumCol l) = NumCol l'.
Proof.
  unfold impute_series.
  destruct (mem c special_impute_cols); [eauto |].
  destruct (is_zero (isnull_mean (NumCol l))); [eauto |].
  destruct (count_like c); [simpl; eauto |].
  destruct (nanmedian l); simpl; eauto.
Qed.

Lemma impute_col_ok (st : DataFrame * imputation_info) (col : string)
  (l : list (option Q)) :
  get (fst st) col = Some (NumCol l) ->
  exists st', outcome (impute_col st col) = Ok st'.
Proof.
  destruct st as [fdf info]. cbn [fst]. intro Hg. unfold impute_col.
  destruct (mem col special_impute_cols); [eexists; reflexivity |].
  rewrite Hg.
  destruct (is_zero (isnull_mean (NumCol l))); [eexists; reflexivity |].
  destruct (count_like col).
  - rewrite outcome_bind, outcome_print. eexists; reflexivity.
  - rewrite outcome_bind. cbn [series_median]. rewrite outcome_ret.
    rewrite outcome_bind, outcome_print. eexists; reflexivity.
Qed.

Lemma foldM_impute_ok (names : list string) :
  forall st,
    (forall c, In c names -> exists l, get (fst st) c = Some (NumCol l)) ->
    exists st', outcome (foldM impute_col names st) = Ok st'.
Proof.
  induction names as [| col names IH]; intros st Hnum.
  - eexists. reflexivity.
  - destruct (Hnum col (or_introl eq_refl)) as [l Hl].
    destruct (impute_col_ok st col l Hl) as [st1 H1].
    cbn [foldM]. rewrite outcome_bind, H1.
    apply IH. intros c Hc.
    pose proof (@impute_col_step _ _ _ H1) as Hstep.
    rewrite (step_get Hstep).
    destruct (Hnum c (or_intror Hc)) as [lc Hlc]. rewrite Hlc.
    destruct (String.eqb c col); [| eexists; reflexivity].
    cbn [option_map]. destruct (impute_series_numeric col lc) as [l' ->].
    eexists; reflexivity.
Qed.

Lemma features_of_get_numeric (df : DataFrame) (c : string) :
  NoDup (labels df) ->
  In c (num_cols_of df) ->
  exists l, get (features_of df) c = Some (NumCol l).
Proof.
  intros Hnd Hc. rewrite <- labels_num_cols in Hc by assumption.
  apply lookup_In_label in Hc. destruct Hc as [s Hs].
  fold (get (features_of df) c) in Hs. rewrite Hs.
  apply lookup_Some_In in Hs.
  apply features_of_column in Hs; [| exact Hnd].
  destruct Hs as (_ & Hnum & _).
  destruct s; [eexists; reflexivity | discriminate].
Qed.

Lemma sample_weights_ok (f : string -> option (option Q)) (df X : DataFrame) :
  (forall s, get df "Clicks" = Some s -> is_numeric s = true) ->
  exists w, outcome (sample_weights f df X) = Ok w.
Proof.
  intro Hc. unfold sample_weights.
  assert (Hb : exists b, outcome (base_weights f df X) = Ok b).
  { unfold base_weights. destruct (get df "Clicks") as [s |] eqn:Es.
    - pose proof (Hc s eq_refl) as Hn. destruct s; [| discriminate].
      rewrite outcome_bind. cbn [astype_float]. rewrite outcome_ret.
      eexists; reflexivity.
    - rewrite outcome_bind, outcome_print. eexists; reflexivity. }
  destruct Hb as [b Hb]. rewrite outcome_bind, Hb.
  destruct (get df INTERNAL_FLAG_COL); rewrite outcome_bind, outcome_print;
    eexists; reflexivity.
Qed.

Lemma is_numeric_select_series (mask : list bool) (s : series) :
  is_numeric (select_series mask s) = is_numeric s.
Proof. now destruct s. Qed.

Lemma fit_returns (f : string -> option (option Q)) (raw : DataFrame)
  (t : list (option Q)) :
  NoDup (labels raw) ->
  (forall c, In c stat_labels -> ~ In c (labels raw)) ->
  get raw TARGET_COL = Some (NumCol t) ->
  (forall s, get raw "Clicks" = Some s -> is_numeric s = true) ->
  ~ In "RANK" (labels raw) \/ In "Category" (labels raw) ->
  exists r, outcome (clean_and_impute f raw) = Ok r.
Proof.
  intros Hnd Hstat Ht Hclicks Hcat.
  set (df1 := select_rows (notnull (NumCol t)) raw).
  assert (Hlab1 : labels df1 = labels raw) by apply labels_select_rows.
  assert (Ht1 : get df1 TARGET_COL
                = Some (NumCol (select (notnull (NumCol t)) t))).
  { unfold df1. now rewrite get_select_rows, Ht. }
  assert (Hstat1 : forall c, In c stat_labels -> ~ In c (labels df1))
    by now rewrite Hlab1.
  destruct (handle_rank_returns df1 _ (eq_ind_r (@NoDup string) Hnd Hlab1)
              Hstat1 Ht1) as (df2 & sc & H2);
    [now rewrite Hlab1 |].
  pose proof (rank_block_NoDup df1 df2 sc
                (eq_ind_r (@NoDup string) Hnd Hlab1) Hstat1 H2) as Hnd2.
  set (df3 := drop df2 (cols_to_drop df2)).
  assert (Hnd3 : NoDup (labels df3)) by now apply NoDup_labels_drop.
  assert (Ht3 : get df3 TARGET_COL
                = Some (NumCol (select (notnull (NumCol t)) t))).
  { unfold df3. rewrite get_drop.
    destruct (mem TARGET_COL (cols_to_drop df2)) eqn:Em.
    - apply mem_In, cols_to_drop_iff in Em. tauto.
    - rewrite (get_rank_block df1 df2 sc TARGET_COL Hstat1 H2);
        [exact Ht1 | discriminate | discriminate |].
      simpl. intuition discriminate. }
  assert (Hc3 : forall s, get df3 "Clicks" = Some s -> is_numeric s = true).
  { intros s Hs. unfold df3 in Hs. rewrite get_drop in Hs.
    destruct (mem "Clicks" (cols_to_drop df2)); [discriminate |].
    rewrite (get_rank_block df1 df2 sc "Clicks" Hstat1 H2) in Hs;
      [| discriminate | discriminate | simpl; intuition discriminate].
    unfold df1 in Hs. rewrite get_select_rows in Hs.
    destruct (get raw "Clicks") as [s0 |] eqn:E0; [| discriminate].
    injection Hs as <-. rewrite is_numeric_select_series. now apply Hclicks. }
  destruct (foldM_impute_ok (num_cols_of df3)
              (features_of df3, mkInfo [] [] (cols_to_drop df2) sc))
    as ([X info] & Hloop).
  { intros c Hc. now apply features_of_get_numeric. }
  destruct (sample_weights_ok f df3 X Hc3) as [w Hw].
  exists (mkFit X (select (notnull (NumCol t)) t) info w).
  unfold clean_and_impute.
  rewrite outcome_bind, (@drop_missing_target_ok raw (NumCol t) Ht).
  fold df1. rewrite outcome_bind, H2. cbv iota beta.
  rewrite outcome_bind, outcome_prune. cbv iota beta. fold df3.
  rewrite outcome_bind, Ht3. cbn [astype_float]. rewrite outcome_ret.
  fold (feature_frame df3). fold (num_cols_of df3). fold (features_of df3).
  rewrite outcome_bind, Hloop. cbv iota beta.
  rewrite outcome_bind, outcome_safety_check.
  rewrite outcome_bind, outcome_print, outcome_bind, outcome_print.
  rewrite outcome_bind, Hw. reflexivity.
Qed.

(** X2: on a dataset with distinct labels, none of them the label of a
    category aggregate, a numeric target and a volume column that is numeric
    or absent, fit returns exactly when the data has no RANK column or has a
    Category column; otherwise it raises. *)
Theorem fit_returns_iff (f : string -> option (option Q)) (raw : DataFrame)
  (t : list (option Q)) :
  NoDup (labels raw) ->
  (forall c, In c stat_labels -> ~ In c (labels raw)) ->
  get raw TARGET_COL = Some (NumCol t) ->
  (forall s, get raw "Clicks" = Some s -> is_numeric s = true) ->
  ((exists r, outcome (clean_and_impute f raw) = Ok r)
   <-> (~ In "RANK" (labels raw) \/ In "Category" (labels raw))).
Proof.
  intros Hnd Hstat Ht Hclicks. split.
  - intros [r Hr].
    destruct (in_dec string_dec "RANK" (labels raw)) as [Hrank | Hno];
      [| now left].
    destruct (in_dec string_dec "Category" (labels raw)) as [Hc | Hnc];
      [now right |].
    rewrite (@rank_without_category_raises f raw) in Hr;
      [discriminate | | exact Hrank | exact Hnc].
    now apply lookup_label with (v := NumCol t).
  - now apply (fit_returns f raw t).
Qed.

(** The sample with RANK and Category returns; the sample with RANK alone
    does not. *)
Lemma fit_returns_iff_witness :
  (exists r, outcome (clean_and_impute no_float full_sample) = Ok r) /\
  ~ (exists r, outcome (clean_and_impute no_float rank_only) = Ok r).
Proof.
  assert (Hfull : ~ In "RANK" (labels full_sample)
                  \/ In "Category" (labels full_sample))
    by (right; simpl; tauto).
  split.
  - apply (fit_returns_iff no_float full_sample
             [Some (1 # 10); Some (2 # 10); None; Some (3 # 10)]%Q).
    + vm_compute. repeat constructor; simpl; intuition discriminate.
    + intros c Hc. simpl in Hc. simpl. intuition (subst; discriminate).
    + reflexivity.
    + intros s Hs. vm_compute in Hs. injection Hs as <-. reflexivity.
    + exact Hfull.
  - intro H.
    apply (fit_returns_iff no_float rank_only
             [Some (1 # 10); Some (2 # 10); Some (3 # 10)]%Q) in H.
    + simpl in H. intuition discriminate.
    + vm_compute. repeat constructor; simpl; intuition discriminate.
    + intros c Hc. simpl in Hc. simpl. intuition (subst; discriminate).
    + reflexivity.
    + intros s Hs. vm_compute in Hs. discriminate.
Defined.

(** ** Shape of what fit returns *)

Lemma series_length_impute_series (c : string) (s : series) :
  series_length (impute_series c s) = series_length s.
Proof.
  unfold impute_series.
  destruct (mem c special_impute_cols); [reflexivity |].
  destruct (is_zero (isnull_mean s)); [reflexivity |].
  destruct (count_like c).
  - destruct s; simpl; apply length_map.
  - destruct s as [l | l]; [| reflexivity].
    destruct (nanmedian l); simpl; [apply length_map | reflexivity].
Qed.

Lemma select_notnull (t : list (option Q)) :
  select (notnull (NumCol t)) t = map Some (dropna t).
Proof.
  unfold notnull. simpl.
  induction t as [| [x |] t IH]; simpl; [reflexivity | now rewrite IH | exact IH].
Qed.

Lemma length_astype_float (f : string -> option (option Q)) (s : series)
  (y : list (option Q)) :
  outcome (astype_float f s) = Ok y -> List.length y = series_length s.
Proof.
  destruct s as [l | l]; simpl.
  - now intros [= <-].
  - apply length_all_to_float.
Qed.

Lemma well_formed_features_of (df : DataFrame) :
  NoDup (labels df) -> well_formed df -> well_formed (features_of df).
Proof.
  intros Hnd Hwf c s Hin.
  apply features_of_column in Hin; [| exact Hnd].
  destruct Hin as (Hin & _). now apply (Hwf c).
Qed.

(** X3: on a dataset with distinct labels whose columns all have one cell
    per row, what fit returns is aligned: every column of the matrix, the
    target vector and the weight vector have one entry per row that had a
    target, and a numeric target comes back as its non-missing values, in
    order. *)
Theorem fit_outputs_are_aligned (f : string -> option (option Q))
  (raw : DataFrame) (r : fit_result) :
  well_formed raw ->
  NoDup (labels raw) ->
  outcome (clean_and_impute f raw) = Ok r ->
  exists target,
    get raw TARGET_COL = Some target /\
    nrows (fit_X r) = count_true (notnull target) /\
    well_formed (fit_X r) /\
    List.length (fit_y r) = nrows (fit_X r) /\
    List.length (fit_weight r) = nrows (fit_X r) /\
    forall t, target = NumCol t -> fit_y r = map Some (dropna t).
Proof.
  intros Hwf Hnd H.
  pose proof (@weights_aligned_with_matrix f raw r Hwf H) as Hw.
  destruct (fit_has_trace f raw r Hnd H)
    as (target & df2 & sc & Hg & H2 & Hnd2 & Hndn & Hlab & Hloop & Hy & _).
  cbv zeta in *. set (df3 := drop df2 (cols_to_drop df2)) in *.
  set (df1 := select_rows (notnull target) raw) in *.
  assert (Hwf1 : well_formed df1).
  { apply well_formed_select_rows; [exact Hwf |].
    now apply (@get_well_formed raw TARGET_COL). }
  destruct (@well_formed_rank_block df1 df2 sc Hwf1 H2) as [Hwf2 Hn2].
  assert (Hwf3 : well_formed df3) by now apply well_formed_drop.
  assert (Hnd3 : NoDup (labels df3)) by now apply NoDup_labels_drop.
  pose proof (@foldM_impute_run _ _ _ Hloop) as Hrun.
  pose proof (run_nrows Hrun) as HnX. cbn [fst] in HnX.
  assert (Hn : nrows (fit_X r) = nrows df1) by (rewrite HnX; exact Hn2).
  assert (Ht3 : get df3 TARGET_COL = Some (select_series (notnull target) target)).
  { unfold df3. rewrite get_drop.
    destruct (mem TARGET_COL (cols_to_drop df2)) eqn:Em.
    - apply mem_In, cols_to_drop_iff in Em. tauto.
    - rewrite (get_rank_block_plain df1 df2 sc TARGET_COL H2);
        [| discriminate | discriminate
         | intros k Hk; simpl in Hk; intuition (subst; discriminate)].
      unfold df1. now rewrite get_select_rows, Hg. }
  destruct Hy as (t3 & Ht3' & Hy). rewrite Ht3 in Ht3'. injection Ht3' as <-.
  exists target. split; [exact Hg |]. split; [exact Hn |].
  split; [| split; [| split; [exact Hw |]]].
  - intros c s Hin.
    rewrite (fit_columns f raw r _ _ _ Hndn Hlab Hloop) in Hin.
    apply in_map_iff in Hin. destruct Hin as [[k s0] [[= <- <-] Hin]].
    cbn [fst snd]. rewrite series_length_impute_series, HnX.
    now apply (well_formed_features_of df3 Hnd3 Hwf3 k).
  - rewrite (length_astype_float f _ _ Hy), HnX.
    now apply (@get_well_formed df3 TARGET_COL).
  - intros t ->. cbn [select_series astype_float] in Hy.
    injection Hy as <-. apply select_notnull.
Qed.

(** The sample of four rows, one without target: three rows everywhere. *)
Lemma fit_outputs_are_aligned_witness :
  exists r, outcome (clean_and_impute no_float full_sample) = Ok r /\
            nrows (fit_X r) = 3 /\
            fit_y r = [Some (1 # 10); Some (2 # 10); Some (3 # 10)]%Q /\
            List.length (fit_weight r) = 3.
Proof.
  destruct (outcome (clean_and_impute no_float full_sample)) as [r | e] eqn:E;
    [| vm_compute in E; discriminate].
  exists r. split; [reflexivity |].
  destruct (fit_outputs_are_aligned no_float full_sample r)
    as (target & Hg & Hn & _ & _ & Hw & Hy).
  - intros c s Hin. simpl in Hin.
    repeat (destruct Hin as [Hin | Hin]; [injection Hin as _ <-; reflexivity |]).
    contradiction.
  - vm_compute. repeat constructor; simpl; intuition discriminate.
  - exact E.
  - vm_compute in Hg. injection Hg as <-. split; [exact Hn |].
    split; [| now rewrite Hw, Hn].
    now rewrite (Hy _ eq_refl).
Defined.

(** X4: on a dataset with distinct labels, the matrix that fit returns holds
    numeric feature columns only: never the target, never the URL
    identifier, never a column that was pruned. *)
Theorem matrix_holds_only_features (f : string -> option (option Q))
  (raw : DataFrame) (r : fit_result) (c : string) (s : series) :
  NoDup (labels raw) ->
  outcome (clean_and_impute f raw) = Ok r ->
  In (c, s) (columns (fit_X r)) ->
  is_numeric s = true /\ c <> TARGET_COL /\ c <> "URL" /\
  ~ In c (dropped_cols (fit_info r)).
Proof.
  intros Hnd H Hin.
  destruct (fit_has_trace f raw r Hnd H)
    as (target & df2 & sc & Hg & H2 & Hnd2 & Hndn & Hlab & Hloop & _).
  cbv zeta in *. set (df3 := drop df2 (cols_to_drop df2)) in *.
  assert (Hnd3 : NoDup (labels df3)) by now apply NoDup_labels_drop.
  pose proof (@foldM_impute_run _ _ _ Hloop) as Hrun.
  rewrite (fit_columns f raw r _ _ _ Hndn Hlab Hloop) in Hin.
  apply in_map_iff in Hin. destruct Hin as [[k s0] [[= <- <-] Hin]].
  cbn [fst snd].
  pose proof (in_map fst _ _ Hin) as Hk. cbn [fst] in Hk.
  change (In k (labels (features_of df3))) in Hk.
  apply features_of_column in Hin; [| exact Hnd3].
  destruct Hin as (Hin3 & Hnum & Htarget).
  split; [| split; [exact Htarget | split]].
  - destruct s0 as [l | l]; [| discriminate].
    now destruct (impute_series_numeric k l) as [l' ->].
  - intros ->. apply In_labels_getitem in Hk. destruct Hk as [_ Hk].
    apply In_labels_drop in Hk. destruct Hk as [Hk Hout].
    apply Hout. apply in_or_app. left. apply filter_In.
    split; [now left | now apply mem_In].
  - pose proof (run_dropped Hrun) as Hd. cbn [snd dropped_cols] in Hd.
    rewrite Hd.
    apply (in_map fst) in Hin3. cbn [fst] in Hin3.
    change (In k (labels df3)) in Hin3.
    apply In_labels_drop in Hin3. tauto.
Qed.

(** The sample: the column x of its matrix is a number column, and is
    neither target, identifier nor pruned. *)
Lemma matrix_holds_only_features_witness :
  "x" <> TARGET_COL /\ "x" <> "URL" /\
  option_map (fun r => mem "x" (dropped_cols (fit_info r)))
             (ok (clean_and_impute no_float full_sample)) = Some false.
Proof.
  unfold ok.
  destruct (outcome (clean_and_impute no_float full_sample)) as [r | e] eqn:E;
    [| vm_compute in E; discriminate].
  destruct (matrix_holds_only_features no_float full_sample r "x"
              (NumCol [num 3; Some (7 # 2)%Q; num 4]))
    as (_ & Ht & Hu & Hd).
  - vm_compute. repeat constructor; simpl; intuition discriminate.
  - exact E.
  - vm_compute in E. injection E as <-. simpl. tauto.
  - split; [exact Ht |]. split; [exact Hu |].
    simpl. f_equal. now apply mem_not_In.
Defined.

(** ** Fit only fills gaps *)

Lemma impute_series_fills (c : string) (s : series) :
  exists v, impute_series c s = fillna_float v s.
Proof.
  unfold impute_series.
  destruct (mem c special_impute_cols); [now exists None |].
  destruct (is_zero (isnull_mean s)); [now exists None |].
  destruct (count_like c); [now exists (Some 0%Q) |].
  destruct s as [l | l]; [now exists (nanmedian l) | now exists None].
Qed.

(** X5: on a dataset with distinct labels, fit never changes an observed
    value and never reorders rows.  A column of the matrix that comes from
    the data (any but an indicator overwritten by the RANK block) is the data
    column, restricted to the rows that have a target, with its gaps filled
    by one value or left as they were. *)
Theorem fit_only_fills_gaps (f : string -> option (option Q))
  (raw : DataFrame) (r : fit_result) (c : string) (s' : series) :
  NoDup (labels raw) ->
  outcome (clean_and_impute f raw) = Ok r ->
  In c (labels raw) ->
  c <> "RANK_missing" \/ ~ In "RANK" (labels raw) ->
  get (fit_X r) c = Some s' ->
  exists target s v,
    get raw TARGET_COL = Some target /\
    get raw c = Some s /\
    s' = fillna_float v (select_series (notnull target) s).
Proof.
  intros Hnd H Hc Hind HX.
  destruct (fit_has_trace f raw r Hnd H)
    as (target & df2 & sc & Hg & H2 & Hnd2 & Hndn & Hlab & Hloop & _).
  cbv zeta in *. set (df3 := drop df2 (cols_to_drop df2)) in *.
  set (df1 := select_rows (notnull target) raw) in *.
  assert (Hnd3 : NoDup (labels df3)) by now apply NoDup_labels_drop.
  assert (Hnd1 : NoDup (labels df1))
    by (unfold df1; now rewrite labels_select_rows).
  unfold get in HX.
  rewrite (fit_columns f raw r _ _ _ Hndn Hlab Hloop), lookup_map_key in HX.
  destruct (lookup c (columns (features_of df3))) as [s0 |] eqn:Es0;
    [| discriminate].
  injection HX as <-.
  apply lookup_Some_In in Es0.
  apply features_of_column in Es0; [| exact Hnd3].
  destruct Es0 as (Hin3 & _ & _).
  unfold df3, drop in Hin3. cbn [columns] in Hin3.
  apply filter_In in Hin3. destruct Hin3 as [Hin2 _].
  apply lookup_NoDup in Hin2; [| exact Hnd2]. fold (get df2 c) in Hin2.
  destruct (rank_block_data_column df1 df2 sc c s0 Hnd1 H2)
    as (s1 & Hs1 & Hcase); try assumption.
  { unfold df1. now rewrite labels_select_rows. }
  { unfold df1. now rewrite labels_select_rows. }
  unfold df1 in Hs1. rewrite get_select_rows in Hs1.
  destruct (get raw c) as [s |] eqn:Es; [| discriminate].
  injection Hs1 as <-.
  exists target, s.
  destruct Hcase as [(-> & ->) | ->].
  - exists (Some sentinel_value). split; [exact Hg |].
    split; [reflexivity |]. now rewrite impute_series_special.
  - destruct (impute_series_fills c (select_series (notnull target) s))
      as [v Hv].
    exists v. split; [exact Hg |]. split; [reflexivity | exact Hv].
Qed.

(** The sample: the column x of the matrix is the column x of the data, on
    the three rows with a target, its gap filled with 7/2. *)
Lemma fit_only_fills_gaps_witness :
  exists target s v,
    get full_sample TARGET_COL = Some target /\
    get full_sample "x" = Some s /\
    NumCol [num 3; Some (7 # 2)%Q; num 4]
    = fillna_float v (select_series (notnull target) s).
Proof.
  destruct (outcome (clean_and_impute no_float full_sample)) as [r | e] eqn:E;
    [| vm_compute in E; discriminate].
  apply (fit_only_fills_gaps no_float full_sample r "x").
  - vm_compute. repeat constructor; simpl; intuition discriminate.
  - exact E.
  - simpl. tauto.
  - left. discriminate.
  - vm_compute in E. injection E as <-. reflexivity.
Defined.

(** ** The prepared matrix at inference *)

Lemma lookup_filter_NoDup {A : Type} (keep : string * A -> bool) (c : string)
  (l : list (string * A)) :
  NoDup (map fst l) ->
  lookup c (filter keep l)
  = match lookup c l with
    | Some v => if keep (c, v) then Some v else None
    | None => None
    end.
Proof.
  intro Hnd. destruct (lookup c l) as [v |] eqn:E.
  - destruct (keep (c, v)) eqn:Ek.
    + now apply lookup_filter_kept.
    + apply lookup_None. intro Hin. apply in_map_iff in Hin.
      destruct Hin as [[k w] [Hk Hin]]. cbn [fst] in Hk. subst k.
      apply filter_In in Hin. destruct Hin as [Hin Hkeep].
      apply (lookup_NoDup _ _ _ Hnd) in Hin. congruence.
  - now apply lookup_filter_None.
Qed.

Lemma get_select_dtypes_number (df : DataFrame) (c : string) :
  NoDup (labels df) ->
  get (select_dtypes_number df) c
  = match get df c with
    | Some s => if is_numeric s then Some s else None
    | None => None
    end.
Proof.
  intro Hnd. unfold get, select_dtypes_number. cbn [columns].
  now rewrite lookup_filter_NoDup.
Qed.

Lemma get_no_null (df : DataFrame) (c : string) (s : series) :
  frame_has_null df = false -> get df c = Some s ->
  series_has_null s = false.
Proof.
  unfold frame_has_null. intros Hf Hg. apply lookup_Some_In in Hg.
  destruct (series_has_null s) eqn:E; [| reflexivity].
  assert (Hex : existsb (fun p => series_has_null (snd p)) (columns df) = true).
  { apply existsb_exists. exists (c, s). now split. }
  congruence.
Qed.

Lemma no_null_fill {A : Type} (v : A) (l : list (option A)) :
  existsb (fun b => b) (map is_none l) = false -> map (fill v) l = l.
Proof.
  induction l as [| [x |] l IH]; simpl; intro H;
    [reflexivity | now rewrite IH | discriminate].
Qed.

Lemma fillna_no_null_id (q : Q) (s : series) :
  series_has_null s = false -> fillna q s = s.
Proof.
  unfold series_has_null. destruct s as [l | l]; simpl; intro H;
    now rewrite no_null_fill.
Qed.

Lemma fillna_float_no_null_id (v : option Q) (s : series) :
  series_has_null s = false -> fillna_float v s = s.
Proof.
  destruct v as [q |]; [apply fillna_no_null_id | reflexivity].
Qed.

Lemma assign_same {A : Type} (c : string) (v : A) (l : list (string * A)) :
  lookup c l = Some v -> assign c v l = l.
Proof.
  induction l as [| [k w] l IH]; simpl; [discriminate |].
  destruct (String.eqb_spec c k) as [-> | Hne].
  - now intros [= ->].
  - intro H. now rewrite IH.
Qed.

Lemma fill_if_present_no_null (df : DataFrame) (c : string) (v : option Q) :
  frame_has_null df = false -> fill_if_present df c v = df.
Proof.
  intro Hf. unfold fill_if_present.
  destruct (get df c) as [s |] eqn:Es; [| reflexivity].
  rewrite (fillna_float_no_null_id v s (get_no_null df c s Hf Es)).
  unfold set_col. rewrite (assign_same c s (columns df) Es). now destruct df.
Qed.

Lemma fill_items_no_null (items : list (string * option Q)) (df : DataFrame) :
  frame_has_null df = false -> fill_items items df = df.
Proof.
  unfold fill_items. induction items as [| [k v] items IH]; intro Hf;
    cbn [fold_left fst snd]; [reflexivity |].
  rewrite fill_if_present_no_null by assumption. now apply IH.
Qed.

Lemma fillna_frame_no_null_id (q : Q) (df : DataFrame) :
  frame_has_null df = false -> fillna_frame q df = df.
Proof.
  intro Hf. unfold fillna_frame.
  assert (Hcols : map (fun p => (fst p, fillna q (snd p))) (columns df)
                  = columns df).
  { unfold frame_has_null in Hf.
    induction (columns df) as [| [k s] l IH]; cbn [map existsb fst snd] in *;
      [reflexivity |].
    apply orb_false_iff in Hf. destruct Hf as [Hs Hl].
    now rewrite (fillna_no_null_id q s Hs), IH. }
  rewrite Hcols. now destruct df.
Qed.

(** A frame without gaps is left as it is by the replay. *)
Lemma apply_no_null_id (df : DataFrame) (info : option imputation_info) :
  frame_has_null df = false ->
  apply_basic_imputation_for_inference df info = df.
Proof.
  intro Hf. destruct info as [info |].
  - rewrite apply_plan_unfold.
    rewrite (fill_items_no_null (zero_items (zero_cols info)) df Hf).
    rewrite (fill_items_no_null (median_cols info) df Hf).
    now apply fillna_frame_no_null_id.
  - now apply fillna_frame_no_null_id.
Qed.

Lemma apply_no_null (df : DataFrame) (info : option imputation_info) :
  frame_has_null (apply_basic_imputation_for_inference df info) = false.
Proof.
  destruct info as [info |]; [rewrite apply_plan_unfold |];
    apply fillna_frame_no_null.
Qed.

Lemma is_numeric_fillna_float (v : option Q) (s : series) :
  is_numeric (fillna_float v s) = is_numeric s.
Proof. destruct v; destruct s; reflexivity. Qed.

Lemma replay_numeric (c : string) (items : list (string * option Q))
  (s : series) :
  is_numeric (replay c items s) = is_numeric s.
Proof.
  unfold replay. revert s.
  induction items as [| [k v] items IH]; intro s; cbn [fold_left fst snd];
    [reflexivity |].
  destruct (String.eqb c k); [rewrite IH; apply is_numeric_fillna_float |].
  apply IH.
Qed.

Lemma get_apply (df : DataFrame) (info : option imputation_info) (c : string) :
  exists g : series -> series,
    (forall s, is_numeric (g s) = is_numeric s) /\
    (forall mask s, g (select_series mask s) = select_series mask (g s)) /\
    forall df' : DataFrame,
      get (apply_basic_imputation_for_inference df' info) c
      = option_map g (get df' c).
Proof.
  assert (Hsel : forall v mask s,
             fillna_float v (select_series mask s)
             = select_series mask (fillna_float v s)).
  { intros [q |] mask s; [| reflexivity].
    destruct s as [l | l]; simpl; f_equal; revert l;
      induction mask as [| b mask IH]; intros [| x l]; simpl; try reflexivity;
      destruct b; simpl; now rewrite IH. }
  assert (Hrep : forall items mask s,
             replay c items (select_series mask s)
             = select_series mask (replay c items s)).
  { unfold replay. induction items as [| [k v] items IH]; intros mask s;
      cbn [fold_left fst snd]; [reflexivity |].
    destruct (String.eqb c k); [rewrite Hsel |]; apply IH. }
  destruct info as [info |].
  - exists (fun s => fillna 0 (replay c (median_cols info)
                               (replay c (zero_items (zero_cols info)) s))).
    split; [| split].
    + intro s.
      change (fillna 0 ?x) with (fillna_float (Some 0%Q) x).
      now rewrite is_numeric_fillna_float, !replay_numeric.
    + intros mask s. rewrite !Hrep. apply (Hsel (Some 0%Q)).
    + intro df'. apply get_apply_plan.
  - exists (fillna 0). split; [| split].
    + intro s. apply (is_numeric_fillna_float (Some 0%Q)).
    + intros mask s. apply (Hsel (Some 0%Q)).
    + intro df'. apply get_fillna_frame.
Qed.

Lemma zeros_no_null (n : nat) :
  series_has_null (NumCol (repeat (Some 0%Q) n)) = false.
Proof.
  unfold series_has_null. simpl. induction n as [| n IH]; simpl; auto.
Qed.

Lemma filter_all {A : Type} (keep : A -> bool) (l : list A) :
  (forall x, In x l -> keep x = true) -> filter keep l = l.
Proof.
  induction l as [| x l IH]; simpl; intro H; [reflexivity |].
  rewrite (H x (or_introl eq_refl)). f_equal. apply IH.
  intros y Hy. apply H. now right.
Qed.

Lemma select_dtypes_number_id (df : DataFrame) :
  (forall c s, In (c, s) (columns df) -> is_numeric s = true) ->
  select_dtypes_number df = df.
Proof.
  intro H. unfold select_dtypes_number. rewrite filter_all.
  - now destruct df.
  - intros [c s] Hin. now apply (H c s).
Qed.

Lemma frame_eq (a b : DataFrame) :
  nrows a = nrows b -> columns a = columns b -> a = b.
Proof. destruct a, b. cbn. now intros -> ->. Qed.

Lemma reindex_reindex (df : DataFrame) (cols : list string) (v : Q) :
  reindex (reindex df cols v) cols v = reindex df cols v.
Proof.
  apply frame_eq; [reflexivity |].
  cbn [reindex columns]. apply map_ext_in. intros c Hc.
  change (mkFrame (nrows df)
            (map (fun c0 => (c0, match get df c0 with
                                 | Some s => s
                                 | None => NumCol (repeat (Some v) (nrows df))
                                 end)) cols))
    with (reindex df cols v).
  rewrite get_reindex. apply mem_In in Hc. now rewrite Hc.
Qed.

Lemma mem_labels_get (df : DataFrame) (c : string) :
  mem c (labels df) = match get df c with Some _ => true | None => false end.
Proof.
  destruct (get df c) as [s |] eqn:E.
  - apply mem_In. now apply lookup_label with (v := s).
  - apply mem_not_In. now apply lookup_None.
Qed.

Lemma filter_none_missing (sub l : list string) :
  incl sub l -> filter (fun c => negb (mem c l)) sub = [].
Proof.
  induction sub as [| k sub IH]; intro H; [reflexivity |].
  cbn [filter].
  rewrite (proj2 (mem_In k l) (H k (or_introl eq_refl))). cbn [negb].
  apply IH. intros x Hx. apply H. now right.
Qed.

Lemma inference_matrix_columns (p : payload) (features : DataFrame)
  (c : string) (s : series) :
  In (c, s) (columns (inference_matrix p features)) ->
  series_has_null s = false /\ is_numeric s = true.
Proof.
  unfold inference_matrix, load_trained_model, reindex. cbn [columns].
  intro Hin. apply in_map_iff in Hin. destruct Hin as [k [[= <- <-] _]].
  set (A := apply_basic_imputation_for_inference
              (select_dtypes_number features) (payload_info p)).
  destruct (get A k) as [s |] eqn:Es.
  - split; [exact (get_no_null A k s (apply_no_null _ _) Es) |].
    destruct (get_apply (select_dtypes_number features) (payload_info p) k)
      as (g & Hnum & _ & Hg).
    unfold A in Es. rewrite Hg in Es.
    destruct (get (select_dtypes_number features) k) as [s0 |] eqn:E0;
      [| discriminate].
    injection Es as <-. rewrite Hnum.
    apply lookup_Some_In in E0. unfold select_dtypes_number in E0.
    cbn [columns] in E0. apply filter_In in E0. now destruct E0.
  - split; [apply zeros_no_null | reflexivity].
Qed.

(** *** The matrix and the rows handed to the regressor *)

Lemma keeps_observed_refl (l : list (option Q)) : keeps_observed l l.
Proof. split; auto. Qed.

Lemma keeps_observed_trans (l1 l2 l3 : list (option Q)) :
  keeps_observed l1 l2 -> keeps_observed l2 l3 -> keeps_observed l1 l3.
Proof.
  intros [H1 K1] [H2 K2]. split; [congruence |]. intros i q H. auto.
Qed.

Lemma keeps_observed_fill (v : Q) (l : list (option Q)) :
  keeps_observed l (map (fill v) l).
Proof.
  split; [apply length_map |]. intros i q H.
  now rewrite nth_error_map, H.
Qed.

Lemma fillna_float_keeps (v : option Q) (l : list (option Q)) :
  exists l', fillna_float v (NumCol l) = NumCol l' /\ keeps_observed l l'.
Proof.
  destruct v as [q |]; cbn [fillna_float fillna].
  - eexists. split; [reflexivity | apply keeps_observed_fill].
  - eexists. split; [reflexivity | apply keeps_observed_refl].
Qed.

Lemma replay_keeps (c : string) (items : list (string * option Q)) :
  forall l, exists l',
    replay c items (NumCol l) = NumCol l' /\ keeps_observed l l'.
Proof.
  unfold replay. induction items as [| [k v] items IH]; intro l;
    cbn [fold_left fst snd].
  - eexists. split; [reflexivity | apply keeps_observed_refl].
  - destruct (String.eqb c k).
    + destruct (fillna_float_keeps v l) as (l1 & -> & K1).
      destruct (IH l1) as (l2 & -> & K2).
      exists l2. split; [reflexivity |].
      exact (keeps_observed_trans l l1 l2 K1 K2).
    + apply IH.
Qed.

(** The replay of the plan on a numeric column fills gaps and nothing
    else. *)
Lemma apply_keeps (df : DataFrame) (info : option imputation_info)
  (c : string) (l : list (option Q)) :
  get df c = Some (NumCol l) ->
  exists l',
    get (apply_basic_imputation_for_inference df info) c = Some (NumCol l')
    /\ keeps_observed l l'.
Proof.
  intro Hg. destruct info as [info |].
  - rewrite get_apply_plan, Hg. cbn [option_map].
    destruct (replay_keeps c (zero_items (zero_cols info)) l)
      as (l1 & -> & K1).
    destruct (replay_keeps c (median_cols info) l1) as (l2 & -> & K2).
    destruct (fillna_float_keeps (Some 0%Q) l2) as (l3 & E3 & K3).
    cbn [fillna_float] in E3. rewrite E3. exists l3.
    split; [reflexivity |].
    exact (keeps_observed_trans l l2 l3
             (keeps_observed_trans l l1 l2 K1 K2) K3).
  - cbn [apply_basic_imputation_for_inference].
    rewrite get_fillna_frame, Hg. cbn [option_map fillna].
    eexists. split; [reflexivity | apply keeps_observed_fill].
Qed.

Lemma nth_error_rows_of (df : DataFrame) (i : nat) :
  i < nrows df ->
  nth_error (rows_of df) i
  = Some (map (fun p => nth i (numeric_cells (snd p)) None) (columns df)).
Proof.
  intro Hi. unfold rows_of. rewrite nth_error_map.
  replace (nth_error (seq 0 (nrows df)) i) with (Some i); [reflexivity |].
  symmetry. rewrite (nth_error_nth' _ 0) by now rewrite length_seq.
  now rewrite seq_nth.
Qed.

(** C6: the matrix handed to the regressor has exactly the frozen
    [feature_columns], in that order: a listed column the numeric input
    lacks is a column of zeros, a listed column it has is the replayed input
    column, with every observed cell of the input at its row, an unlisted
    column is gone; and [predict] returns one prediction per input row, in
    row order: the prediction at position [i] is the regressor's answer on
    the cells at row [i] of the matrix's columns, in the order of
    [feature_columns]. *)
Theorem predict_matrix_follows_feature_columns (p : payload)
  (features : DataFrame) :
  NoDup (labels features) ->
  let X := inference_matrix p features in
  let replayed :=
    apply_basic_imputation_for_inference (select_dtypes_number features)
                                         (payload_info p) in
  labels X = feature_columns p /\
  nrows X = nrows features /\
  (forall c, In c (feature_columns p) ->
             ~ In c (labels (select_dtypes_number features)) ->
             get X c = Some (NumCol (repeat (Some 0%Q) (nrows features)))) /\
  (forall c, In c (feature_columns p) ->
             In c (labels (select_dtypes_number features)) ->
             get X c = get replayed c /\ get X c <> None) /\
  (forall c l, In c (feature_columns p) ->
               get features c = Some (NumCol l) ->
               exists l', get X c = Some (NumCol l') /\ keeps_observed l l') /\
  (forall c, ~ In c (feature_columns p) -> get X c = None) /\
  exists preds,
    outcome (predict_vcvr_from_features p features) = Ok preds /\
    List.length preds = nrows features /\
    forall i, i < nrows features ->
      nth_error preds i
      = Some (model p (map (fun c => match get X c with
                                     | Some (NumCol l) => nth i l None
                                     | _ => None
                                     end) (feature_columns p))).
Proof.
  intros Hnd X replayed.
  assert (HnX : nrows X = nrows features).
  { unfold X, inference_matrix, load_trained_model. cbn [reindex nrows].
    now rewrite nrows_apply. }
  assert (HgX : forall c, In c (feature_columns p) ->
            get X c = Some (match get replayed c with
                            | Some s => s
                            | None => NumCol (repeat (Some 0%Q)
                                                     (nrows features))
                            end)).
  { intros c Hin. unfold X, inference_matrix, load_trained_model.
    rewrite get_reindex, (proj2 (mem_In c _) Hin), nrows_apply.
    reflexivity. }
  split; [apply labels_reindex |]. split; [exact HnX |].
  split; [| split; [| split; [| split]]].
  - intros c Hin Hout. rewrite (HgX c Hin).
    rewrite <- (labels_apply _ (payload_info p)) in Hout.
    apply lookup_None in Hout. change (get replayed c = None) in Hout.
    now rewrite Hout.
  - intros c Hin Hnum. rewrite (HgX c Hin).
    rewrite <- (labels_apply _ (payload_info p)) in Hnum.
    apply lookup_In_label in Hnum. destruct Hnum as [s Hs].
    change (get replayed c = Some s) in Hs. rewrite Hs.
    split; [reflexivity | discriminate].
  - intros c l Hin Hg. rewrite (HgX c Hin).
    assert (Hsel : get (select_dtypes_number features) c = Some (NumCol l))
      by (rewrite get_select_dtypes_number, Hg by exact Hnd; reflexivity).
    destruct (apply_keeps (select_dtypes_number features) (payload_info p)
                c l Hsel) as (l' & Hl' & K).
    fold replayed in Hl'. rewrite Hl'. now exists l'.
  - intros c Hout. unfold X, inference_matrix, load_trained_model.
    rewrite get_reindex. apply mem_not_In in Hout. now rewrite Hout.
  - exists (map (model p) (rows_of X)).
    split; [apply outcome_predict |].
    split; [now rewrite length_map, length_rows_of |].
    intros i Hi. rewrite nth_error_map, nth_error_rows_of by now rewrite HnX.
    cbn [option_map]. do 2 f_equal.
    assert (Hcols : columns X
                    = map (fun c => (c, match get replayed c with
                                        | Some s => s
                                        | None => NumCol (repeat (Some 0%Q)
                                                            (nrows features))
                                        end)) (feature_columns p)).
    { unfold X, inference_matrix, load_trained_model, reindex.
      cbn [columns]. fold replayed. apply map_ext. intro c.
      unfold replayed at 2. now rewrite nrows_apply. }
    rewrite Hcols, map_map. cbn [snd].
    apply map_ext_in. intros c Hc. rewrite (HgX c Hc).
    assert (Hin : In (c, match get replayed c with
                         | Some s => s
                         | None => NumCol (repeat (Some 0%Q) (nrows features))
                         end) (columns X)).
    { rewrite Hcols. apply in_map_iff. now exists c. }
    apply inference_matrix_columns in Hin. destruct Hin as [_ Hnum].
    destruct (match get replayed c with
              | Some s => s
              | None => NumCol (repeat (Some 0%Q) (nrows features))
              end) as [l | l]; [reflexivity | discriminate].
Qed.

(** The sample frame against a bundle whose regressor answers with the first
    cell of its row: three columns in plan order, and the two predictions
    are the cells of x, the missing one replaced by the stored median 5. *)
Lemma predict_matrix_follows_feature_columns_witness :
  labels (inference_matrix first_cell_payload sample_features)
  = ["x"; "absent"; "clicks_count"] /\
  outcome (predict_vcvr_from_features first_cell_payload sample_features)
  = Ok [(5 # 1)%Q; inject_Z 2].
Proof.
  assert (Hnd : NoDup (labels sample_features)).
  { vm_compute. repeat constructor; simpl; intuition discriminate. }
  destruct (predict_matrix_follows_feature_columns first_cell_payload
              sample_features Hnd)
    as (Hlab & _ & _ & _ & _ & _ & preds & Hp & Hlen & Hrow).
  split; [exact Hlab |]. rewrite Hp. f_equal.
  destruct preds as [| a [| b [| c preds]]]; try discriminate.
  pose proof (Hrow 0 (Nat.lt_0_succ 1)) as H0.
  pose proof (Hrow 1 (Nat.lt_succ_diag_r 1)) as H1.
  vm_compute in H0, H1. injection H0 as ->. injection H1 as ->.
  reflexivity.
Defined.

Lemma inference_matrix_stable (p : payload) (features : DataFrame) :
  inference_matrix p (inference_matrix p features)
  = inference_matrix p features.
Proof.
  set (X := inference_matrix p features).
  assert (Hcols : forall c s, In (c, s) (columns X) ->
            series_has_null s = false /\ is_numeric s = true)
    by apply inference_matrix_columns.
  unfold inference_matrix at 1. unfold load_trained_model.
  rewrite select_dtypes_number_id by (intros c s H; now apply (Hcols c s)).
  rewrite apply_no_null_id.
  - apply reindex_reindex.
  - apply series_null_free_frame. intros c s H. now apply (Hcols c s).
Qed.

(** X6: the matrix handed to the regressor has no missing value and only
    number columns, and preparing it again changes nothing: predicting on the
    prepared matrix gives the same predictions, with no warning. *)
Theorem prepared_matrix_is_stable (p : payload) (features : DataFrame) :
  NoDup (labels features) ->
  NoDup (feature_columns p) ->
  let X := inference_matrix p features in
  frame_has_null X = false /\
  (forall c s, In (c, s) (columns X) -> is_numeric s = true) /\
  inference_matrix p X = X /\
  outcome (predict_vcvr_from_features p X)
  = outcome (predict_vcvr_from_features p features) /\
  printed (predict_vcvr_from_features p X) = [].
Proof.
  intros _ _ X.
  assert (Hcols : forall c s, In (c, s) (columns X) ->
            series_has_null s = false /\ is_numeric s = true)
    by apply inference_matrix_columns.
  split; [apply series_null_free_frame; intros c s H; now apply (Hcols c s) |].
  split; [intros c s H; now apply (Hcols c s) |].
  split; [apply inference_matrix_stable |].
  split.
  - rewrite !outcome_predict. unfold X.
    now rewrite inference_matrix_stable.
  - rewrite printed_predict. unfold missing_feature_columns.
    rewrite select_dtypes_number_id by (intros c s H; now apply (Hcols c s)).
    assert (Hl : labels X = feature_columns p) by apply labels_reindex.
    rewrite Hl.
    rewrite (filter_none_missing (feature_columns p) (feature_columns p));
      [reflexivity | apply incl_refl].
Qed.

(** The sample frame against the sample bundle. *)
Lemma prepared_matrix_is_stable_witness :
  frame_has_null (inference_matrix sample_payload sample_features) = false /\
  inference_matrix sample_payload
    (inference_matrix sample_payload sample_features)
  = inference_matrix sample_payload sample_features.
Proof.
  assert (Hf : NoDup (labels sample_features)).
  { vm_compute. repeat constructor; simpl; intuition discriminate. }
  assert (Hc : NoDup (feature_columns sample_payload)).
  { vm_compute. repeat constructor; simpl; intuition discriminate. }
  destruct (prepared_matrix_is_stable sample_payload sample_features Hf Hc)
    as (Hnull & _ & Hfix & _).
  split; [exact Hnull | exact Hfix].
Defined.

(** ** Columns that the bundle does not list *)

Lemma predict_eq (p : payload) (f1 f2 : DataFrame) :
  inference_matrix p f1 = inference_matrix p f2 ->
  missing_feature_columns p f1 = missing_feature_columns p f2 ->
  predict_vcvr_from_features p f1 = predict_vcvr_from_features p f2.
Proof.
  intros HX Hm.
  rewrite (surjective_pairing (predict_vcvr_from_features p f1)).
  rewrite (surjective_pairing (predict_vcvr_from_features p f2)).
  change (fst ?c) with (printed c). change (snd ?c) with (outcome c).
  now rewrite !printed_predict, !outcome_predict, HX, Hm.
Qed.

Lemma matrix_eq_by_columns (p : payload) (f1 f2 : DataFrame) :
  nrows f1 = nrows f2 ->
  (forall c, In c (feature_columns p) ->
             get (select_dtypes_number f1) c = get (select_dtypes_number f2) c) ->
  inference_matrix p f1 = inference_matrix p f2 /\
  missing_feature_columns p f1 = missing_feature_columns p f2.
Proof.
  intros Hn Hg. split.
  - unfold inference_matrix, load_trained_model.
    apply frame_eq.
    + cbn [reindex nrows]. rewrite !nrows_apply. exact Hn.
    + cbn [reindex columns]. apply map_ext_in. intros c Hc.
      destruct (get_apply (select_dtypes_number f1) (payload_info p) c)
        as (g & _ & _ & Hga).
      rewrite !Hga, (Hg c Hc), !nrows_apply.
      cbn [select_dtypes_number nrows]. now rewrite Hn.
  - unfold missing_feature_columns. apply filter_ext_in. intros c Hc.
    now rewrite !mem_labels_get, (Hg c Hc).
Qed.

Lemma predict_drop_unlisted (p : payload) (features : DataFrame)
  (names : list string) :
  NoDup (labels features) ->
  (forall c, In c names -> ~ In c (feature_columns p)) ->
  predict_vcvr_from_features p (drop features names)
  = predict_vcvr_from_features p features /\
  inference_matrix p (drop features names) = inference_matrix p features.
Proof.
  intros Hnd Hout.
  destruct (matrix_eq_by_columns p (drop features names) features)
    as [HX Hm]; [reflexivity | | split; [now apply predict_eq | exact HX]].
  intros c Hc.
  rewrite !get_select_dtypes_number, get_drop;
    [| exact Hnd | now apply NoDup_labels_drop].
  destruct (mem c names) eqn:Em; [| reflexivity].
  apply mem_In in Em. exfalso. now apply (Hout c Em).
Qed.

(** X7: a column that the bundle does not list cannot change a prediction:
    dropping any such columns of the input leaves the prepared matrix, the
    predictions and the printed warning as they were. *)
Theorem unlisted_columns_do_not_matter (p : payload) (features : DataFrame)
  (names : list string) :
  NoDup (labels features) ->
  incl names (labels features) ->
  (forall c, In c names -> ~ In c (feature_columns p)) ->
  inference_matrix p (drop features names) = inference_matrix p features /\
  predict_vcvr_from_features p (drop features names)
  = predict_vcvr_from_features p features.
Proof.
  intros Hnd _ Hout.
  destruct (predict_drop_unlisted p features names Hnd Hout) as [Hp HX].
  now split.
Qed.

(** The sample frame without its extra column and its text column. *)
Lemma unlisted_columns_do_not_matter_witness :
  predict_vcvr_from_features sample_payload
    (drop sample_features ["extra"; "note"])
  = predict_vcvr_from_features sample_payload sample_features.
Proof.
  apply (unlisted_columns_do_not_matter sample_payload sample_features
           ["extra"; "note"]).
  - vm_compute. repeat constructor; simpl; intuition discriminate.
  - intros c Hc. simpl in Hc. simpl. intuition (subst; auto).
  - intros c Hc Hin. simpl in Hc, Hin. intuition (subst; discriminate).
Defined.

(** ** The smoke test of the prediction script *)

Lemma drop_if_present_unlisted (p : payload) (df : DataFrame) (col : string) :
  NoDup (labels df) ->
  ~ In col (feature_columns p) ->
  NoDup (labels (drop_if_present df col)) /\
  nrows (drop_if_present df col) = nrows df /\
  predict_vcvr_from_features p (drop_if_present df col)
  = predict_vcvr_from_features p df.
Proof.
  intros Hnd Hout. unfold drop_if_present.
  destruct (mem col (labels df)); [| auto].
  split; [now apply NoDup_labels_drop |]. split; [reflexivity |].
  apply (predict_drop_unlisted p df [col] Hnd).
  intros c [<- | []]. exact Hout.
Qed.

(** X8: for a bundle that lists neither URL nor VCVR, the smoke test's
    dropping of these two columns changes nothing: it returns, prints what
    [predict_vcvr_from_features] prints on the frame as given, and then one
    line per row of the frame, numbered from 0, with that row's prediction. *)
Theorem smoke_test_prints_one_line_per_row (p : payload) (df : DataFrame) :
  NoDup (labels df) ->
  ~ In "URL" (feature_columns p) ->
  ~ In "VCVR" (feature_columns p) ->
  let preds := map (model p) (rows_of (inference_matrix p df)) in
  List.length preds = nrows df /\
  predict_main p df
  = (map Logged (printed (predict_vcvr_from_features p df))
     ++ map (fun ip => PredictedRow (fst ip) (snd ip))
            (combine (seq 0 (nrows df)) preds),
     Ok tt).
Proof.
  intros Hnd Hu Hv preds.
  assert (Hlen : List.length preds = nrows df).
  { unfold preds. rewrite length_map, length_rows_of.
    unfold inference_matrix, load_trained_model. cbn [reindex nrows].
    now rewrite nrows_apply. }
  split; [exact Hlen |].
  unfold predict_main. cbn [fold_left].
  destruct (drop_if_present_unlisted p df "URL" Hnd Hu) as (Hnd1 & _ & H1).
  destruct (drop_if_present_unlisted p (drop_if_present df "URL") "VCVR"
              Hnd1 Hv) as (_ & _ & H2).
  rewrite H2, H1, outcome_predict. fold preds. now rewrite Hlen.
Qed.

(** The sample frame: two rows, two lines after the warning. *)
Lemma smoke_test_prints_one_line_per_row_witness :
  predict_main sample_payload sample_features
  = ([Logged (WarnMissingFeatureColumns 1);
      PredictedRow 0 0%Q; PredictedRow 1 0%Q], Ok tt).
Proof.
  assert (Hnd : NoDup (labels sample_features)).
  { vm_compute. repeat constructor; simpl; intuition discriminate. }
  assert (Hu : ~ In "URL" (feature_columns sample_payload)).
  { simpl. intuition discriminate. }
  assert (Hv : ~ In "VCVR" (feature_columns sample_payload)).
  { simpl. intuition discriminate. }
  destruct (smoke_test_prints_one_line_per_row sample_payload sample_features
              Hnd Hu Hv) as (_ & Hp).
  rewrite Hp. reflexivity.
Defined.

(** ** Replaying the plan on the training rows *)

Lemma replay_nil (c : string) (items : list (string * option Q)) :
  replay c items (NumCol []) = NumCol [].
Proof.
  unfold replay. induction items as [| [k v] items IH]; simpl; [reflexivity |].
  destruct (String.eqb c k); [| exact IH].
  destruct v; exact IH.
Qed.

(** On a column that pruning keeps, the replay of the recorded fills does
    what the loop did. *)
Lemma replay_matches_loop (fdf : DataFrame) (names : list string)
  (info : imputation_info) (c : string) (l : list (option Q)) :
  In c names ->
  mem c special_impute_cols = false ->
  get fdf c = Some (NumCol l) ->
  exceeds (isnull_mean (NumCol l)) drop_threshold = false ->
  zero_cols info = filter (zero_filled fdf) names ->
  (forall k, lookup k (median_cols info)
             = if mem k names && median_filled fdf k
               then Some (column_median fdf k) else None) ->
  fillna 0 (replay c (median_cols info)
              (replay c (zero_items (zero_cols info)) (NumCol l)))
  = impute_series c (NumCol l).
Proof.
  intros Hc Esp Hg Hkeep Hz Hm.
  pose proof (Hm c) as Hmc.
  assert (Hin : mem c names = true) by now apply mem_In.
  rewrite Hin in Hmc. cbn [andb] in Hmc.
  assert (Hzc : In c (zero_cols info) <-> zero_filled fdf c = true).
  { rewrite Hz, filter_In. tauto. }
  unfold median_filled, column_median in Hmc.
  unfold zero_filled in Hzc. unfold needs_fill in Hmc, Hzc.
  rewrite Hg, Esp in Hmc, Hzc. unfold impute_series. rewrite Esp.
  destruct (is_zero (isnull_mean (NumCol l))) eqn:Ez;
    cbn [negb andb] in Hmc, Hzc.
  - (* no gap: nothing recorded, nothing to fill *)
    rewrite (@replay_absent c (zero_items (zero_cols info)) (NumCol l)).
    + rewrite (@replay_absent c (median_cols info) (NumCol l)).
      * apply fillna_no_null_id. now apply is_zero_no_null.
      * now apply lookup_None.
    + rewrite labels_zero_items. intro Hin'. apply Hzc in Hin'. discriminate.
  - destruct (count_like c) eqn:Ecl; cbn [negb andb] in Hmc, Hzc.
    + (* zero-filled *)
      rewrite (@replay_first c (zero_items (zero_cols info)) 0%Q (NumCol l)).
      * rewrite replay_filled. apply (@fillna_absorbs (Some 0%Q)).
      * apply lookup_zero_items. now apply Hzc.
    + (* median-filled *)
      rewrite (@replay_absent c (zero_items (zero_cols info)) (NumCol l)).
      * destruct (@kept_column_has_value l Hkeep) as [-> | Hval].
        -- now rewrite replay_nil.
        -- unfold nanmedian in *.
           destruct (@median_values_some (dropna l) Hval) as [m Em].
           rewrite Em in *.
           rewrite (@replay_first c (median_cols info) m (NumCol l) Hmc).
           apply (@fillna_absorbs (Some 0%Q)).
      * rewrite labels_zero_items. intro Hin'. apply Hzc in Hin'.
        discriminate.
Qed.

Lemma fit_without_rank (f : string -> option (option Q)) (raw : DataFrame)
  (r : fit_result) :
  NoDup (labels raw) ->
  ~ In "RANK" (labels raw) ->
  outcome (clean_and_impute f raw) = Ok r ->
  exists target,
    let df1 := select_rows (notnull target) raw in
    let df3 := drop df1 (cols_to_drop df1) in
    get raw TARGET_COL = Some target /\
    NoDup (num_cols_of df3) /\
    labels (features_of df3) = num_cols_of df3 /\
    outcome (foldM impute_col (num_cols_of df3)
               (features_of df3, mkInfo [] [] (cols_to_drop df1) []))
    = Ok (fit_X r, fit_info r).
Proof.
  intros Hnd Hno H. apply fit_stages in H.
  destruct H as (df1 & df2 & sc & t & H1 & H2 & Hloop & _).
  apply drop_missing_target_inv in H1. destruct H1 as (target & Hg & ->).
  rewrite handle_rank_without_rank in H2
    by now rewrite labels_select_rows.
  injection H2 as <- <-.
  exists target. cbv zeta in *.
  set (df1 := select_rows (notnull target) raw) in *.
  set (df3 := drop df1 (cols_to_drop df1)) in *.
  assert (Hnd1 : NoDup (labels df1))
    by (unfold df1; now rewrite labels_select_rows).
  assert (Hnd3 : NoDup (labels df3)) by now apply NoDup_labels_drop.
  assert (Hlab : labels (features_of df3) = num_cols_of df3)
    by now apply labels_num_cols.
  split; [exact Hg |]. split; [| split; [exact Hlab | exact Hloop]].
  rewrite <- Hlab, features_of_numeric by assumption.
  unfold select_dtypes_number, labels. cbn [columns].
  apply NoDup_labels_filter. exact (@NoDup_labels_drop df3 _ Hnd3).
Qed.

(** A numeric feature column that survives pruning, without RANK columns in
    the data: the prepared matrix of the training rows holds what fit put in
    its matrix. *)
Lemma training_column_replayed (df1 : DataFrame) (X : DataFrame)
  (info : imputation_info) (c : string) :
  let df3 := drop df1 (cols_to_drop df1) in
  NoDup (labels df1) ->
  ~ In "RANK" (labels df1) ->
  ~ In "RANK_missing" (labels df1) ->
  NoDup (num_cols_of df3) ->
  outcome (foldM impute_col (num_cols_of df3)
             (features_of df3, mkInfo [] [] (cols_to_drop df1) []))
  = Ok (X, info) ->
  In c (num_cols_of df3) ->
  exists s,
    get X c = Some s /\
    get (apply_basic_imputation_for_inference (select_dtypes_number df1)
           (Some info)) c = Some s.
Proof.
  intros df3 Hnd1 Hnr Hnm Hndn Hloop Hc.
  assert (Hnd3 : NoDup (labels df3)) by now apply NoDup_labels_drop.
  destruct (features_of_get_numeric df3 c Hnd3 Hc) as [l Hl].
  pose proof (@foldM_impute_get _ _ _ Hndn Hloop c) as HX.
  cbn [fst] in HX. rewrite (proj2 (mem_In c _) Hc), Hl in HX.
  cbn [option_map] in HX.
  exists (impute_series c (NumCol l)). split; [exact HX |].
  (* the column in the frame before pruning *)
  pose proof Hl as Hin. apply lookup_Some_In in Hin.
  apply features_of_column in Hin; [| exact Hnd3].
  destruct Hin as (Hin3 & _ & Hnt).
  unfold df3, drop in Hin3. cbn [columns] in Hin3.
  apply filter_In in Hin3. destruct Hin3 as [Hin1 Hkept].
  cbn [fst] in Hkept. apply negb_true_iff in Hkept.
  assert (Hlab1 : In c (labels df1)).
  { unfold labels. apply in_map_iff. now exists (c, NumCol l). }
  apply lookup_NoDup in Hin1; [| exact Hnd1]. fold (get df1 c) in Hin1.
  assert (Hsp : mem c special_impute_cols = false).
  { apply mem_not_In. simpl. intros [<- | [<- | []]]; contradiction. }
  assert (Hkeep : exceeds (isnull_mean (NumCol l)) drop_threshold = false).
  { destruct (exceeds (isnull_mean (NumCol l)) drop_threshold) eqn:Ex;
      [| reflexivity].
    exfalso. apply mem_not_In in Hkept. apply Hkept.
    unfold cols_to_drop. apply filter_In. split; [exact Hlab1 |].
    unfold missing_ratio. rewrite Hin1.
    replace (mem c [TARGET_COL; "RANK"; "RANK_missing"]) with false;
      [exact Ex |].
    symmetry. apply mem_not_In. simpl.
    intros [<- | [<- | [<- | []]]]; [now apply Hnt | |]; contradiction. }
  destruct (foldM_impute_plan _ _ _ Hndn Hloop) as [Hz Hm].
  cbn [fst snd zero_cols median_cols app lookup] in Hz, Hm.
  rewrite get_apply_plan, get_select_dtypes_number, Hin1 by exact Hnd1.
  cbn [is_numeric option_map]. f_equal.
  exact (replay_matches_loop (features_of df3) (num_cols_of df3) info c l
           Hc Hsp Hl Hkeep Hz Hm).
Qed.

(** X9: without RANK columns in the data, the bundle that [main] saves
    reproduces training: on the rows that had a target, the prepared matrix is
    the training matrix itself, column for column and in the same order,
    nothing is reported missing, and the predictions are the model's on the
    rows of the training matrix. *)
Theorem bundle_reproduces_training_matrix
  (f : string -> option (option Q))
  (train : DataFrame -> list (option Q) -> list (option R) -> M regressor)
  (raw : DataFrame) (p : payload) :
  NoDup (labels raw) ->
  ~ In "RANK" (labels raw) ->
  ~ In "RANK_missing" (labels raw) ->
  outcome (main f train raw) = Ok p ->
  exists target r m,
    get raw TARGET_COL = Some target /\
    outcome (clean_and_impute f raw) = Ok r /\
    outcome (train (fit_X r) (fit_y r) (fit_weight r)) = Ok m /\
    p = mkPayload m (labels (fit_X r)) (Some (fit_info r)) /\
    let rows := select_rows (notnull target) raw in
    inference_matrix p rows = fit_X r /\
    predict_vcvr_from_features p rows
    = ret (map (model p) (rows_of (fit_X r))).
Proof.
  intros Hnd Hnr Hnm H. unfold main in H.
  apply bind_ok in H. destruct H as (df & Hload & H).
  apply bind_ok in H. destruct H as (r & Hfit & H).
  apply bind_ok in H. destruct H as (m & Htrain & H).
  unfold save_model in H. rewrite outcome_bind, outcome_print in H.
  injection H as <-.
  unfold load_data in Hload.
  destruct (mem TARGET_COL (labels raw)); [| discriminate].
  rewrite outcome_bind, outcome_print in Hload. injection Hload as <-.
  destruct (fit_without_rank f raw r Hnd Hnr Hfit)
    as (target & Hg & Hndn & Hlab & Hloop).
  cbv zeta in *. exists target, r, m.
  set (df1 := select_rows (notnull target) raw) in *.
  set (df3 := drop df1 (cols_to_drop df1)) in *.
  set (p := mkPayload _ _ _).
  assert (Hnd1 : NoDup (labels df1))
    by (unfold df1; now rewrite labels_select_rows).
  assert (Hnr1 : ~ In "RANK" (labels df1))
    by (unfold df1; now rewrite labels_select_rows).
  assert (Hnm1 : ~ In "RANK_missing" (labels df1))
    by (unfold df1; now rewrite labels_select_rows).
  pose proof (@foldM_impute_run _ _ _ Hloop) as Hrun.
  pose proof (run_labels Hrun) as HlX. cbn [fst] in HlX. rewrite Hlab in HlX.
  pose proof (run_nrows Hrun) as HnX. cbn [fst] in HnX.
  assert (Hcol : forall c, In c (labels (fit_X r)) ->
            exists s, get (fit_X r) c = Some s /\
                      get (apply_basic_imputation_for_inference
                             (select_dtypes_number df1) (Some (fit_info r))) c
                      = Some s).
  { intros c Hc. rewrite HlX in Hc.
    exact (training_column_replayed df1 (fit_X r) (fit_info r) c
             Hnd1 Hnr1 Hnm1 Hndn Hloop Hc). }
  assert (HX : inference_matrix p df1 = fit_X r).
  { apply frame_eq.
    - unfold inference_matrix, load_trained_model. cbn [reindex nrows].
      rewrite nrows_apply. cbn [select_dtypes_number nrows].
      rewrite HnX. reflexivity.
    - apply columns_ext.
      + change (labels (inference_matrix p df1) = labels (fit_X r)).
        unfold inference_matrix, load_trained_model.
        now rewrite labels_reindex.
      + change (NoDup (labels (inference_matrix p df1))).
        unfold inference_matrix, load_trained_model.
        rewrite labels_reindex. cbn [p feature_columns].
        now rewrite HlX.
      + intros c Hc.
        change (In c (labels (inference_matrix p df1))) in Hc.
        change (get (inference_matrix p df1) c = get (fit_X r) c).
        unfold inference_matrix, load_trained_model in *.
        rewrite labels_reindex in Hc. rewrite get_reindex.
        cbn [p feature_columns payload_info] in *.
        rewrite (proj2 (mem_In c _) Hc).
        destruct (Hcol c Hc) as (s & Hs & Ha). now rewrite Ha, Hs. }
  split; [exact Hg |]. split; [exact Hfit |]. split; [exact Htrain |].
  split; [reflexivity |]. split; [exact HX |].
  rewrite (surjective_pairing (predict_vcvr_from_features p df1)).
  change (fst ?c) with (printed c). change (snd ?c) with (outcome c).
  rewrite printed_predict, outcome_predict, HX.
  replace (missing_feature_columns p df1) with (@nil string); [reflexivity |].
  symmetry. unfold missing_feature_columns. apply filter_none_missing.
  intros c Hc. cbn [p feature_columns] in Hc.
  destruct (Hcol c Hc) as (s & _ & Ha).
  rewrite <- (labels_apply (select_dtypes_number df1) (Some (fit_info r))).
  exact (@lookup_label _ c _ s Ha).
Qed.

(** The plain sample: the three rows with a target come back as the training
    matrix, x median-filled with 2 and the count zero-filled. *)
Lemma bundle_reproduces_training_matrix_witness :
  exists p,
    outcome (main no_float constant_train plain_sample) = Ok p /\
    inference_matrix p (select_rows [true; false; true; true] plain_sample)
    = mkFrame 3 [("x", NumCol [num 3; num 2; num 1]);
                 ("visit_count", NumCol [num 0; num 5; num 7])].
Proof.
  destruct (outcome (main no_float constant_train plain_sample)) as [p | e]
    eqn:E; [| vm_compute in E; discriminate].
  exists p. split; [reflexivity |].
  destruct (bundle_reproduces_training_matrix no_float constant_train
              plain_sample p)
    as (target & r & m & Hg & Hfit & _ & _ & HX & _).
  - vm_compute. repeat constructor; simpl; intuition discriminate.
  - simpl. intuition discriminate.
  - simpl. intuition discriminate.
  - exact E.
  - vm_compute in Hg. injection Hg as <-.
    change (notnull _) with [true; false; true; true] in HX.
    rewrite HX. clear HX E.
    assert (Hr : option_map fit_X (ok (clean_and_impute no_float plain_sample))
                 = Some (fit_X r)).
    { unfold ok. now rewrite Hfit. }
    set (X := fit_X r) in *. clearbody X. clear Hfit.
    vm_compute in Hr. injection Hr as <-. reflexivity.
Defined.

(** ** Bounds of the sample weights *)

Lemma clamp_bounds (q : Q) : (1 <= clamp q)%Q /\ (clamp q <= 1000 # 1)%Q.
Proof.
  unfold clamp.
  destruct (Qlt_bool q 1) eqn:E1; [split; discriminate |].
  assert (H1 : (1 <= q)%Q).
  { apply Qnot_lt_le. intro H. apply Qlt_bool_iff in H. congruence. }
  destruct (Qlt_bool (1000 # 1) q) eqn:E2.
  - split; [discriminate | apply Qle_refl].
  - split; [exact H1 |].
    apply Qnot_lt_le. intro H. apply Qlt_bool_iff in H. congruence.
Qed.

Lemma sqrt_clamp_bounds (q : Q) :
  (1 <= sqrt (Q2R (clamp q)) <= sqrt 1000)%R.
Proof.
  destruct (clamp_bounds q) as [Hlo Hhi].
  apply Qle_Rle in Hlo. apply Qle_Rle in Hhi.
  replace (Q2R 1) with 1%R in Hlo by (unfold Q2R; simpl; lra).
  replace (Q2R (1000 # 1)) with 1000%R in Hhi by (unfold Q2R; simpl; lra).
  split.
  - rewrite <- sqrt_1. now apply sqrt_le_1_alt.
  - now apply sqrt_le_1_alt.
Qed.

Lemma one_le_sqrt_1000 : (1 <= sqrt 1000)%R.
Proof. rewrite <- sqrt_1 at 1. apply sqrt_le_1_alt. lra. Qed.

Lemma base_weights_bounded (f : string -> option (option Q))
  (df X : DataFrame) (base : list (option R)) (w : R) :
  outcome (base_weights f df X) = Ok base ->
  In (Some w) base -> (1 <= w <= sqrt 1000)%R.
Proof.
  unfold base_weights. destruct (get df "Clicks") as [s |].
  - intro H. apply bind_ok in H. destruct H as (clicks & _ & H).
    injection H as <-. rewrite !map_map. intro Hin.
    apply in_map_iff in Hin. destruct Hin as [c [Hc _]].
    destruct c as [q |]; [| discriminate].
    rewrite present_volume_weight in Hc. injection Hc as <-.
    apply sqrt_clamp_bounds.
  - rewrite outcome_bind, outcome_print. intros [= <-] Hin.
    apply repeat_spec in Hin. injection Hin as ->.
    split; [lra | apply one_le_sqrt_1000].
Qed.

(** X10: when fit returns, every weight that is not missing lies between 1
    and 2 * sqrt(1000): the floor of the clip keeps it from 0, the cap and the
    multiplier of 2 bound it, whatever the volume. *)
Theorem weights_are_bounded (f : string -> option (option Q))
  (raw : DataFrame) (r : fit_result) (w : R) :
  outcome (clean_and_impute f raw) = Ok r ->
  In (Some w) (fit_weight r) ->
  (1 <= w <= 2 * sqrt 1000)%R.
Proof.
  intros H Hin. apply fit_stages in H.
  destruct H as (df1 & df2 & sc & t & _ & _ & _ & _ & _ & Hw & _).
  set (df3 := drop df2 (cols_to_drop df2)) in *.
  pose proof one_le_sqrt_1000 as H1000.
  unfold sample_weights in Hw. apply bind_ok in Hw.
  destruct Hw as (base & Hb & Hw).
  destruct (get df3 INTERNAL_FLAG_COL) as [s |].
  - rewrite outcome_bind, outcome_print in Hw. injection Hw as Hw.
    rewrite <- Hw in Hin.
    unfold times in Hin. apply in_map_iff in Hin.
    destruct Hin as [[b m] [E Hin]]. simpl in E.
    destruct b as [x |]; [| discriminate]. injection E as <-.
    pose proof (in_combine_l _ _ _ _ Hin) as Hx.
    pose proof (in_combine_r _ _ _ _ Hin) as Hm.
    apply (base_weights_bounded f df3 (fit_X r) base x Hb) in Hx.
    unfold internal_multiplier in Hm. apply in_map_iff in Hm.
    destruct Hm as [b [<- _]].
    destruct b; lra.
  - rewrite outcome_bind, outcome_print in Hw. injection Hw as Hw.
    rewrite <- Hw in Hin.
    apply (base_weights_bounded f df3 (fit_X r) base w Hb) in Hin. lra.
Qed.

(** The sample with volumes 2000 and 0: the weight of the first row. *)
Lemma weights_are_bounded_witness :
  (1 <= sqrt (Q2R (1000 # 1)) * 2 <= 2 * sqrt 1000)%R.
Proof.
  destruct (outcome (clean_and_impute no_float full_sample)) as [r | e] eqn:E;
    [| vm_compute in E; discriminate].
  apply (weights_are_bounded no_float full_sample r); [exact E |].
  assert (Hw : option_map fit_weight
                 (ok (clean_and_impute no_float full_sample))
               = Some [Some (sqrt (Q2R (1000 # 1)) * 2)%R; None;
                       Some (sqrt (Q2R 1) * 1)%R])
    by (vm_compute; reflexivity).
  unfold ok in Hw. rewrite E in Hw. injection Hw as ->. now left.
Defined.

(** ** A dataset without target column *)

(** X11: a dataset without the VCVR column is fatal at once: [main] stops in
    [load_data] with ValueError, [clean_and_impute] called on it raises
    KeyError at its first line, and neither prints anything. *)
Theorem missing_target_is_fatal (f : string -> option (option Q))
  (train : DataFrame -> list (option Q) -> list (option R) -> M regressor)
  (raw : DataFrame) :
  ~ In TARGET_COL (labels raw) ->
  main f train raw = raise ValueError /\
  clean_and_impute f raw = raise (KeyError TARGET_COL).
Proof.
  intro Hno. split.
  - unfold main, load_data. rewrite (proj2 (mem_not_In _ _) Hno). reflexivity.
  - unfold clean_and_impute, drop_missing_target.
    replace (get raw TARGET_COL) with (@None series); [reflexivity |].
    symmetry. now apply lookup_None.
Qed.

(** A frame of features only. *)
Lemma missing_target_is_fatal_witness :
  main no_float constant_train sample_features = raise ValueError /\
  clean_and_impute no_float sample_features = raise (KeyError TARGET_COL).
Proof.
  apply (missing_target_is_fatal no_float constant_train sample_features).
  simpl. intuition discriminate.
Defined.

(** ** The rows that fit reports as dropped *)

Lemma count_true_negb (l : list bool) :
  count_true (map negb l) + count_true l = List.length l.
Proof.
  unfold count_true. induction l as [| [|] l IH]; simpl; lia.
Qed.

(** X12: the first line that fit prints is the number of rows whose target
    is missing, whether or not fit goes on to return. *)
Theorem fit_reports_missing_targets (f : string -> option (option Q))
  (raw : DataFrame) (t : series) :
  get raw TARGET_COL = Some t ->
  series_length t = nrows raw ->
  exists rest,
    printed (clean_and_impute f raw)
    = DroppedRows (count_true (isnull t)) :: rest.
Proof.
  intros Hg Hlen. unfold clean_and_impute.
  rewrite printed_bind. unfold drop_missing_target at 1. rewrite Hg.
  rewrite printed_bind. cbn [print printed fst app select_rows nrows].
  unfold notnull. rewrite <- Hlen, <- length_isnull.
  rewrite <- (count_true_negb (isnull t)), Nat.add_sub_swap, Nat.sub_diag
    by apply Nat.le_refl.
  cbn [Nat.add]. eexists. reflexivity.
Qed.

(** The sample whose third row has no target; fit returns on it. *)
Lemma fit_reports_missing_targets_witness :
  exists rest,
    printed (clean_and_impute no_float full_sample) = DroppedRows 1 :: rest.
Proof.
  apply (fit_reports_missing_targets no_float full_sample
           (NumCol [Some (1 # 10); Some (2 # 10); None; Some (3 # 10)]%Q));
    reflexivity.
Defined.

(** ** Category statistics, row by row *)

Lemma value_eqb_refl (a : value) : value_eqb a a = true.
Proof. destruct a; simpl; [apply Qeq_bool_refl | apply String.eqb_refl]. Qed.

Lemma value_eqb_sym (a b : value) :
  value_eqb a b = true -> value_eqb b a = true.
Proof.
  destruct a, b; simpl; try discriminate.
  - apply Qeq_bool_sym.
  - now rewrite String.eqb_sym.
Qed.

Lemma value_eqb_trans (a b c : value) :
  value_eqb a b = true -> value_eqb b c = true -> value_eqb a c = true.
Proof.
  destruct a, b, c; simpl; try discriminate.
  - apply Qeq_bool_trans.
  - intros H1 H2. apply String.eqb_eq in H1, H2. subst.
    apply String.eqb_refl.
Qed.

Lemma key_is_equiv (k k' : value) (c : option value) :
  value_eqb k' k = true -> key_is k' c = key_is k c.
Proof.
  intro H. destruct c as [v |]; [| reflexivity]. simpl.
  destruct (value_eqb k' v) eqn:E1, (value_eqb k v) eqn:E2; try reflexivity.
  - apply value_eqb_sym in H.
    now rewrite (value_eqb_trans k k' v H E1) in E2.
  - now rewrite (value_eqb_trans k' k v H E2) in E1.
Qed.

(** Every category that occurs has its group. *)
Lemma group_keys_has (keys : list (option value)) (k : value) :
  In (Some k) keys ->
  exists k', In k' (group_keys keys) /\ value_eqb k' k = true.
Proof.
  induction keys as [| [a |] keys IH]; simpl; [tauto | |].
  - intros [E | Hin].
    + injection E as ->. exists k. split; [now left | apply value_eqb_refl].
    + destruct (value_eqb a k) eqn:Ea.
      * exists a. split; [now left | exact Ea].
      * destruct (IH Hin) as (k' & Hk' & Ek'). exists k'.
        split; [| exact Ek']. right. apply filter_In. split; [exact Hk' |].
        apply negb_true_iff.
        destruct (value_eqb a k') eqn:E; [| reflexivity].
        now rewrite (value_eqb_trans a k' k E Ek') in Ea.
  - intros [E | Hin]; [discriminate | exact (IH Hin)].
Qed.

Lemma find_map {A B : Type} (g : A -> B) (test : B -> bool) (l : list A) :
  find test (map g l) = option_map g (find (fun a => test (g a)) l).
Proof.
  induction l as [| a l IH]; simpl; [reflexivity |].
  destruct (test (g a)); [reflexivity | exact IH].
Qed.

Lemma find_exists {A : Type} (test : A -> bool) (l : list A) (a : A) :
  In a l -> test a = true -> exists b, find test l = Some b /\ test b = true.
Proof.
  induction l as [| x l IH]; simpl; [tauto |].
  intros [-> | Hin] Ha.
  - rewrite Ha. eauto.
  - destruct (test x) eqn:Ex; [eauto | exact (IH Hin Ha)].
Qed.

(** The merge finds, for a row of category [k], the aggregates of the rows
    whose category equals [k]. *)
Lemma find_cat_group (keys : list (option value)) (target : list (option Q))
  (k : value) :
  In (Some k) keys ->
  exists k',
    find_cat (groupby_agg keys target) (Some k)
    = Some (mkCat k' (nanmean (group_targets k keys target))
                  (nanmedian (group_targets k keys target))
                  (List.length (dropna (group_targets k keys target)))).
Proof.
  intro Hin. destruct (group_keys_has keys k Hin) as (k0 & Hk0 & Ek0).
  unfold find_cat, groupby_agg. rewrite find_map. cbn [cat_key].
  destruct (find_exists (fun a => value_eqb a k) (group_keys keys) k0 Hk0 Ek0)
    as (k' & -> & Ek').
  exists k'. cbn [option_map]. unfold group_targets.
  assert (Hm : map (key_is k') keys = map (key_is k) keys).
  { apply map_ext. intro c. now apply key_is_equiv. }
  now rewrite Hm.
Qed.

Lemma stat_columns_rows (keys : list (option value))
  (target : list (option Q)) :
  stat_columns (groupby_agg keys target) keys
  = [("cat_mean_vcvr",
      NumCol (map (fun key => mean_of_category key keys target) keys));
     ("cat_median_vcvr",
      NumCol (map (fun key => median_of_category key keys target) keys));
     ("cat_count",
      NumCol (map (fun key => count_of_category key keys target) keys))].
Proof.
  unfold stat_columns. rewrite !map_map.
  assert (H : forall key, In key keys ->
            exists o, find_cat (groupby_agg keys target) key = o /\
              match o with Some r => cat_mean_vcvr r | None => None end
              = mean_of_category key keys target /\
              match o with Some r => cat_median_vcvr r | None => None end
              = median_of_category key keys target /\
              match o with
              | Some r => Some (inject_Z (Z.of_nat (cat_count r)))
              | None => None
              end = count_of_category key keys target).
  { intros [k |] Hin.
    - destruct (find_cat_group keys target k Hin) as (k' & ->).
      eexists. split; [reflexivity |]. cbn. repeat split.
    - exists None. repeat split. }
  set (stats := groupby_agg keys target) in *.
  rewrite (map_ext_in
             (fun key => match find_cat stats key with
                         | Some r => cat_mean_vcvr r
                         | None => None
                         end)
             (fun key => mean_of_category key keys target) keys)
    by (intros key Hin; destruct (H key Hin) as (o & -> & H1 & _); exact H1).
  rewrite (map_ext_in
             (fun key => match find_cat stats key with
                         | Some r => cat_median_vcvr r
                         | None => None
                         end)
             (fun key => median_of_category key keys target) keys)
    by (intros key Hin; destruct (H key Hin) as (o & -> & _ & H2 & _);
        exact H2).
  rewrite (map_ext_in
             (fun key => match find_cat stats key with
                         | Some r => Some (inject_Z (Z.of_nat (cat_count r)))
                         | None => None
                         end)
             (fun key => count_of_category key keys target) keys)
    by (intros key Hin; destruct (H key Hin) as (o & -> & _ & _ & H3);
        exact H3).
  reflexivity.
Qed.

(** X13: what the groupby and the left merge give a row, on data that has no
    column named as an aggregate.  When the RANK block returns, [cat_count]
    holds in each row the number of rows of the same category that have a
    target, that row included; [cat_mean_vcvr] and [cat_median_vcvr] hold one
    value per category, the same in every row of the category; and a row
    without category gets three missing values. *)
Theorem category_statistics_by_row (df out : DataFrame)
  (sc : list (string * Q)) (rank cat : series) (target : list (option Q)) :
  (forall c, In c stat_labels -> ~ In c (labels df)) ->
  outcome (handle_rank df) = Ok (out, sc) ->
  get df "RANK" = Some rank ->
  get df "Category" = Some cat ->
  get df TARGET_COL = Some (NumCol target) ->
  let keys := keys_of cat in
  exists means medians,
    get out "cat_mean_vcvr" = Some (NumCol means) /\
    get out "cat_median_vcvr" = Some (NumCol medians) /\
    get out "cat_count"
    = Some (NumCol (map (fun key => count_of_category key keys target)
                        keys)) /\
    List.length means = List.length keys /\
    List.length medians = List.length keys /\
    (forall i, nth_error keys i = Some None ->
               nth_error means i = Some None
               /\ nth_error medians i = Some None) /\
    (forall i j k k',
        nth_error keys i = Some (Some k) ->
        nth_error keys j = Some (Some k') ->
        value_eqb k k' = true ->
        nth_error means i = nth_error means j
        /\ nth_error medians i = nth_error medians j).
Proof.
  intros Hstat H Hr Hc Ht keys.
  apply rank_block_columns in H; [| exact Hstat].
  destruct H as [(Hno & _) | (rank' & cat' & t' & _ & _ & Hc' & Ht' & ->)];
    [congruence |].
  unfold with_rank_sentinel in Hc', Ht'.
  rewrite !get_set_col in Hc', Ht'. cbn in Hc', Ht'.
  rewrite Hc in Hc'. rewrite Ht in Ht'.
  injection Hc' as <-. injection Ht' as <-. fold keys.
  rewrite stat_columns_rows.
  assert (Hfree : forall c, In c stat_labels ->
            lookup c (columns (with_rank_sentinel df rank')) = None).
  { intros c Hin. apply lookup_None.
    exact (stat_free_with_rank_sentinel df rank' Hstat c Hin). }
  exists (map (fun key => mean_of_category key keys target) keys),
         (map (fun key => median_of_category key keys target) keys).
  unfold get. cbn [columns]. rewrite !lookup_app.
  rewrite !Hfree by (simpl; tauto).
  split; [reflexivity |]. split; [reflexivity |]. split; [reflexivity |].
  split; [apply length_map |]. split; [apply length_map |].
  split.
  - intros i Hi. rewrite !nth_error_map, Hi. now split.
  - intros i j k k' Hi Hj E. rewrite !nth_error_map, Hi, Hj.
    cbn [option_map mean_of_category median_of_category].
    unfold group_targets.
    assert (Hm : map (key_is k) keys = map (key_is k') keys).
    { apply map_ext. intro c. exact (key_is_equiv k' k c E). }
    rewrite Hm. now split.
Qed.

(** The three rows of the sample that have a target: two of category a, one
    of category b. *)
Lemma category_statistics_by_row_witness :
  exists out sc,
    outcome (handle_rank (select_rows [true; true; false; true] full_sample))
    = Ok (out, sc) /\
    get out "cat_count" = Some (NumCol [num 2; num 1; num 2]).
Proof.
  destruct (outcome (handle_rank
                       (select_rows [true; true; false; true] full_sample)))
    as [[out sc] | e] eqn:E; [| vm_compute in E; discriminate].
  exists out, sc. split; [reflexivity |].
  destruct (category_statistics_by_row
              (select_rows [true; true; false; true] full_sample) out sc
              (NumCol [None; num 5; num 9])
              (ObjCol [str "a"; str "b"; str "a"])
              [Some (1 # 10); Some (2 # 10); Some (3 # 10)]%Q)
    as (means & medians & _ & _ & Hcount & _).
  - intros c Hc. simpl in Hc. simpl. intuition (subst; discriminate).
  - exact E.
  - reflexivity.
  - reflexivity.
  - reflexivity.
  - rewrite Hcount. vm_compute. reflexivity.
Defined.

(** ** Prediction is row by row *)

Lemma select_map {A B : Type} (g : A -> B) (mask : list bool) (l : list A) :
  select mask (map g l) = map g (select mask l).
Proof.
  revert l. induction mask as [| b mask IH]; intros [| x l]; simpl;
    try reflexivity.
  destruct b; simpl; now rewrite IH.
Qed.

Lemma select_repeat {A : Type} (x : A) (mask : list bool) (n : nat) :
  List.length mask <= n ->
  select mask (repeat x n) = repeat x (count_true mask).
Proof.
  unfold count_true. revert n.
  induction mask as [| b mask IH]; intros [| n] H; simpl in *;
    try reflexivity; try lia.
  destruct b; simpl; rewrite IH by lia; reflexivity.
Qed.

Lemma numeric_cells_select (mask : list bool) (s : series) :
  numeric_cells (select_series mask s) = select mask (numeric_cells s).
Proof. destruct s; simpl; [reflexivity | now rewrite select_map]. Qed.

Lemma length_numeric_cells (s : series) :
  List.length (numeric_cells s) = series_length s.
Proof. destruct s; simpl; [reflexivity | apply length_map]. Qed.

Lemma rows_of_cells_eq (df : DataFrame) :
  rows_of df
  = rows_of_cells (nrows df) (map (fun p => numeric_cells (snd p)) (columns df)).
Proof.
  unfold rows_of, rows_of_cells. apply map_ext. intro i.
  now rewrite map_map.
Qed.

Lemma rows_of_cells_S (n : nat) (cells : list (list (option Q))) :
  rows_of_cells (S n) cells
  = map (fun l => nth 0 l None) cells
    :: rows_of_cells n (map (@tl (option Q)) cells).
Proof.
  unfold rows_of_cells. cbn [seq map]. f_equal.
  rewrite <- seq_shift, map_map. apply map_ext. intro i.
  rewrite map_map. apply map_ext. intros [| x l]; [now destruct i |].
  reflexivity.
Qed.

Lemma rows_of_cells_select (mask : list bool) :
  forall cells : list (list (option Q)),
    (forall l, In l cells -> List.length l = List.length mask) ->
    rows_of_cells (count_true mask) (map (select mask) cells)
    = select mask (rows_of_cells (List.length mask) cells).
Proof.
  induction mask as [| b mask IH]; intros cells Hlen; [reflexivity |].
  cbn [List.length]. rewrite rows_of_cells_S.
  assert (Htl : forall l, In l (map (@tl (option Q)) cells) ->
                          List.length l = List.length mask).
  { intros l Hin. apply in_map_iff in Hin. destruct Hin as (l0 & <- & Hin).
    apply Hlen in Hin. destruct l0; simpl in *; lia. }
  specialize (IH _ Htl). rewrite map_map in IH.
  destruct b.
  - change (count_true (true :: mask)) with (S (count_true mask)).
    rewrite rows_of_cells_S. cbn [select]. rewrite <- IH, !map_map.
    f_equal.
    + apply map_ext_in. intros l Hin. apply Hlen in Hin.
      destruct l; [discriminate | reflexivity].
    + f_equal. apply map_ext_in. intros l Hin. apply Hlen in Hin.
      destruct l; [discriminate | reflexivity].
  - change (count_true (false :: mask)) with (count_true mask).
    cbn [select]. rewrite <- IH. f_equal.
    apply map_ext_in. intros l Hin. apply Hlen in Hin.
    destruct l; [discriminate | reflexivity].
Qed.

Lemma rows_of_select_rows (mask : list bool) (df : DataFrame) :
  well_formed df ->
  List.length mask = nrows df ->
  rows_of (select_rows mask df) = select mask (rows_of df).
Proof.
  intros Hwf Hlen. rewrite !rows_of_cells_eq.
  cbn [select_rows nrows columns]. rewrite map_map. cbn [snd].
  rewrite <- Hlen, <- rows_of_cells_select.
  - f_equal. rewrite map_map. apply map_ext. intro p0.
    apply numeric_cells_select.
  - intros l Hin. apply in_map_iff in Hin. destruct Hin as ([c s] & <- & Hin).
    cbn [snd]. rewrite length_numeric_cells, Hlen. exact (Hwf c s Hin).
Qed.

Lemma series_length_fillna_float (v : option Q) (s : series) :
  series_length (fillna_float v s) = series_length s.
Proof. destruct v, s; simpl; try reflexivity; apply length_map. Qed.

Lemma series_length_replay (c : string) (items : list (string * option Q))
  (s : series) :
  series_length (replay c items s) = series_length s.
Proof.
  unfold replay. revert s.
  induction items as [| [k v] items IH]; intro s; cbn [fold_left fst snd];
    [reflexivity |].
  destruct (String.eqb c k); rewrite IH;
    [apply series_length_fillna_float | reflexivity].
Qed.

Lemma get_apply_length (df : DataFrame) (info : option imputation_info)
  (c : string) (s' : series) :
  get (apply_basic_imputation_for_inference df info) c = Some s' ->
  exists s, get df c = Some s /\ series_length s' = series_length s.
Proof.
  destruct info as [info |].
  - rewrite get_apply_plan. destruct (get df c) as [s |]; [| discriminate].
    intros [= <-]. exists s. split; [reflexivity |].
    change (fillna 0 ?x) with (fillna_float (Some 0%Q) x).
    now rewrite series_length_fillna_float, !series_length_replay.
  - cbn [apply_basic_imputation_for_inference]. rewrite get_fillna_frame.
    destruct (get df c) as [s |]; [| discriminate].
    intros [= <-]. exists s. split; [reflexivity |].
    apply (series_length_fillna_float (Some 0%Q)).
Qed.

Lemma well_formed_inference_matrix (p : payload) (features : DataFrame) :
  well_formed features ->
  NoDup (labels features) ->
  well_formed (inference_matrix p features) /\
  nrows (inference_matrix p features) = nrows features.
Proof.
  intros Hwf Hnd. unfold inference_matrix, load_trained_model.
  split; [| cbn [reindex nrows]; now rewrite nrows_apply].
  intros c s Hin. cbn [reindex nrows columns] in *.
  rewrite nrows_apply. cbn [select_dtypes_number nrows].
  apply in_map_iff in Hin. destruct Hin as (c' & [= <- <-] & _).
  destruct (get (apply_basic_imputation_for_inference
                   (select_dtypes_number features) (payload_info p)) c')
    as [s' |] eqn:Es.
  - apply get_apply_length in Es. destruct Es as (s & Hs & ->).
    rewrite get_select_dtypes_number in Hs by exact Hnd.
    destruct (get features c') as [s0 |] eqn:E0; [| discriminate].
    destruct (is_numeric s0); [| discriminate]. injection Hs as <-.
    exact (@get_well_formed features c' s0 Hwf E0).
  - cbn [series_length]. now rewrite repeat_length, nrows_apply.
Qed.

Lemma inference_matrix_select_rows (p : payload) (features : DataFrame)
  (mask : list bool) :
  NoDup (labels features) ->
  List.length mask = nrows features ->
  inference_matrix p (select_rows mask features)
  = select_rows mask (inference_matrix p features).
Proof.
  intros Hnd Hlen. unfold inference_matrix, load_trained_model.
  apply frame_eq.
  - cbn [reindex nrows select_rows]. now rewrite nrows_apply.
  - cbn [reindex columns select_rows]. rewrite map_map. cbn [fst snd].
    apply map_ext. intro c. f_equal.
    rewrite !nrows_apply. cbn [select_dtypes_number nrows select_rows].
    destruct (get_apply (select_dtypes_number features) (payload_info p) c)
      as (g & _ & Hsel & Hga).
    rewrite !Hga, !get_select_dtypes_number, get_select_rows;
      [| exact Hnd | now rewrite labels_select_rows].
    destruct (get features c) as [s |]; cbn [option_map].
    + rewrite is_numeric_select_series.
      destruct (is_numeric s); cbn [option_map]; [apply Hsel |].
      cbn [select_series]. now rewrite select_repeat by lia.
    + cbn [select_series]. now rewrite select_repeat by lia.
Qed.

(** X14: prediction is row by row.  Predicting on a subset of the rows of a
    frame (a boolean mask over its rows) gives the predictions of these rows
    on the whole frame, in order, and the same warning: no statistic of the
    input frame enters the prepared matrix. *)
Theorem prediction_is_row_by_row (p : payload) (features : DataFrame)
  (mask : list bool) :
  well_formed features ->
  NoDup (labels features) ->
  List.length mask = nrows features ->
  exists preds,
    outcome (predict_vcvr_from_features p features) = Ok preds /\
    List.length preds = nrows features /\
    predict_vcvr_from_features p (select_rows mask features)
    = (printed (predict_vcvr_from_features p features),
       Ok (select mask preds)).
Proof.
  intros Hwf Hnd Hlen.
  exists (map (model p) (rows_of (inference_matrix p features))).
  destruct (well_formed_inference_matrix p features Hwf Hnd) as [HwfX HnX].
  split; [apply outcome_predict |].
  split; [now rewrite length_map, length_rows_of |].
  rewrite (surjective_pairing
             (predict_vcvr_from_features p (select_rows mask features))).
  change (fst ?c) with (printed c). change (snd ?c) with (outcome c).
  rewrite !printed_predict, outcome_predict.
  rewrite inference_matrix_select_rows by assumption.
  rewrite rows_of_select_rows, select_map by (try assumption; congruence).
  replace (missing_feature_columns p (select_rows mask features))
    with (missing_feature_columns p features); [reflexivity |].
  unfold missing_feature_columns. apply filter_ext. intro c.
  rewrite !mem_labels_get, !get_select_dtypes_number, get_select_rows;
    [| first [exact Hnd | now rewrite labels_select_rows] ..].
  destruct (get features c) as [s |]; cbn [option_map]; [| reflexivity].
  rewrite is_numeric_select_series. now destruct (is_numeric s).
Qed.

(** The second row of the sample frame, alone. *)
Lemma prediction_is_row_by_row_witness :
  predict_vcvr_from_features sample_payload
    (select_rows [false; true] sample_features)
  = ([WarnMissingFeatureColumns 1], Ok [0%Q]).
Proof.
  destruct (prediction_is_row_by_row sample_payload sample_features
              [false; true]) as (preds & Hp & _ & ->).
  - intros c s Hin. simpl in Hin.
    repeat (destruct Hin as [[= <- <-] | Hin]; [reflexivity |]).
    destruct Hin.
  - vm_compute. repeat constructor; simpl; intuition discriminate.
  - reflexivity.
  - vm_compute in Hp. injection Hp as <-. reflexivity.
Defined.

(** ** A dataset in which no row has a target *)

Lemma isnull_mean_empty (s : series) :
  series_length s = 0 -> isnull_mean s = None.
Proof.
  intro H. unfold isnull_mean, bool_mean. now rewrite length_isnull, H.
Qed.

Lemma filter_none {A : Type} (test : A -> bool) (l : list A) :
  (forall x, In x l -> test x = false) -> filter test l = [].
Proof.
  induction l as [| x l IH]; intro H; simpl; [reflexivity |].
  rewrite (H x (or_introl eq_refl)). apply IH. intros y Hy. apply H. now right.
Qed.

(** With no row, no column exceeds the pruning threshold. *)
Lemma cols_to_drop_no_rows (df : DataFrame) :
  well_formed df -> nrows df = 0 -> cols_to_drop df = [].
Proof.
  intros Hwf Hn. unfold cols_to_drop. apply filter_none. intros c _.
  destruct (mem c [TARGET_COL; "RANK"; "RANK_missing"]); [reflexivity |].
  unfold missing_ratio. destruct (get df c) as [s |] eqn:E; [| reflexivity].
  rewrite isnull_mean_empty; [reflexivity |].
  rewrite <- Hn. exact (@get_well_formed df c s Hwf E).
Qed.

(** X15: the edge of a dataset, with distinct ASCII labels and one cell per
    row in every column, in which no row has a target.  Fit, when it
    returns, gives a matrix with no row, prunes nothing, and still records a
    fill for every feature column other than RANK and its indicator: the
    count-like ones as zero-filled, the others with a missing median. *)
Theorem fit_without_usable_rows (f : string -> option (option Q))
  (raw : DataFrame) (r : fit_result) (target : series) :
  well_formed raw ->
  NoDup (labels raw) ->
  (forall c, In c (labels raw) -> is_ascii c = true) ->
  get raw TARGET_COL = Some target ->
  count_true (notnull target) = 0 ->
  outcome (clean_and_impute f raw) = Ok r ->
  nrows (fit_X r) = 0 /\
  dropped_cols (fit_info r) = [] /\
  zero_cols (fit_info r)
  = filter (fun c => negb (mem c special_impute_cols) && count_like c)
           (labels (fit_X r)) /\
  forall c,
    In c (labels (fit_X r)) ->
    mem c special_impute_cols = false ->
    count_like c = false ->
    lookup c (median_cols (fit_info r)) = Some None.
Proof.
  intros Hwf Hnd _ Hg Hnone H.
  destruct (fit_has_trace f raw r Hnd H)
    as (target' & df2 & sc & Hg' & H2 & Hnd2 & Hndn & Hlab & Hloop & _).
  rewrite Hg in Hg'. injection Hg' as <-.
  cbv zeta in *. set (df3 := drop df2 (cols_to_drop df2)) in *.
  set (df1 := select_rows (notnull target) raw) in *.
  assert (Hwf1 : well_formed df1).
  { apply well_formed_select_rows; [exact Hwf |].
    now apply (@get_well_formed raw TARGET_COL). }
  destruct (@well_formed_rank_block df1 df2 sc Hwf1 H2) as [Hwf2 Hn2].
  assert (Hn2' : nrows df2 = 0) by (rewrite Hn2; exact Hnone).
  pose proof (cols_to_drop_no_rows df2 Hwf2 Hn2') as Hdrop.
  assert (Hwf3 : well_formed df3) by now apply well_formed_drop.
  assert (Hnd3 : NoDup (labels df3)) by now apply NoDup_labels_drop.
  pose proof (@foldM_impute_run _ _ _ Hloop) as Hrun.
  pose proof (run_nrows Hrun) as HnX. cbn [fst] in HnX.
  pose proof (run_labels Hrun) as HlX. cbn [fst] in HlX.
  pose proof (run_dropped Hrun) as Hd. cbn [snd dropped_cols] in Hd.
  destruct (foldM_impute_plan _ _ _ Hndn Hloop) as [Hz Hm].
  cbn [fst snd zero_cols median_cols app lookup] in Hz, Hm.
  assert (Hcol : forall c, In c (num_cols_of df3) ->
            get (features_of df3) c = Some (NumCol [])).
  { intros c Hc.
    destruct (features_of_get_numeric df3 c Hnd3 Hc) as [l Hl].
    pose proof (@get_well_formed (features_of df3) c (NumCol l)
                  (well_formed_features_of df3 Hnd3 Hwf3) Hl) as Hlen.
    cbn [series_length features_of getitem_cols feature_frame drop nrows]
      in Hlen.
    fold df3 in Hlen. unfold df3 in Hlen at 1. cbn [drop nrows] in Hlen.
    rewrite Hn2' in Hlen. apply length_zero_iff_nil in Hlen. now subst. }
  split; [rewrite HnX; exact Hn2' |].
  split; [now rewrite Hd |].
  rewrite HlX, Hlab. split.
  - rewrite Hz. apply filter_ext_in. intros c Hc.
    unfold zero_filled, needs_fill. rewrite (Hcol c Hc).
    change (isnull_mean (NumCol [])) with (@None Q).
    cbn [is_zero negb]. now rewrite andb_true_r.
  - intros c Hc Hsp Hcl. rewrite Hm, (proj2 (mem_In c _) Hc).
    unfold median_filled, needs_fill, column_median.
    rewrite (Hcol c Hc), Hsp, Hcl. reflexivity.
Qed.

(** Two rows, no target: the count is listed as zero-filled, x with a
    missing median. *)
Lemma fit_without_usable_rows_witness :
  exists r,
    outcome (clean_and_impute no_float no_target_sample) = Ok r /\
    nrows (fit_X r) = 0 /\
    dropped_cols (fit_info r) = [] /\
    lookup "x" (median_cols (fit_info r)) = Some None.
Proof.
  destruct (outcome (clean_and_impute no_float no_target_sample))
    as [r | e] eqn:E; [| vm_compute in E; discriminate].
  exists r. split; [reflexivity |].
  destruct (fit_without_usable_rows no_float no_target_sample r
              (NumCol [None; None])) as (Hn & Hd & _ & Hm).
  - intros c s Hin. simpl in Hin.
    repeat (destruct Hin as [[= <- <-] | Hin]; [reflexivity |]).
    destruct Hin.
  - vm_compute. repeat constructor; simpl; intuition discriminate.
  - intros c Hc. simpl in Hc. intuition (subst; reflexivity).
  - reflexivity.
  - reflexivity.
  - exact E.
  - split; [exact Hn |]. split; [exact Hd |]. apply Hm; [| reflexivity ..].
    assert (Hl : option_map (fun r => labels (fit_X r))
                   (ok (clean_and_impute no_float no_target_sample))
                 = Some (labels (fit_X r))).
    { unfold ok. now rewrite E. }
    set (L := labels (fit_X r)) in *. clearbody L.
    vm_compute in Hl. injection Hl as <-. simpl. tauto.
Defined.

(** ** The debugging script *)

Lemma error_section_cases (df : DataFrame) :
  (get df "ERROR" = None /\ error_section df = ([NoErrorColumn], Ok tt))
  \/ (exists err url,
        get df "ERROR" = Some err /\ get df "URL" = Some url /\
        error_section df
        = ([ErrorColumnFound; ErrorMissing (count_true (isnull err));
            ErrorNonNull (count_true (notnull err)); SampleHeader;
            SampleRows (firstn 10 (combine (keys_of url) (keys_of err)))],
           Ok tt))
  \/ (exists err,
        get df "ERROR" = Some err /\ get df "URL" = None /\
        error_section df
        = ([ErrorColumnFound; ErrorMissing (count_true (isnull err));
            ErrorNonNull (count_true (notnull err)); SampleHeader],
           Raise (KeyError "URL"))).
Proof.
  unfold error_section.
  destruct (get df "ERROR") as [err |]; [| now left].
  destruct (get df "URL") as [url |]; right; [left | right]; eauto.
Qed.

Lemma not_in_column_lines (df : DataFrame) (x : debug_line) :
  In x (column_lines df) ->
  x = ColumnsHeader \/ exists i col, x = ColumnListed i col.
Proof.
  unfold column_lines. intros [<- | Hin]; [now left | right].
  apply in_map_iff in Hin. destruct Hin as ([i col] & <- & _). eauto.
Qed.

(** X16: the debugging script completes exactly when the file has no ERROR
    column or has a URL column.  With ERROR and without URL it stops with
    KeyError at the sample of part 1: its last line is the sample's header,
    and the parts that list the columns, the unusual names and the missing
    values are never printed. *)
Theorem debug_script_needs_url
  (sort : list (string * nat) -> list (string * nat)) (df : DataFrame) :
  (snd (debug_error_column sort df) = Ok tt
   <-> ~ In "ERROR" (labels df) \/ In "URL" (labels df)) /\
  (snd (debug_error_column sort df) <> Ok tt ->
   snd (debug_error_column sort df) = Raise (KeyError "URL") /\
   (exists before, fst (debug_error_column sort df)
                   = before ++ [SampleHeader]) /\
   ~ In ColumnsHeader (fst (debug_error_column sort df)) /\
   ~ In UnusualHeader (fst (debug_error_column sort df)) /\
   ~ In MissingHeader (fst (debug_error_column sort df))).
Proof.
  unfold debug_error_column.
  destruct (error_section_cases df)
    as [(He & ->) | [(err & url & He & Hu & ->) | (err & He & Hu & ->)]];
    cbn [fst snd].
  - split; [| intro H; now contradiction H].
    split; [intros _ | reflexivity]. left. now apply lookup_None.
  - split; [| intro H; now contradiction H].
    split; [intros _ | reflexivity]. right.
    exact (@lookup_label _ "URL" _ url Hu).
  - split.
    + split; [discriminate |]. intros [Hno | Hin]; exfalso.
      * apply Hno. exact (@lookup_label _ "ERROR" _ err He).
      * revert Hin. now apply lookup_None.
    + intros _. split; [reflexivity |]. split.
      * eexists [_; _; _; _; _; _; _; _; _]. reflexivity.
      * repeat split; simpl; intuition discriminate.
Qed.

(** A file with an ERROR column and no URL column. *)
Lemma debug_script_needs_url_witness :
  snd (debug_error_column (fun l => l) error_without_url)
  = Raise (KeyError "URL").
Proof.
  apply (debug_script_needs_url (fun l => l) error_without_url).
  vm_compute. discriminate.
Defined.

Lemma debug_completes
  (sort : list (string * nat) -> list (string * nat)) (df : DataFrame) :
  snd (debug_error_column sort df) = Ok tt ->
  fst (debug_error_column sort df)
  = [Rule; Title; Rule; LoadedFile;
     Shape (nrows df) (List.length (columns df));
     ColumnCount (List.length (columns df))]
    ++ fst (error_section df) ++ column_lines df ++ unusual_lines df
    ++ missing_lines sort df.
Proof.
  unfold debug_error_column.
  destruct (error_section df) as [lines [[] | e]]; cbn [fst snd];
    [reflexivity | discriminate].
Qed.

Lemma error_column_is_unusual (df : DataFrame) :
  In "ERROR" (labels df) -> In "ERROR" (unusual_columns df).
Proof.
  intro H. unfold unusual_columns. apply filter_In. split; [exact H |].
  reflexivity.
Qed.

(** X17: the two parts of the report agree on the ERROR column.  When the
    script completes on a file with an ERROR column, part 1 reports the
    column as found and part 3 lists it among the unusual names; part 3 never
    says that there are none. *)
Theorem error_column_is_reported_twice
  (sort : list (string * nat) -> list (string * nat)) (df : DataFrame) :
  In "ERROR" (labels df) ->
  snd (debug_error_column sort df) = Ok tt ->
  In ErrorColumnFound (fst (debug_error_column sort df)) /\
  (exists cols, In (UnusualFound cols) (fst (debug_error_column sort df))
                /\ In "ERROR" cols) /\
  ~ In NoUnusual (fst (debug_error_column sort df)).
Proof.
  intros Herr Hok. rewrite (debug_completes sort df Hok).
  pose proof (error_column_is_unusual df Herr) as Hun.
  assert (Hlines : exists cols, unusual_lines df
                                = [UnusualHeader; UnusualFound cols]
                                /\ In "ERROR" cols).
  { unfold unusual_lines. destruct (unusual_columns df) as [| c cols];
      [destruct Hun |]. eauto. }
  destruct Hlines as (cols & Hl & Hcols). rewrite Hl.
  destruct (error_section_cases df)
    as [(He & _) | [(err & url & _ & _ & ->) | (err & He & Hu & Hs)]].
  - exfalso. revert Herr. now apply lookup_None.
  - cbn [fst]. split; [| split].
    + apply in_or_app. right. now left.
    + exists cols. split; [| exact Hcols].
      do 3 (apply in_or_app; right). right. now left.
    + intro Hin.
      repeat (apply in_app_or in Hin; destruct Hin as [Hin | Hin]);
        try (simpl in Hin; intuition discriminate).
      * apply not_in_column_lines in Hin.
        destruct Hin as [E | (i & col & E)]; discriminate.
      * unfold missing_lines in Hin. simpl in Hin.
        destruct Hin as [E | [E | []]]; [discriminate |].
        destruct (Nat.ltb 0 _) in E; discriminate.
  - exfalso. unfold debug_error_column in Hok. rewrite Hs in Hok.
    discriminate.
Qed.

(** A file with URL and ERROR columns. *)
Lemma error_column_is_reported_twice_witness :
  In ErrorColumnFound (fst (debug_error_column (fun l => l) error_with_url))
  /\ ~ In NoUnusual (fst (debug_error_column (fun l => l) error_with_url)).
Proof.
  destruct (error_column_is_reported_twice (fun l => l) error_with_url)
    as (H1 & _ & H3).
  - simpl. tauto.
  - reflexivity.
  - split; [exact H1 | exact H3].
Defined.

Lemma positive_count_true (l : list bool) :
  Nat.ltb 0 (count_true l) = existsb (fun b => b) l.
Proof.
  unfold count_true. induction l as [| [|] l IH]; simpl; auto.
Qed.

Lemma positive_missing_total (df : DataFrame) :
  Nat.ltb 0 (list_sum (map snd (missing_counts df))) = frame_has_null df.
Proof.
  unfold missing_counts, frame_has_null. rewrite map_map. cbn [snd].
  induction (columns df) as [| [c s] cols IH]; [reflexivity |].
  cbn [map list_sum existsb snd]. rewrite <- IH.
  unfold series_has_null. rewrite <- positive_count_true.
  destruct (count_true (isnull s)); [reflexivity |].
  simpl. now destruct (Nat.ltb 0 _).
Qed.

(** X18: the counts of the report are those of the file.  When the script
    completes, the two counts that part 1 prints for the ERROR column add up
    to the length of the column, and part 4 says that no value is missing
    exactly when no cell of the file is missing. *)
Theorem debug_report_counts
  (sort : list (string * nat) -> list (string * nat)) (df : DataFrame) :
  snd (debug_error_column sort df) = Ok tt ->
  (forall err m n,
      get df "ERROR" = Some err ->
      In (ErrorMissing m) (fst (debug_error_column sort df)) ->
      In (ErrorNonNull n) (fst (debug_error_column sort df)) ->
      m + n = series_length err) /\
  (In NoMissing (fst (debug_error_column sort df))
   <-> frame_has_null df = false).
Proof.
  intro Hok. rewrite (debug_completes sort df Hok).
  assert (Hpart : forall x,
            In x ([Rule; Title; Rule; LoadedFile;
                   Shape (nrows df) (List.length (columns df));
                   ColumnCount (List.length (columns df))]
                  ++ fst (error_section df) ++ column_lines df
                  ++ unusual_lines df ++ missing_lines sort df) ->
            (forall k, x <> ErrorMissing k) \/ In x (fst (error_section df))).
  { intros x Hin.
    repeat (apply in_app_or in Hin; destruct Hin as [Hin | Hin]).
    - left. intro k. simpl in Hin. intuition (subst; discriminate).
    - now right.
    - left. intro k. apply not_in_column_lines in Hin.
      destruct Hin as [-> | (i & col & ->)]; discriminate.
    - left. intro k. unfold unusual_lines in Hin. simpl in Hin.
      destruct Hin as [<- | [<- | []]]; [discriminate |].
      destruct (unusual_columns df); discriminate.
    - left. intro k. unfold missing_lines in Hin. simpl in Hin.
      destruct Hin as [<- | [<- | []]]; [discriminate |].
      destruct (Nat.ltb 0 _); discriminate. }
  split.
  - intros err m n He Hm Hn.
    assert (Hm' : In (ErrorMissing m) (fst (error_section df))).
    { destruct (Hpart _ Hm) as [H | H]; [now contradiction (H m) | exact H]. }
    assert (Hn' : In (ErrorNonNull n) (fst (error_section df))).
    { clear - Hn.
      repeat (apply in_app_or in Hn; destruct Hn as [Hn | Hn]);
        try exact Hn; exfalso.
      - simpl in Hn. intuition discriminate.
      - apply not_in_column_lines in Hn.
        destruct Hn as [E | (i & col & E)]; discriminate.
      - unfold unusual_lines in Hn. simpl in Hn.
        destruct Hn as [E | [E | []]]; [discriminate |].
        destruct (unusual_columns df); discriminate.
      - unfold missing_lines in Hn. simpl in Hn.
        destruct Hn as [E | [E | []]]; [discriminate |].
        destruct (Nat.ltb 0 _); discriminate. }
    unfold error_section in Hm', Hn'. rewrite He in Hm', Hn'.
    assert (Em : m = count_true (isnull err)).
    { destruct (get df "URL"); simpl in Hm';
        intuition (try discriminate; congruence). }
    assert (En : n = count_true (notnull err)).
    { destruct (get df "URL"); simpl in Hn';
        intuition (try discriminate; congruence). }
    subst m n. unfold notnull.
    rewrite Nat.add_comm, count_true_negb. apply length_isnull.
  - rewrite <- positive_missing_total. split.
    + intro Hin.
      repeat (apply in_app_or in Hin; destruct Hin as [Hin | Hin]).
      * exfalso. simpl in Hin. intuition discriminate.
      * exfalso. unfold error_section in Hin.
        destruct (get df "ERROR"); [destruct (get df "URL") |];
          simpl in Hin; intuition discriminate.
      * exfalso. apply not_in_column_lines in Hin.
        destruct Hin as [E | (i & col & E)]; discriminate.
      * exfalso. unfold unusual_lines in Hin. simpl in Hin.
        destruct Hin as [E | [E | []]]; [discriminate |].
        destruct (unusual_columns df); discriminate.
      * unfold missing_lines in Hin. simpl in Hin.
        destruct Hin as [E | [E | []]]; [discriminate |].
        destruct (Nat.ltb 0 _); [discriminate | reflexivity].
    + intro H. do 4 (apply in_or_app; right).
      unfold missing_lines. rewrite H. right. now left.
Qed.

(** The file with URL and ERROR columns: one missing ERROR cell and one that
    is not, and a report of missing values. *)
Lemma debug_report_counts_witness :
  1 + 1 = series_length (ObjCol [None; str "timeout"]) /\
  ~ In NoMissing (fst (debug_error_column (fun l => l) error_with_url)).
Proof.
  destruct (debug_report_counts (fun l => l) error_with_url) as [Hc Hm];
    [reflexivity |].
  split.
  - apply Hc; [reflexivity | simpl; tauto | simpl; tauto].
  - intro H. apply Hm in H. vm_compute in H. discriminate.
Defined.

(** ** The order of the input columns *)

Lemma lookup_Permutation {A : Type} (l1 l2 : list (string * A)) (c : string) :
  NoDup (map fst l1) -> Permutation l1 l2 -> lookup c l1 = lookup c l2.
Proof.
  intros Hnd Hp.
  assert (Hnd2 : NoDup (map fst l2)).
  { apply (Permutation_NoDup (l := map fst l1)); [| exact Hnd].
    now apply Permutation_map. }
  destruct (lookup c l1) as [v |] eqn:E1.
  - apply lookup_Some_In in E1. symmetry. apply lookup_NoDup; [exact Hnd2 |].
    now apply (Permutation_in (l := l1)).
  - symmetry. apply lookup_None. apply lookup_None in E1. intro Hin. apply E1.
    apply (Permutation_in (l := map fst l2)); [| exact Hin].
    apply Permutation_map. now apply Permutation_sym.
Qed.

(** X19: the order of the input columns is irrelevant at inference: two
    frames with the same labelled columns in any order get the same prepared
    matrix, the same predictions and the same warning. *)
Theorem input_column_order_is_irrelevant (p : payload) (f1 f2 : DataFrame) :
  NoDup (labels f1) ->
  nrows f1 = nrows f2 ->
  Permutation (columns f1) (columns f2) ->
  inference_matrix p f1 = inference_matrix p f2 /\
  predict_vcvr_from_features p f1 = predict_vcvr_from_features p f2.
Proof.
  intros Hnd Hn Hp.
  assert (Hnd2 : NoDup (labels f2)).
  { apply (Permutation_NoDup (l := labels f1)); [| exact Hnd].
    now apply Permutation_map. }
  destruct (matrix_eq_by_columns p f1 f2 Hn) as [HX Hm].
  - intros c _. rewrite !get_select_dtypes_number by assumption.
    unfold get. now rewrite (lookup_Permutation (columns f1) (columns f2) c).
  - split; [exact HX | now apply predict_eq].
Qed.

(** The sample frame with its columns in another order. *)
Lemma input_column_order_is_irrelevant_witness :
  predict_vcvr_from_features sample_payload
    (mkFrame 2 [("clicks_count", NumCol [num 4; None]);
                ("x", NumCol [None; num 2]);
                ("extra", NumCol [None; num 8]);
                ("RANK", NumCol [None; num 2]);
                ("note", ObjCol [None; str "n"])])
  = predict_vcvr_from_features sample_payload sample_features.
Proof.
  apply (input_column_order_is_irrelevant sample_payload).
  - vm_compute. repeat constructor; simpl; intuition discriminate.
  - reflexivity.
  - exact (Permutation_app_comm
             [("clicks_count", NumCol [num 4; None])]
             [("x", NumCol [None; num 2]);
              ("extra", NumCol [None; num 8]);
              ("RANK", NumCol [None; num 2]);
              ("note", ObjCol [None; str "n"])]).
Defined.

(** ** Rows without target *)

Lemma bind_from_same {A B : Type} (c1 c2 : M A) (k : A -> M B) (a : A) :
  outcome c1 = Ok a ->
  outcome c2 = Ok a ->
  outcome (bind c1 k) = outcome (bind c2 k) /\
  exists rest,
    printed (bind c1 k) = printed c1 ++ rest /\
    printed (bind c2 k) = printed c2 ++ rest.
Proof.
  intros H1 H2. rewrite !outcome_bind, !printed_bind, H1, H2.
  split; [reflexivity | eauto].
Qed.

Lemma count_true_repeat (n : nat) : count_true (repeat true n) = n.
Proof. unfold count_true. induction n; simpl; congruence. Qed.

Lemma select_all {A : Type} (l : list A) (n : nat) :
  List.length l <= n -> select (repeat true n) l = l.
Proof.
  revert n. induction l as [| x l IH]; intros [| n] H; simpl in *;
    try reflexivity; try lia.
  now rewrite IH by lia.
Qed.

Lemma notnull_of_kept {A : Type} (l : list (option A)) :
  map negb (map is_none (select (map negb (map is_none l)) l))
  = repeat true (count_true (map negb (map is_none l))).
Proof.
  unfold count_true. induction l as [| [x |] l IH]; simpl;
    [reflexivity | now rewrite IH | exact IH].
Qed.

Lemma notnull_select_notnull (t : series) :
  notnull (select_series (notnull t) t)
  = repeat true (count_true (notnull t)).
Proof. destruct t as [l | l]; apply notnull_of_kept. Qed.

Lemma select_rows_all (df : DataFrame) :
  well_formed df -> select_rows (repeat true (nrows df)) df = df.
Proof.
  intro Hwf. apply frame_eq; cbn [select_rows nrows columns].
  - apply count_true_repeat.
  - rewrite <- (map_id (columns df)) at 2. apply map_ext_in.
    intros [c s] Hin. cbn [fst snd]. f_equal.
    pose proof (Hwf c s Hin) as Hlen.
    destruct s as [l | l]; cbn [select_series series_length] in *;
      now rewrite select_all by lia.
Qed.

Lemma printed_drop_missing_target (df : DataFrame) (t : series) :
  get df TARGET_COL = Some t ->
  printed (drop_missing_target df)
  = [DroppedRows (nrows df - count_true (notnull t))].
Proof. intro H. unfold drop_missing_target. now rewrite H. Qed.

(** X20: rows without target have no influence on fit.  Fitting the dataset
    and fitting only its rows that have a target give the same outcome (the
    same matrix, target, plan and weights, or the same exception) and print
    the same lines but for the number of dropped rows, which is 0 on the
    second. *)
Theorem rows_without_target_do_not_matter (f : string -> option (option Q))
  (raw : DataFrame) (target : series) :
  well_formed raw ->
  get raw TARGET_COL = Some target ->
  let kept := select_rows (notnull target) raw in
  outcome (clean_and_impute f kept) = outcome (clean_and_impute f raw) /\
  exists rest,
    printed (clean_and_impute f raw)
    = DroppedRows (count_true (isnull target)) :: rest /\
    printed (clean_and_impute f kept) = DroppedRows 0 :: rest.
Proof.
  intros Hwf Hg kept.
  pose proof (@get_well_formed raw TARGET_COL target Hwf Hg) as Hlen.
  assert (Hwf1 : well_formed kept) by now apply well_formed_select_rows.
  assert (Hg1 : get kept TARGET_COL
                = Some (select_series (notnull target) target)).
  { unfold kept. now rewrite get_select_rows, Hg. }
  assert (Hn1 : nrows kept = count_true (notnull target)) by reflexivity.
  assert (H1 : outcome (drop_missing_target raw) = Ok kept)
    by now apply drop_missing_target_ok.
  assert (H2 : outcome (drop_missing_target kept) = Ok kept).
  { rewrite (@drop_missing_target_ok kept _ Hg1).
    rewrite notnull_select_notnull, <- Hn1. f_equal.
    now apply select_rows_all. }
  unfold clean_and_impute.
  match goal with
  | |- outcome (bind _ ?k) = _ /\ _ =>
      destruct (bind_from_same (drop_missing_target raw)
                  (drop_missing_target kept) k kept H1 H2)
        as (Ho & rest & P1 & P2)
  end.
  split; [now symmetry |]. exists rest.
  rewrite P1, P2.
  rewrite (printed_drop_missing_target raw target Hg).
  rewrite (printed_drop_missing_target kept _ Hg1).
  rewrite notnull_select_notnull, count_true_repeat, Hn1, Nat.sub_diag.
  cbn [select_rows nrows app]. split; [| reflexivity].
  do 2 f_equal. unfold notnull.
  rewrite <- Hlen, <- length_isnull.
  rewrite <- (count_true_negb (isnull target)). lia.
Qed.

(** The sample whose third row has no target. *)
Lemma rows_without_target_do_not_matter_witness :
  outcome (clean_and_impute no_float
             (select_rows [true; true; false; true] full_sample))
  = outcome (clean_and_impute no_float full_sample).
Proof.
  apply (rows_without_target_do_not_matter no_float full_sample
           (NumCol [Some (1 # 10); Some (2 # 10); None; Some (3 # 10)]%Q)).
  - intros c s Hin. simpl in Hin.
    repeat (destruct Hin as [[= <- <-] | Hin]; [reflexivity |]).
    destruct Hin.
  - reflexivity.
Defined.

(** ** What fit prints about its fills *)

Lemma printed_impute_col (st st' : DataFrame * imputation_info)
  (col : string) :
  outcome (impute_col st col) = Ok st' ->
  printed (impute_col st col) = fill_line (fst st) col.
Proof.
  destruct st as [fdf info]. unfold impute_col, fill_line.
  unfold zero_filled, median_filled, needs_fill, column_median. cbn [fst].
  destruct (mem col special_impute_cols); [reflexivity |].
  destruct (get fdf col) as [s |]; [| discriminate].
  destruct (is_zero (isnull_mean s)); [reflexivity |].
  destruct (count_like col); [reflexivity |].
  destruct s as [l | l]; [reflexivity | discriminate].
Qed.

Lemma flat_map_ext_names {A B : Type} (g h : A -> list B) (l : list A) :
  (forall a, In a l -> g a = h a) -> flat_map g l = flat_map h l.
Proof.
  induction l as [| a l IH]; intro H; simpl; [reflexivity |].
  rewrite (H a (or_introl eq_refl)), IH; [reflexivity |].
  intros b Hb. apply H. now right.
Qed.

Lemma printed_foldM_impute (names : list string) :
  forall st st',
    NoDup names ->
    outcome (foldM impute_col names st) = Ok st' ->
    printed (foldM impute_col names st) = flat_map (fill_line (fst st)) names.
Proof.
  induction names as [| col names IH]; intros st st' Hnd H; [reflexivity |].
  cbn [foldM flat_map] in *. apply bind_ok_full in H.
  destruct H as (st1 & H1 & H & ->).
  inversion Hnd as [| ? ? Hcol Hnd']; subst.
  pose proof (@impute_col_step _ _ _ H1) as Hstep.
  rewrite (printed_impute_col st st1 col H1), (IH _ _ Hnd' H). f_equal.
  apply flat_map_ext_names. intros c Hc.
  unfold fill_line, zero_filled, median_filled, needs_fill, column_median.
  rewrite (step_get Hstep).
  destruct (String.eqb_spec c col) as [-> | Hne]; [contradiction |].
  reflexivity.
Qed.

Lemma In_fill_lines (fdf : DataFrame) (names : list string) (m : message) :
  In m (flat_map (fill_line fdf) names) <->
  exists c, In c names /\
            ((zero_filled fdf c = true /\ m = FilledZero c)
             \/ (median_filled fdf c = true
                 /\ m = FilledMedian c (column_median fdf c))).
Proof.
  rewrite in_flat_map. unfold fill_line, zero_filled, median_filled.
  split; intros (c & Hc & H); exists c; (split; [exact Hc |]).
  - destruct (needs_fill fdf c), (count_like c); simpl in *;
      intuition (subst; auto).
  - destruct (needs_fill fdf c), (count_like c); simpl in *;
      intuition (subst; try discriminate; auto).
Qed.

Lemma printed_for_each_print {A : Type} (g : A -> message) (l : list A) :
  printed (for_each (fun a => print (g a)) l) = map g l.
Proof.
  induction l as [| a l IH]; cbn [for_each map]; [reflexivity |].
  rewrite printed_bind, outcome_print, IH. reflexivity.
Qed.

Lemma printed_prune (df : DataFrame) :
  filter plan_line (printed (prune_columns df))
  = map (fun c => DroppedColumn c (missing_ratio df c)) (cols_to_drop df).
Proof.
  unfold prune_columns. rewrite printed_bind.
  destruct (cols_to_drop df) as [| c l] eqn:E; [reflexivity |].
  rewrite outcome_bind, outcome_print, outcome_for_each_print.
  rewrite printed_bind, outcome_print, printed_for_each_print.
  cbn [print printed fst ret app]. rewrite app_nil_r.
  cbn [filter plan_line]. f_equal.
  apply filter_all. intros m Hm. apply in_map_iff in Hm.
  now destruct Hm as (k & <- & _).
Qed.

Lemma printed_handle_rank (df : DataFrame) :
  filter plan_line (printed (handle_rank df)) = [].
Proof.
  unfold handle_rank. destruct (get df "RANK") as [rank |]; [| reflexivity].
  fold (with_rank_sentinel df rank).
  set (df' := with_rank_sentinel df rank).
  rewrite printed_bind, outcome_print. cbn [print printed fst app].
  cbn [filter plan_line].
  rewrite printed_bind.
  assert (Hcs : forall d, printed (category_stats d) = []).
  { intro d. unfold category_stats.
    destruct (get d "Category"); [| reflexivity].
    destruct (get d TARGET_COL) as [[t | t] |]; reflexivity. }
  assert (H1 : printed (if mem "Category" (labels df')
                        then (s <- category_stats df' ;; ret (Some s))
                        else ret None) = []).
  { destruct (mem "Category" (labels df')); [| reflexivity].
    rewrite printed_bind, Hcs. now destruct (outcome (category_stats df')). }
  rewrite H1. cbn [app].
  destruct (outcome _) as [[stats |] | e]; try reflexivity.
  rewrite printed_bind. cbn [ret printed outcome fst snd app].
  rewrite printed_bind.
  assert (Hm : printed (merge_left df' stats) = []).
  { unfold merge_left. destruct (get df' "Category"); [| reflexivity].
    cbv zeta. now destruct (distinct _). }
  rewrite Hm. cbn [app].
  destruct (outcome (merge_left df' stats)); reflexivity.
Qed.

Lemma printed_astype_float (f : string -> option (option Q)) (s : series) :
  printed (astype_float f s) = [].
Proof. destruct s; reflexivity. Qed.

Lemma printed_sample_weights (f : string -> option (option Q))
  (df X : DataFrame) :
  filter plan_line (printed (sample_weights f df X)) = [].
Proof.
  unfold sample_weights. rewrite printed_bind, filter_app.
  assert (Hb : filter plan_line (printed (base_weights f df X)) = []).
  { unfold base_weights. destruct (get df "Clicks") as [s |]; [| reflexivity].
    rewrite printed_bind, printed_astype_float.
    now destruct (outcome (astype_float f s)). }
  rewrite Hb. cbn [app].
  destruct (outcome (base_weights f df X)); [| reflexivity].
  destruct (get df INTERNAL_FLAG_COL); reflexivity.
Qed.

(** The plan lines of the log of a fit that returns: one per pruned column,
    then one per filled column. *)
Lemma fit_plan_lines (f : string -> option (option Q)) (raw : DataFrame)
  (r : fit_result) :
  outcome (clean_and_impute f raw) = Ok r ->
  exists df1 df2 sc,
    outcome (drop_missing_target raw) = Ok df1 /\
    outcome (handle_rank df1) = Ok (df2, sc) /\
    filter plan_line (printed (clean_and_impute f raw))
    = map (fun c => DroppedColumn c (missing_ratio df2 c)) (cols_to_drop df2)
      ++ filter plan_line
           (printed (foldM impute_col
                       (num_cols_of (drop df2 (cols_to_drop df2)))
                       (features_of (drop df2 (cols_to_drop df2)),
                        mkInfo [] [] (cols_to_drop df2) sc))).
Proof.
  unfold clean_and_impute. intro H.
  apply bind_ok_full in H. destruct H as (df1 & H1 & H & P1).
  apply bind_ok_full in H. destruct H as ([df2 sc] & H2 & H & P2).
  apply bind_ok_full in H. destruct H as ([df3 dropped] & H3 & H & P3).
  rewrite outcome_prune in H3. injection H3 as <- <-.
  apply bind_ok_full in H. destruct H as (target & H4 & H & P4).
  apply bind_ok_full in H. destruct H as ([X info] & H5 & H & P5).
  apply bind_ok_full in H. destruct H as ([] & H6 & H & P6).
  apply bind_ok_full in H. destruct H as ([] & H7 & H & P7).
  apply bind_ok_full in H. destruct H as ([] & H8 & H & P8).
  apply bind_ok_full in H. destruct H as (w & H9 & H & P9).
  exists df1, df2, sc. split; [exact H1 |]. split; [exact H2 |].
  rewrite P1, P2, P3, P4, P5, P6, P7, P8, P9. rewrite !filter_app.
  rewrite printed_handle_rank, printed_prune, printed_sample_weights.
  assert (Hd : filter plan_line (printed (drop_missing_target raw)) = []).
  { unfold drop_missing_target. now destruct (get raw TARGET_COL). }
  assert (Ht : filter plan_line
                 (printed match get (drop df2 (cols_to_drop df2)) TARGET_COL
                          with
                          | Some t => astype_float f t
                          | None => raise (KeyError TARGET_COL)
                          end) = []).
  { destruct (get (drop df2 (cols_to_drop df2)) TARGET_COL);
      [now rewrite printed_astype_float | reflexivity]. }
  assert (Hs : filter plan_line (printed (safety_check X)) = []).
  { rewrite printed_safety_check. now destruct (frame_has_null X). }
  rewrite Hd, Ht, Hs. cbn [app print printed fst filter plan_line ret].
  now rewrite !app_nil_r.
Qed.

(** X21: on a dataset with distinct labels, the log of a fit that returns
    and its plan tell the same story.  A column has a zero-fill line exactly
    when the plan lists it in [zero_cols]; it has a median-fill line exactly
    when [median_cols] has an entry for it, and the value formatted into that
    line is the entry's; it has a dropped line exactly when the plan lists it
    in [dropped_cols]. *)
Theorem fit_log_matches_plan (f : string -> option (option Q))
  (raw : DataFrame) (r : fit_result) :
  NoDup (labels raw) ->
  outcome (clean_and_impute f raw) = Ok r ->
  (forall c, In (FilledZero c) (printed (clean_and_impute f raw))
             <-> In c (zero_cols (fit_info r))) /\
  (forall c m, In (FilledMedian c m) (printed (clean_and_impute f raw))
               <-> lookup c (median_cols (fit_info r)) = Some m) /\
  (forall c, (exists ratio, In (DroppedColumn c ratio)
                               (printed (clean_and_impute f raw)))
             <-> In c (dropped_cols (fit_info r))).
Proof.
  intros Hnd H.
  destruct (fit_has_trace f raw r Hnd H)
    as (target & df2 & sc & Hg & H2 & _ & Hndn & Hlab & Hloop & _).
  destruct (fit_plan_lines f raw r H) as (df1 & df2' & sc' & H1 & H2' & Hlog).
  apply drop_missing_target_inv in H1. destruct H1 as (t & Hg' & ->).
  rewrite Hg in Hg'. injection Hg' as <-.
  rewrite H2 in H2'. injection H2' as <- <-.
  cbv zeta in *. set (df3 := drop df2 (cols_to_drop df2)) in *.
  rewrite (printed_foldM_impute _ _ _ Hndn Hloop) in Hlog. cbn [fst] in Hlog.
  pose proof (@foldM_impute_run _ _ _ Hloop) as Hrun.
  pose proof (run_dropped Hrun) as Hd. cbn [snd dropped_cols] in Hd.
  destruct (foldM_impute_plan _ _ _ Hndn Hloop) as [Hz Hm].
  cbn [fst snd zero_cols median_cols app lookup] in Hz, Hm.
  set (fdf := features_of df3) in *. set (names := num_cols_of df3) in *.
  assert (Hin : forall m, plan_line m = true ->
            (In m (printed (clean_and_impute f raw)) <->
             In m (map (fun c => DroppedColumn c (missing_ratio df2 c))
                       (cols_to_drop df2))
             \/ In m (flat_map (fill_line fdf) names))).
  { intros m Hpl. split.
    - intro Hm'.
      assert (Hf : In m (filter plan_line (printed (clean_and_impute f raw))))
        by (apply filter_In; now split).
      rewrite Hlog in Hf. apply in_app_or in Hf.
      destruct Hf as [Hf | Hf]; [now left | right].
      now apply filter_In in Hf.
    - intro Hm'.
      assert (Hf : In m (filter plan_line (printed (clean_and_impute f raw)))).
      { rewrite Hlog. apply in_or_app.
        destruct Hm' as [Hm' | Hm']; [now left | right].
        apply filter_In. now split. }
      now apply filter_In in Hf. }
  split; [| split].
  - intro c. rewrite (Hin (FilledZero c) eq_refl), Hz, filter_In.
    rewrite In_fill_lines. split.
    + intros [Hdr | (c' & Hc' & [(Hzf & E) | (_ & E)])].
      * apply in_map_iff in Hdr. destruct Hdr as (k & E & _). discriminate.
      * injection E as ->. now split.
      * discriminate.
    + intros [Hc Hzf]. right. exists c. split; [exact Hc | left; now split].
  - intros c m. rewrite (Hin (FilledMedian c m) eq_refl), Hm.
    rewrite In_fill_lines. split.
    + intros [Hdr | (c' & Hc' & [(_ & E) | (Hmf & E)])].
      * apply in_map_iff in Hdr. destruct Hdr as (k & E & _). discriminate.
      * discriminate.
      * injection E as -> ->.
        now rewrite (proj2 (mem_In c' names) Hc'), Hmf.
    + destruct (mem c names) eqn:Ec; [| discriminate].
      destruct (median_filled fdf c) eqn:Emf; [| discriminate].
      cbn [andb]. intros [= <-]. right. exists c.
      split; [now apply mem_In | right; now split].
  - intro c. rewrite Hd. split.
    + intros (ratio & Hr).
      apply (Hin (DroppedColumn c ratio) eq_refl) in Hr.
      destruct Hr as [Hdr | Hfl].
      * apply in_map_iff in Hdr. destruct Hdr as (k & E & Hk).
        now injection E as -> _.
      * apply In_fill_lines in Hfl.
        destruct Hfl as (c' & _ & [(_ & E) | (_ & E)]); discriminate.
    + intro Hc. exists (missing_ratio df2 c).
      apply (Hin (DroppedColumn c (missing_ratio df2 c)) eq_refl). left.
      apply in_map_iff. now exists c.
Qed.

(** The plain sample: x is printed as median-filled with 2, the count as
    zero-filled, the sparse column as dropped. *)
Lemma fit_log_matches_plan_witness :
  exists r,
    outcome (clean_and_impute no_float plain_sample) = Ok r /\
    In "visit_count" (zero_cols (fit_info r)) /\
    lookup "x" (median_cols (fit_info r)) = Some (num 2) /\
    In "sparse" (dropped_cols (fit_info r)).
Proof.
  destruct (outcome (clean_and_impute no_float plain_sample)) as [r | e]
    eqn:E; [| vm_compute in E; discriminate].
  exists r. split; [reflexivity |].
  destruct (fit_log_matches_plan no_float plain_sample r) as (Hz & Hm & Hd).
  - vm_compute. repeat constructor; simpl; intuition discriminate.
  - exact E.
  - assert (Hlog : printed (clean_and_impute no_float plain_sample)
                   = [DroppedRows 1; DroppingColumns;
                      DroppedColumn "sparse" (Some (2 # 3)%Q);
                      FilledMedian "x" (num 2); FilledZero "visit_count";
                      FeatureShape 3 2; TargetShape 3; UniformBaseWeights;
                      InternalFlagNotFound])
      by (vm_compute; reflexivity).
    rewrite Hlog in Hz, Hm, Hd. split; [| split].
    + apply (proj1 (Hz "visit_count")). simpl. tauto.
    + apply (proj1 (Hm "x" (num 2))). simpl. tauto.
    + apply (proj1 (Hd "sparse")). exists (Some (2 # 3)%Q). simpl. tauto.
Defined.
